(** * sap-stocks-tool: the transaction engine, the rate resolver, the ledger
    assembler and the ledger persistence of [sap-stocks-tool.py].

    The development follows the source file top-down:
    - [PyNumber]: the arithmetic of Python numbers, with two instances
      ([Binary64], what CPython computes, and [Decimal], exact decimals);
    - [pyval], [exn], [StockTransactionEntry]: values, exceptions, entries;
    - [yesterday_str], [_get_eur_quotation_data_for_date]: the resolver with
      its module-level cache and the external rate service;
    - [process_transactions]: the pass over a registry of entry objects that
      are mutated in place;
    - [merge_transactional_data] and [list_sort];
    - [save_stock_entries_to_excel], [parse_enum],
      [load_stock_entries_from_excel]. *)

From Stdlib Require Import ZArith QArith Lia Ascii Sorted PrimFloat FloatOps FloatAxioms SpecFloat.
From stdpp Require Import base option list gmap strings.

Set Warnings "-inexact-float".
Local Open Scope string_scope.
Local Open Scope list_scope.
Local Open Scope Z_scope.

(** ** Numbers

    Every number the tool handles is a Python [float]: rates go through
    [float(...)], quantities and prices are read from spreadsheet cells.
    The code only adds, subtracts, multiplies, divides and compares them, so
    the engine is written over this interface.  [num_is_zero] is the test
    behind [ZeroDivisionError]; [num_nan] is what pandas hands back for an
    empty cell and [num_is_nan] is [pd.isna] on a number. *)

Class PyNumber := {
  num : Type;
  num_zero : num;
  num_add : num -> num -> num;
  num_sub : num -> num -> num;
  num_mul : num -> num -> num;
  num_div : num -> num -> num;
  num_is_zero : num -> bool;
  num_ltb : num -> num -> bool;
  num_eqb : num -> num -> bool;
  num_nan : num;
  num_is_nan : num -> bool;
  num_nan_unique : forall x, num_is_nan x = true -> x = num_nan;
  num_nan_is_nan : num_is_nan num_nan = true;
  (** [TAX_ON_PROFIT_PERCENTAGE=0.15] *)
  TAX_ON_PROFIT_PERCENTAGE : num
}.

(** *** IEEE binary64, the arithmetic CPython runs. *)

Lemma SFcompare_refl_not_nan (s : spec_float) :
  s <> S754_nan -> SFeqb s s = true.
Proof.
  unfold SFeqb. destruct s as [sg|sg| |sg m e]; simpl; try congruence.
  - destruct sg; reflexivity.
  - intros _. destruct sg; rewrite Z.compare_refl.
    + unfold CompOpp. rewrite Pos.compare_cont_refl. reflexivity.
    + rewrite Pos.compare_cont_refl. reflexivity.
Qed.

Lemma float_nan_unique (x : float) : PrimFloat.is_nan x = true -> x = nan.
Proof.
  unfold PrimFloat.is_nan. rewrite FloatAxioms.eqb_spec. intros H.
  apply Prim2SF_inj.
  destruct (Prim2SF x) as [sg|sg| |sg m e] eqn:E; try reflexivity;
    rewrite SFcompare_refl_not_nan in H by discriminate; discriminate.
Qed.

Definition Binary64 : PyNumber := {|
  num := float;
  num_zero := 0%float;
  num_add := PrimFloat.add;
  num_sub := PrimFloat.sub;
  num_mul := PrimFloat.mul;
  num_div := PrimFloat.div;
  num_is_zero := fun x => PrimFloat.eqb x 0%float;
  num_ltb := PrimFloat.ltb;
  num_eqb := PrimFloat.eqb;
  num_nan := nan;
  num_is_nan := PrimFloat.is_nan;
  num_nan_unique := float_nan_unique;
  num_nan_is_nan := eq_refl;
  TAX_ON_PROFIT_PERCENTAGE := 0.15%float
|}.

(** *** Exact decimals: the numbers of the specification.  Results are kept
    in lowest terms so that equal numbers are equal terms; [DecNaN] is the
    not-a-number of an empty cell and propagates through every operation. *)

Inductive decimal := Dec (q : Q) | DecNaN.

Definition dec_lift2 (f : Q -> Q -> Q) (a b : decimal) : decimal :=
  match a, b with
  | Dec x, Dec y => Dec (Qred (f x y))
  | _, _ => DecNaN
  end.

Definition dec_test2 (f : Q -> Q -> bool) (a b : decimal) : bool :=
  match a, b with
  | Dec x, Dec y => f x y
  | _, _ => false
  end.

Definition dec_is_nan (a : decimal) : bool :=
  match a with DecNaN => true | Dec _ => false end.

Definition Qlt_bool (x y : Q) : bool := negb (Qle_bool y x).

Lemma dec_nan_unique (x : decimal) : dec_is_nan x = true -> x = DecNaN.
Proof. destruct x; [discriminate | reflexivity]. Qed.

Definition Decimal : PyNumber := {|
  num := decimal;
  num_zero := Dec 0;
  num_add := dec_lift2 Qplus;
  num_sub := dec_lift2 Qminus;
  num_mul := dec_lift2 Qmult;
  num_div := dec_lift2 Qdiv;
  num_is_zero := fun x => dec_test2 Qeq_bool x (Dec 0);
  num_ltb := dec_test2 Qlt_bool;
  num_eqb := dec_test2 Qeq_bool;
  num_nan := DecNaN;
  num_is_nan := dec_is_nan;
  num_nan_unique := dec_nan_unique;
  num_nan_is_nan := eq_refl;
  TAX_ON_PROFIT_PERCENTAGE := Dec (Qred 0.15)
|}.

(** ** Exceptions and the outcome of a call

    A call returns a value, raises, or (for the resolver's unbounded
    [while not done] loop) is still running when the fuel is spent.  The
    state after the call is kept in both cases that end: objects mutated
    before a [raise] stay mutated. *)

Inductive exn :=
| ValueError | TypeError | IndexError | KeyError | ZeroDivisionError
| AttributeError | OverflowError | FileNotFoundError.

Inductive outcome (S A : Type) :=
| Returned (a : A) (s : S)
| Raised (e : exn) (s : S)
| Hung.
Arguments Returned {S A} a s.
Arguments Raised {S A} e s.
Arguments Hung {S A}.

Definition M (S A : Type) : Type := S -> outcome S A.

Definition ret {S A} (a : A) : M S A := fun s => Returned a s.
Definition raise {S A} (e : exn) : M S A := fun s => Raised e s.
Definition bind {S A B} (m : M S A) (k : A -> M S B) : M S B :=
  fun s => match m s with
           | Returned a s' => k a s'
           | Raised e s' => Raised e s'
           | Hung => Hung
           end.
Definition get {S} : M S S := fun s => Returned s s.
Definition put {S} (s : S) : M S unit := fun _ => Returned tt s.
Definition modify {S} (f : S -> S) : M S unit := fun s => Returned tt (f s).
(** A pure computation that may raise ([inl e]) lifted into [M]. *)
Definition lift {S A} (r : exn + A) : M S A :=
  match r with inl e => raise e | inr a => ret a end.

(** [finishes_as o o']: the run [o'], which had more fuel, ends as [o]
    did, if [o] ended at all. *)
Definition finishes_as {S A} (o o' : outcome S A) : Prop := o = Hung \/ o' = o.

Declare Scope py_scope.
Delimit Scope py_scope with py.
Notation "x <- m ;; k" := (bind m (fun x => k))
  (at level 100, m at next level, right associativity) : py_scope.
Notation "m ;;; k" := (bind m (fun _ => k))
  (at level 100, right associativity) : py_scope.

(** * Part I: the program *)

Section Engine.
Context {N : PyNumber}.
Local Open Scope py_scope.

(** ** Values and entries *)

Inductive OpType := BUY | SELL.
Inductive CurrencyConversionType := EUR_TO_BRL | BRL_TO_EUR.

(** The values an attribute of an entry or a cell of a row can hold. *)
Inductive pyval :=
| PNone
| PNum (x : num)
| PStr (s : string)
| POp (o : OpType)
| PConv (c : CurrencyConversionType).

(** An entry object.  The twelve attributes of [__init__], and
    [total_cost_brl], which exists only once [process_transactions] has
    assigned it ([None] here means: no such attribute). *)
Record StockTransactionEntry := mkEntry {
  date : pyval;
  op_type : pyval;
  qty : pyval;
  total_qty : pyval;
  cur_conv_rate : pyval;
  cur_conv_type : pyval;
  avg_price : pyval;
  price_eur : pyval;
  price_brl : pyval;
  net_proceeds : pyval;
  profit : pyval;
  tax : pyval;
  total_cost_brl : option pyval
}.

(** [StockTransactionEntry.__init__], keyword defaults written out by the
    callers. *)
Definition new_entry (date op_type qty total_qty cur_conv_rate cur_conv_type
    avg_price price_eur price_brl net_proceeds profit tax : pyval)
  : StockTransactionEntry :=
  mkEntry date op_type qty total_qty cur_conv_rate cur_conv_type avg_price
          price_eur price_brl net_proceeds profit tax None.

(** Attribute assignments [transaction.<attr> = v]. *)
Definition set_cur_conv_rate (v : pyval) (t : StockTransactionEntry) :=
  mkEntry (date t) (op_type t) (qty t) (total_qty t) v (cur_conv_type t)
          (avg_price t) (price_eur t) (price_brl t) (net_proceeds t)
          (profit t) (tax t) (total_cost_brl t).
Definition set_total_qty (v : pyval) (t : StockTransactionEntry) :=
  mkEntry (date t) (op_type t) (qty t) v (cur_conv_rate t) (cur_conv_type t)
          (avg_price t) (price_eur t) (price_brl t) (net_proceeds t)
          (profit t) (tax t) (total_cost_brl t).
Definition set_avg_price (v : pyval) (t : StockTransactionEntry) :=
  mkEntry (date t) (op_type t) (qty t) (total_qty t) (cur_conv_rate t)
          (cur_conv_type t) v (price_eur t) (price_brl t) (net_proceeds t)
          (profit t) (tax t) (total_cost_brl t).
Definition set_price_brl (v : pyval) (t : StockTransactionEntry) :=
  mkEntry (date t) (op_type t) (qty t) (total_qty t) (cur_conv_rate t)
          (cur_conv_type t) (avg_price t) (price_eur t) v (net_proceeds t)
          (profit t) (tax t) (total_cost_brl t).
Definition set_profit (v : pyval) (t : StockTransactionEntry) :=
  mkEntry (date t) (op_type t) (qty t) (total_qty t) (cur_conv_rate t)
          (cur_conv_type t) (avg_price t) (price_eur t) (price_brl t)
          (net_proceeds t) v (tax t) (total_cost_brl t).
Definition set_tax (v : pyval) (t : StockTransactionEntry) :=
  mkEntry (date t) (op_type t) (qty t) (total_qty t) (cur_conv_rate t)
          (cur_conv_type t) (avg_price t) (price_eur t) (price_brl t)
          (net_proceeds t) (profit t) v (total_cost_brl t).
Definition set_total_cost_brl (v : pyval) (t : StockTransactionEntry) :=
  mkEntry (date t) (op_type t) (qty t) (total_qty t) (cur_conv_rate t)
          (cur_conv_type t) (avg_price t) (price_eur t) (price_brl t)
          (net_proceeds t) (profit t) (tax t) (Some v).

(** ** Python operators on values

    In [process_transactions] the left operand of the first operation on
    every attribute is a number, so an operand that is not a number always
    ends in [TypeError]. *)
Definition py_arith (f : num -> num -> num) (a b : pyval) : exn + pyval :=
  match a, b with
  | PNum x, PNum y => inr (PNum (f x y))
  | _, _ => inl TypeError
  end.
Definition py_add := py_arith num_add.
Definition py_sub := py_arith num_sub.
Definition py_mul := py_arith num_mul.
(** [a / b] on floats raises [ZeroDivisionError] on a zero divisor. *)
Definition py_truediv (a b : pyval) : exn + pyval :=
  match a, b with
  | PNum x, PNum y =>
      if num_is_zero y then inl ZeroDivisionError else inr (PNum (num_div x y))
  | _, _ => inl TypeError
  end.

(** ** Strings: [str.split('-')], [int(s)], [f"{n:02d}"] *)

Definition dash : ascii := "-"%char.

(** [s.split('-')]: the pieces between dashes, empty pieces included. *)
Fixpoint split_dash_aux (s : string) (piece : string) : list string :=
  match s with
  | EmptyString => [String.rev piece]
  | String c s' =>
      if Ascii.eqb c dash then String.rev piece :: split_dash_aux s' EmptyString
      else split_dash_aux s' (String c piece)
  end.
Definition split_dash (s : string) : list string := split_dash_aux s EmptyString.

Definition digit_of_ascii (c : ascii) : option Z :=
  let n := Z.of_N (N_of_ascii c) in
  if (48 <=? n) && (n <=? 57) then Some (n - 48) else None.

Fixpoint int_of_digits (s : string) (acc : Z) : option Z :=
  match s with
  | EmptyString => Some acc
  | String c s' =>
      match digit_of_ascii c with
      | Some d => int_of_digits s' (10 * acc + d)
      | None => None
      end
  end.

(** [int(s)] on a string of ASCII decimal digits.  The other spellings
    [int] accepts (surrounding blanks, a sign, underscores) do not occur in
    the pieces of an ISO date and are not modelled: they end in
    [ValueError] here. *)
Definition py_int (s : string) : exn + Z :=
  match s with
  | EmptyString => inl ValueError
  | _ => match int_of_digits s 0 with
         | Some n => inr n
         | None => inl ValueError
         end
  end.

Definition ascii_of_digit (d : Z) : ascii := ascii_of_N (Z.to_N (48 + d)).

(** [f"{n:02d}"] and [f"{n:04d}"] for the fields of a [datetime]
    ([0 <= n < 100], [0 <= n < 10000]). *)
Definition fmt_02d (n : Z) : string :=
  String (ascii_of_digit (n / 10)) (String (ascii_of_digit (n mod 10)) EmptyString).
Definition fmt_04d (n : Z) : string :=
  String (ascii_of_digit (n / 1000))
    (String (ascii_of_digit (n / 100 mod 10))
       (String (ascii_of_digit (n / 10 mod 10))
          (String (ascii_of_digit (n mod 10)) EmptyString))).

(** ** [datetime] and [yesterday_str] *)

Definition is_leap (y : Z) : bool :=
  ((y mod 4 =? 0) && negb (y mod 100 =? 0)) || (y mod 400 =? 0).

Definition days_in_month (y m : Z) : Z :=
  if m =? 2 then (if is_leap y then 29 else 28)
  else if (m =? 4) || (m =? 6) || (m =? 9) || (m =? 11) then 30
  else 31.

(** [datetime(y, m, d)]: [ValueError] outside the calendar. *)
Definition datetime (y m d : Z) : exn + (Z * Z * Z) :=
  if (1 <=? y) && (y <=? 9999) && (1 <=? m) && (m <=? 12)
     && (1 <=? d) && (d <=? days_in_month y m)
  then inr (y, m, d) else inl ValueError.

(** [dt - timedelta(days=1)]: [OverflowError] before 0001-01-01. *)
Definition minus_one_day (dt : Z * Z * Z) : exn + (Z * Z * Z) :=
  let '(y, m, d) := dt in
  if 1 <? d then inr (y, m, d - 1)
  else if 1 <? m then inr (y, m - 1, days_in_month y (m - 1))
  else if 1 <? y then inr (y - 1, 12, 31)
  else inl OverflowError.

(** A date as the resolver passes it around: the strings (year, month, day). *)
Definition ymd : Type := string * string * string.

Definition yesterday_str (date_tuple : ymd) : exn + ymd :=
  let '(year_s, month_s, day_s) := date_tuple in
  match py_int year_s with inl e => inl e | inr y =>
  match py_int month_s with inl e => inl e | inr m =>
  match py_int day_s with inl e => inl e | inr d =>
  match datetime y m d with inl e => inl e | inr dt =>
  match minus_one_day dt with inl e => inl e | inr (py, pm, pd) =>
    inr (fmt_04d py, fmt_02d pm, fmt_02d pd)
  end end end end end.

(** ** The exchange-rate resolver

    The service answers a GET for one date with a JSON document
    [{"value": [...]}]; of each quotation the tool reads [cotacaoCompra]
    and [cotacaoVenda] (through [float]).  [bcb] is the service: the
    document it answers with for the date written in the URL.  The service
    is taken to answer every request, with a document of that form, and to
    answer the same for the same date. *)

Record quotation := mkQuotation { cotacaoCompra : num; cotacaoVenda : num }.
Record response := mkResponse { value : list quotation }.

(** [BCB_CACHE_FOR_EUR_REQUESTS], and the dates of the requests sent so far
    (oldest first). *)
Record resolver_state := mkResolver {
  BCB_CACHE_FOR_EUR_REQUESTS : gmap string response;
  requests : list string
}.

Variable bcb : string -> response.

(** [f'{month}-{day}-{year}'] *)
Definition us_date (year month day : string) : string :=
  month +:+ "-" +:+ day +:+ "-" +:+ year.

Definition requests_get (date : string) : M resolver_state response :=
  fun s => Returned (bcb date)
             (mkResolver (BCB_CACHE_FOR_EUR_REQUESTS s) (requests s ++ [date])).

Definition cache_store (date : string) (result : response) : M resolver_state unit :=
  modify (fun s => mkResolver (<[date := result]> (BCB_CACHE_FOR_EUR_REQUESTS s))
                              (requests s)).

(** The [while not done] loop.  The assignment
    [BCB_CACHE_FOR_EUR_REQUESTS[date] = result] closes every iteration, after
    [date] has been moved back one day when the answer was empty. *)
Fixpoint fetch_loop (fuel : nat) (year month day date : string)
  : M resolver_state response :=
  match fuel with
  | O => fun _ => Hung
  | S fuel' =>
      result <- requests_get date ;;
      if (length (value result) =? 0)%nat then
        prev <- lift (yesterday_str (year, month, day)) ;;
        let '(year', month', day') := prev in
        let new_date := us_date year' month' day' in
        cache_store new_date result ;;;
        fetch_loop fuel' year' month' day' new_date
      else
        cache_store date result ;;;
        ret result
  end.

Definition _get_eur_quotation_data_for_date (fuel : nat) (year month day : string)
  : M resolver_state response :=
  let date := us_date year month day in
  s <- get ;;
  match BCB_CACHE_FOR_EUR_REQUESTS s !! date with
  | Some result => ret result
  | None => fetch_loop fuel year month day date
  end.

(** [result['value'][0][key]]: [IndexError] on an empty list. *)
Definition first_quotation (key : quotation -> num) (result : response)
  : M resolver_state pyval :=
  match value result with
  | [] => raise IndexError
  | q :: _ => ret (PNum (key q))
  end.

Definition get_price_for_buying_eur_at_date (fuel : nat) (year month day : string)
  : M resolver_state pyval :=
  result <- _get_eur_quotation_data_for_date fuel year month day ;;
  first_quotation cotacaoCompra result.

Definition get_price_for_selling_eur_at_date (fuel : nat) (year month day : string)
  : M resolver_state pyval :=
  result <- _get_eur_quotation_data_for_date fuel year month day ;;
  first_quotation cotacaoVenda result.

(** ** The transaction processor

    The registry is a list of references to entry objects; the objects live
    in [heap] and are mutated in place.  The cache and the request log of
    the resolver are the other half of the state. *)

Record store := mkStore {
  heap : list StockTransactionEntry;
  resolver : resolver_state
}.

(** The body of the [for] loop works on one object, the one the loop
    variable [transaction] refers to. *)
Record frame := mkFrame {
  transaction : StockTransactionEntry;
  frame_resolver : resolver_state
}.

Definition with_resolver {A} (m : M resolver_state A) : M frame A :=
  fun f => match m (frame_resolver f) with
           | Returned a r => Returned a (mkFrame (transaction f) r)
           | Raised e r => Raised e (mkFrame (transaction f) r)
           | Hung => Hung
           end.

(** [transaction.<attr>] and [transaction.<attr> = v]. *)
Definition getattr (attr : StockTransactionEntry -> pyval) : M frame pyval :=
  fun f => Returned (attr (transaction f)) f.

Definition setattr
    (attr : pyval -> StockTransactionEntry -> StockTransactionEntry) (v : pyval)
  : M frame unit :=
  modify (fun f => mkFrame (attr v (transaction f)) (frame_resolver f)).

(** [transaction.get_date_as_tuple()] and the call that unpacks it: a date that
    is no string has no [split]; a tuple of another length than three does
    not fit the three parameters. *)
Definition get_date_as_tuple (d : pyval) : exn + list string :=
  match d with
  | PStr s => inr (split_dash s)
  | _ => inl AttributeError
  end.

Definition call_with_date {A} (f : string -> string -> string -> M resolver_state A)
    (args : list string) : M resolver_state A :=
  match args with
  | [year; month; day] => f year month day
  | _ => raise TypeError
  end.

(** The three running aggregates of the pass. *)
Record totals := mkTotals {
  cur_total_qty : pyval;
  cur_total_cost_brl : pyval;
  current_avg_price : pyval
}.

(** The branch [if transaction.op_type == OpType.BUY]. *)
Definition process_buy (fuel : nat) (st : totals) : M frame totals :=
  d <- getattr date ;;
  args <- lift (get_date_as_tuple d) ;;
  buying_price_eur <-
    with_resolver (call_with_date (get_price_for_buying_eur_at_date fuel) args) ;;
  q <- getattr qty ;;
  total_qty' <- lift (py_add (cur_total_qty st) q) ;;
  pe <- getattr price_eur ;;
  q <- getattr qty ;;
  pq <- lift (py_mul pe q) ;;
  price_brl' <- lift (py_mul pq buying_price_eur) ;;
  total_cost_brl' <- lift (py_add (cur_total_cost_brl st) price_brl') ;;
  current_avg_price' <- lift (py_truediv total_cost_brl' total_qty') ;;
  setattr set_cur_conv_rate buying_price_eur ;;;
  setattr set_total_qty total_qty' ;;;
  setattr set_price_brl price_brl' ;;;
  setattr set_total_cost_brl total_cost_brl' ;;;
  setattr set_avg_price current_avg_price' ;;;
  ret (mkTotals total_qty' total_cost_brl' current_avg_price').

(** The branch [elif transaction.op_type == OpType.SELL]. *)
Definition process_sell (fuel : nat) (st : totals) : M frame totals :=
  d <- getattr date ;;
  args <- lift (get_date_as_tuple d) ;;
  selling_price_eur <-
    with_resolver (call_with_date (get_price_for_selling_eur_at_date fuel) args) ;;
  q <- getattr qty ;;
  total_qty' <- lift (py_sub (cur_total_qty st) q) ;;
  q <- getattr qty ;;
  sold <- lift (py_mul q (current_avg_price st)) ;;
  total_cost_brl' <- lift (py_sub (cur_total_cost_brl st) sold) ;;
  np <- getattr net_proceeds ;;
  proceeds <- lift (py_mul selling_price_eur np) ;;
  q <- getattr qty ;;
  basis <- lift (py_mul q (current_avg_price st)) ;;
  profit' <- lift (py_sub proceeds basis) ;;
  setattr set_cur_conv_rate selling_price_eur ;;;
  setattr set_total_qty total_qty' ;;;
  setattr set_profit profit' ;;;
  setattr set_avg_price (current_avg_price st) ;;;
  pe <- getattr price_eur ;;
  price_brl' <- lift (py_mul pe selling_price_eur) ;;
  setattr set_price_brl price_brl' ;;;
  tax' <- lift (py_mul profit' (PNum TAX_ON_PROFIT_PERCENTAGE)) ;;
  setattr set_tax tax' ;;;
  ret (mkTotals total_qty' total_cost_brl' (current_avg_price st)).

(** The body of [for transaction in registry_of_transactions]. *)
Definition process_one (fuel : nat) (st : totals) : M frame totals :=
  o <- getattr op_type ;;
  match o with
  | POp BUY => process_buy fuel st
  | POp SELL => process_sell fuel st
  | _ => raise ValueError
  end.

(** Running the body on the object behind a reference: what the body did
    to the object is in the heap afterwards, also when it raised.  A
    reference of a registry always points into the heap; the
    [AttributeError] is the model's answer to one that does not. *)
Definition for_object {A} (ref : nat) (body : M frame A) : M store A :=
  fun s =>
    match heap s !! ref with
    | None => Raised AttributeError s
    | Some t =>
        match body (mkFrame t (resolver s)) with
        | Returned a f =>
            Returned a (mkStore (<[ref := transaction f]> (heap s)) (frame_resolver f))
        | Raised e f =>
            Raised e (mkStore (<[ref := transaction f]> (heap s)) (frame_resolver f))
        | Hung => Hung
        end
    end.

Fixpoint process_loop (fuel : nat) (registry : list nat) (st : totals) : M store totals :=
  match registry with
  | [] => ret st
  | ref :: rest =>
      st' <- for_object ref (process_one fuel st) ;;
      process_loop fuel rest st'
  end.

(** [total_qty = 0], [total_cost_brl = 0], [current_avg_price = 0]. *)
Definition seed : totals := mkTotals (PNum num_zero) (PNum num_zero) (PNum num_zero).

Definition process_transactions (fuel : nat) (registry_of_transactions : list nat)
  : M store (list nat) :=
  process_loop fuel registry_of_transactions seed ;;;
  ret registry_of_transactions.

(** ** The ledger assembler

    [x == y] and [x < y] on the values a sort key can hold.  Strings compare
    by code point ([String.ltb] on the encoded bytes, which orders the same
    way); numbers compare as floats; [None] and enum members have no
    order. *)
Definition OpType_eqb (a b : OpType) : bool :=
  match a, b with BUY, BUY | SELL, SELL => true | _, _ => false end.
Definition CurrencyConversionType_eqb (a b : CurrencyConversionType) : bool :=
  match a, b with
  | EUR_TO_BRL, EUR_TO_BRL | BRL_TO_EUR, BRL_TO_EUR => true
  | _, _ => false
  end.

Definition py_eq (a b : pyval) : bool :=
  match a, b with
  | PNone, PNone => true
  | PNum x, PNum y => num_eqb x y
  | PStr s, PStr t => String.eqb s t
  | POp o, POp o' => OpType_eqb o o'
  | PConv c, PConv c' => CurrencyConversionType_eqb c c'
  | _, _ => false
  end.

Definition py_lt (a b : pyval) : exn + bool :=
  match a, b with
  | PNum x, PNum y => inr (num_ltb x y)
  | PStr s, PStr t => inr (String.ltb s t)
  | _, _ => inl TypeError
  end.

(** [StockTransactionEntry.sort_by_date]: the key [(x.date, 0 or 1)]. *)
Definition sort_by_date (x : StockTransactionEntry) : pyval * Z :=
  (date x, if py_eq (op_type x) (POp BUY) then 0 else 1).

(** [k1 < k2] on such tuples: the first components that differ decide. *)
Definition key_lt (k1 k2 : pyval * Z) : exn + bool :=
  if py_eq (fst k1) (fst k2) then inr (snd k1 <? snd k2)
  else py_lt (fst k1) (fst k2).

(** [list.sort(key=...)].  The sort is stable and compares keys with [<]
    only; on keys that [<] orders totally every stable sort returns the same
    list, so the algorithm is written as an insertion sort.  A comparison
    that raises ends the sort. *)
Fixpoint sort_insert {A} (key : A -> pyval * Z) (x : A) (sorted : list A)
  : exn + list A :=
  match sorted with
  | [] => inr [x]
  | y :: rest =>
      match key_lt (key y) (key x) with
      | inl e => inl e
      | inr true =>
          match sort_insert key x rest with
          | inl e => inl e
          | inr rest' => inr (y :: rest')
          end
      | inr false => inr (x :: y :: rest)
      end
  end.

Fixpoint list_sort {A} (key : A -> pyval * Z) (l : list A) : exn + list A :=
  match l with
  | [] => inr []
  | x :: l' =>
      match list_sort key l' with
      | inl e => inl e
      | inr sorted => sort_insert key x sorted
      end
  end.

Definition buy_entry (r : pyval * pyval * pyval) : StockTransactionEntry :=
  let '(date, price_eur, qty) := r in
  new_entry date (POp BUY) qty PNone PNone (PConv EUR_TO_BRL) PNone
            price_eur PNone PNone PNone PNone.

Definition sell_entry (r : pyval * pyval * pyval * pyval) : StockTransactionEntry :=
  let '(date, execution_price, qty, net_proceeds) := r in
  new_entry date (POp SELL) qty PNone PNone (PConv BRL_TO_EUR) PNone
            execution_price PNone net_proceeds PNone PNone.

Definition merge_transactional_data
    (buy_transactional_data : list (pyval * pyval * pyval))
    (sell_transactional_data : list (pyval * pyval * pyval * pyval))
    (sort : bool) : exn + list StockTransactionEntry :=
  let registry_of_transactions :=
    map buy_entry buy_transactional_data ++ map sell_entry sell_transactional_data in
  if sort then list_sort sort_by_date registry_of_transactions
  else inr registry_of_transactions.

(** ** Persistence: the ledger as a spreadsheet

    An [Enum] class as [parse_enum] uses it: its [__name__] and the lookup
    [enum_class[member_name]]. *)
Class PyEnum (E : Type) := {
  enum_class_name : string;
  enum_member_name : E -> string;
  enum_members : list E;
  enum_value : E -> pyval
}.

#[global] Instance OpType_enum : PyEnum OpType := {|
  enum_class_name := "OpType";
  enum_member_name := fun o => match o with BUY => "BUY" | SELL => "SELL" end;
  enum_members := [BUY; SELL];
  enum_value := POp
|}.

#[global] Instance CurrencyConversionType_enum : PyEnum CurrencyConversionType := {|
  enum_class_name := "CurrencyConversionType";
  enum_member_name :=
    fun c => match c with EUR_TO_BRL => "EUR_TO_BRL" | BRL_TO_EUR => "BRL_TO_EUR" end;
  enum_members := [EUR_TO_BRL; BRL_TO_EUR];
  enum_value := PConv
|}.

(** [str(member)], e.g. ['OpType.BUY']: what lands in the sheet. *)
Definition enum_str {E} `{PyEnum E} (e : E) : string :=
  enum_class_name +:+ "." +:+ enum_member_name e.

(** [enum_class[member_name]], [None] standing for [KeyError]. *)
Definition enum_getitem (E : Type) `{PyEnum E} (member_name : string) : option E :=
  find (fun e => String.eqb (enum_member_name e) member_name) enum_members.

(** The regular expression [^<enum_name>\.(\w+)$] under [re.match]. *)
Definition is_word_char (c : ascii) : bool :=
  let n := Z.of_N (N_of_ascii c) in
  ((48 <=? n) && (n <=? 57)) || ((65 <=? n) && (n <=? 90))
  || ((97 <=? n) && (n <=? 122)) || (n =? 95).

Fixpoint strip_prefix (p s : string) : option string :=
  match p, s with
  | EmptyString, _ => Some s
  | String a p', String b s' => if Ascii.eqb a b then strip_prefix p' s' else None
  | String _ _, EmptyString => None
  end.

(** The longest run of word characters at the head of [s], and the rest. *)
Fixpoint take_word (s : string) : string * string :=
  match s with
  | String c s' =>
      if is_word_char c then let '(w, rest) := take_word s' in (String c w, rest)
      else (EmptyString, s)
  | EmptyString => (EmptyString, EmptyString)
  end.

Definition newline : string := String (ascii_of_N 10) EmptyString.

(** [parse_enum(enum_class, value)]: [None] for a value that is empty or
    no string, then the match.  [\w+] is greedy and [$] matches at the
    end or before one final newline, so the pattern matches exactly when the
    longest word run after the prefix is followed by one of the two.  Bytes
    outside ASCII are no word characters here; in Python some are, and the
    member lookup then fails: [None] either way. *)
Definition parse_enum (E : Type) `{PyEnum E} (value : pyval) : pyval :=
  match value with
  | PStr s =>
      if String.eqb s EmptyString then PNone else
      match strip_prefix (enum_class_name +:+ ".") s with
      | Some rest =>
          let '(member_name, tail) := take_word rest in
          if negb (String.eqb member_name EmptyString)
             && (String.eqb tail EmptyString || String.eqb tail newline)
          then match enum_getitem E member_name with
               | Some e => enum_value e
               | None => PNone
               end
          else PNone
      | None => PNone
      end
  | _ => PNone
  end.

(** A cell of a sheet holds a number or a text; an empty cell is no cell.
    A whole number that pandas reads back as an [int] is the same number
    here: Python's [==] does not tell [10] from [10.0]. *)
Inductive cell := CNum (x : num) | CStr (s : string).

(** A workbook with one sheet: the header row and, per data row, the cells
    that are not empty, by column name. *)
Record sheet := mkSheet {
  columns : list string;
  rows : list (gmap string cell)
}.

(** [entry.__dict__], in the order the attributes were first assigned. *)
Definition entry_dict (t : StockTransactionEntry) : list (string * pyval) :=
  [("date", date t); ("op_type", op_type t); ("qty", qty t);
   ("total_qty", total_qty t); ("cur_conv_rate", cur_conv_rate t);
   ("cur_conv_type", cur_conv_type t); ("avg_price", avg_price t);
   ("price_eur", price_eur t); ("price_brl", price_brl t);
   ("net_proceeds", net_proceeds t); ("profit", profit t); ("tax", tax t)]
  ++ match total_cost_brl t with
     | Some v => [("total_cost_brl", v)]
     | None => []
     end.

(** [pd.DataFrame(list of dicts)]: the columns are the keys in the order
    they are first met. *)
Definition add_column (cols : list string) (k : string) : list string :=
  if existsb (String.eqb k) cols then cols else cols ++ [k].
Definition frame_columns (dicts : list (list (string * pyval))) : list string :=
  foldl (fun cols d => foldl add_column cols (map fst d)) [] dicts.

(** [df.to_excel]: [None] and NaN leave the cell empty, numbers and texts
    are written as they are, any other object as its [str]. *)
Definition write_cell (v : pyval) : option cell :=
  match v with
  | PNone => None
  | PNum x => if num_is_nan x then None else Some (CNum x)
  | PStr s => Some (CStr s)
  | POp o => Some (CStr (enum_str o))
  | PConv c => Some (CStr (enum_str c))
  end.

Definition to_excel (dicts : list (list (string * pyval))) : sheet :=
  mkSheet (frame_columns dicts)
          (map (fun d => omap write_cell (list_to_map d : gmap string pyval)) dicts).

(** [pd.read_excel]: an empty cell reads as NaN, and so does a text that is
    one of pandas' spellings of a missing value. *)
Definition na_values : list string :=
  [""; "#N/A"; "#N/A N/A"; "#NA"; "-1.#IND"; "-1.#QNAN"; "-NaN"; "-nan";
   "1.#IND"; "1.#QNAN"; "<NA>"; "N/A"; "NA"; "NULL"; "NaN"; "None"; "n/a";
   "nan"; "null"].

Definition read_cell (c : option cell) : pyval :=
  match c with
  | None => PNum num_nan
  | Some (CNum x) => PNum x
  | Some (CStr s) => if existsb (String.eqb s) na_values then PNum num_nan else PStr s
  end.

(** [row[k]] raises [KeyError] when the frame has no such column;
    [row.get(k)] answers [None] then. *)
Definition row_getitem (sh : sheet) (row : gmap string cell) (k : string)
  : exn + pyval :=
  if existsb (String.eqb k) (columns sh) then inr (read_cell (row !! k))
  else inl KeyError.
Definition row_get (sh : sheet) (row : gmap string cell) (k : string) : pyval :=
  if existsb (String.eqb k) (columns sh) then read_cell (row !! k) else PNone.

Definition ebind {A B} (r : exn + A) (k : A -> exn + B) : exn + B :=
  match r with inl e => inl e | inr a => k a end.

(** The body of [for _, row in df.iterrows()]. *)
Definition load_row (sh : sheet) (row : gmap string cell) : exn + StockTransactionEntry :=
  ebind (row_getitem sh row "date") (fun date =>
  ebind (row_getitem sh row "op_type") (fun op =>
  ebind (row_getitem sh row "qty") (fun qty =>
  ebind (row_getitem sh row "total_qty") (fun total_qty =>
  ebind (row_getitem sh row "cur_conv_rate") (fun cur_conv_rate =>
  ebind (row_getitem sh row "cur_conv_type") (fun conv =>
  ebind (row_getitem sh row "avg_price") (fun avg_price =>
  inr (new_entry date (parse_enum OpType op) qty total_qty cur_conv_rate
         (parse_enum CurrencyConversionType conv) avg_price
         (row_get sh row "price_eur") (row_get sh row "price_brl")
         (row_get sh row "net_proceeds") (row_get sh row "profit")
         (row_get sh row "tax"))))))))).

Fixpoint load_rows (sh : sheet) (rs : list (gmap string cell))
  : exn + list StockTransactionEntry :=
  match rs with
  | [] => inr []
  | row :: rs' =>
      ebind (load_row sh row) (fun entry =>
      ebind (load_rows sh rs') (fun entries => inr (entry :: entries)))
  end.

(** The files of the working directory, by path. *)
Definition save_stock_entries_to_excel (entries : list StockTransactionEntry)
    (output_path : string) : M (gmap string sheet) unit :=
  modify (fun files => <[output_path := to_excel (map entry_dict entries)]> files).

Definition load_stock_entries_from_excel (input_path : string)
  : M (gmap string sheet) (list StockTransactionEntry) :=
  files <- get ;;
  match files !! input_path with
  | None => raise FileNotFoundError
  | Some df => lift (load_rows df (rows df))
  end.

(** ** The process flow

    [process_data] with [print_output] off: load, process, save.  [files]
    are the spreadsheets of the working directory; the entries loaded become
    the objects of a fresh heap. *)
Record world := mkWorld {
  files : gmap string sheet;
  bcb_state : resolver_state
}.

Definition process_data (fuel : nat) (input_path output_path : string) : M world unit :=
  fun w =>
    match load_stock_entries_from_excel input_path (files w) with
    | Returned unprocessed_transactional_data _ =>
        let registry := seq 0 (length unprocessed_transactional_data) in
        match process_transactions fuel registry
                (mkStore unprocessed_transactional_data (bcb_state w)) with
        | Returned processed s =>
            let processed_transactional_data := omap (fun ref => heap s !! ref) processed in
            match save_stock_entries_to_excel processed_transactional_data
                    output_path (files w) with
            | Returned _ files' => Returned tt (mkWorld files' (resolver s))
            | Raised e files' => Raised e (mkWorld files' (resolver s))
            | Hung => Hung
            end
        | Raised e s => Raised e (mkWorld (files w) (resolver s))
        | Hung => Hung
        end
    | Raised e _ => Raised e w
    | Hung => Hung
    end.

(** ** Notions the statements below are written with *)

(** The cache key of a date. *)
Definition key (t : ymd) : string := let '(y, m, d) := t in us_date y m d.

(** [falls_back t skipped t']: the service has no quotation for the dates
    [skipped], which run from [t] back to the day after [t'], and has one
    for [t']: [t'] is the most recent date at or before [t] with data. *)
Inductive falls_back : ymd -> list ymd -> ymd -> Prop :=
| fb_here t :
    value (bcb (key t)) <> [] -> falls_back t [] t
| fb_step t t1 skipped t' :
    value (bcb (key t)) = [] ->
    yesterday_str t = inr t1 ->
    falls_back t1 skipped t' ->
    falls_back t (t :: skipped) t'.

(** The cache after the walk over [skipped]: the empty answer for each
    skipped date is filed under the date that follows it. *)
Fixpoint stale (skipped : list ymd) (t' : ymd) (cache : gmap string response)
  : gmap string response :=
  match skipped with
  | [] => cache
  | t :: rest => stale rest t' (<[key (hd t' rest) := bcb (key t)]> cache)
  end.

(** A date as numbers, when its three strings are one. *)
Definition parse_ymd (t : ymd) : option (Z * Z * Z) :=
  let '(year_s, month_s, day_s) := t in
  match py_int year_s, py_int month_s, py_int day_s with
  | inr y, inr m, inr d =>
      match datetime y m d with inr dt => Some dt | inl _ => None end
  | _, _, _ => None
  end.

(** Days are counted by a number that grows with the calendar. *)
Definition day_rank (dt : Z * Z * Z) : Z :=
  let '(y, m, d) := dt in y * 416 + m * 32 + d.

Fixpoint is_digits (s : string) : bool :=
  match s with
  | EmptyString => true
  | String c s' => match digit_of_ascii c with Some _ => is_digits s' | None => false end
  end.

(** The pass on a list of distinct objects, as a function of the list: the
    objects after the pass come with the outcome. *)
Fixpoint run_list (fuel : nat) (l : list StockTransactionEntry) (st : totals)
    (r : resolver_state) : outcome store totals :=
  match l with
  | [] => Returned st (mkStore [] r)
  | t :: l' =>
      match process_one fuel st (mkFrame t r) with
      | Returned st' f =>
          match run_list fuel l' st' (frame_resolver f) with
          | Returned st'' s => Returned st'' (mkStore (transaction f :: heap s) (resolver s))
          | Raised e s => Raised e (mkStore (transaction f :: heap s) (resolver s))
          | Hung => Hung
          end
      | Raised e f => Raised e (mkStore (transaction f :: l') (frame_resolver f))
      | Hung => Hung
      end
  end.

(** A [datetime] that exists, as a proposition. *)
Definition valid_date (dt : Z * Z * Z) : Prop :=
  let '(y, m, d) := dt in
  1 <= y <= 9999 /\ 1 <= m <= 12 /\ 1 <= d <= days_in_month y m.

(** The dates a walk files an answer under: all but the first. *)
Definition followers (skipped : list ymd) (t' : ymd) : list ymd :=
  match skipped with
  | [] => []
  | _ :: rest => rest ++ [t']
  end.

Definition before (u t : ymd) : Prop :=
  exists dt du, parse_ymd t = Some dt /\ parse_ymd u = Some du
                /\ day_rank du < day_rank dt.

Definition fetch_from (fuel : nat) (t : ymd) : M resolver_state response :=
  let '(y, m, d) := t in fetch_loop fuel y m d (key t).

(** What a resolve that misses the cache leaves behind. *)
Definition after_walk (skipped : list ymd) (t' : ymd) (s : resolver_state)
  : resolver_state :=
  mkResolver
    (<[key t' := bcb (key t')]> (stale skipped t' (BCB_CACHE_FOR_EUR_REQUESTS s)))
    (requests s ++ map key skipped ++ [key t']).

(** The rate an entry is converted with: the quote of its date. *)
Definition rate_of (accessor : nat -> string -> string -> string -> M resolver_state pyval)
    (fuel : nat) (t : StockTransactionEntry) (r : resolver_state) (rate : pyval)
    (r' : resolver_state) : Prop :=
  exists args, get_date_as_tuple (date t) = inr args
               /\ call_with_date (accessor fuel) args r = Returned rate r'.

(** The two transitions of the state machine: the aggregates before, the
    entry, the aggregates after, the entry as the pass leaves it. *)
Inductive transition (fuel : nat) :
  totals -> frame -> totals -> frame -> Prop :=
| transition_buy st t r r' rate total_qty' pq price_brl' total_cost_brl' avg' :
    op_type t = POp BUY ->
    rate_of get_price_for_buying_eur_at_date fuel t r rate r' ->
    py_add (cur_total_qty st) (qty t) = inr total_qty' ->
    py_mul (price_eur t) (qty t) = inr pq ->
    py_mul pq rate = inr price_brl' ->
    py_add (cur_total_cost_brl st) price_brl' = inr total_cost_brl' ->
    py_truediv total_cost_brl' total_qty' = inr avg' ->
    transition fuel st (mkFrame t r)
      (mkTotals total_qty' total_cost_brl' avg')
      (mkFrame
         (set_avg_price avg'
            (set_total_cost_brl total_cost_brl'
               (set_price_brl price_brl'
                  (set_total_qty total_qty' (set_cur_conv_rate rate t))))) r')
| transition_sell st t r r' rate total_qty' sold total_cost_brl' proceeds profit'
    price_brl' tax' :
    op_type t = POp SELL ->
    rate_of get_price_for_selling_eur_at_date fuel t r rate r' ->
    py_sub (cur_total_qty st) (qty t) = inr total_qty' ->
    py_mul (qty t) (current_avg_price st) = inr sold ->
    py_sub (cur_total_cost_brl st) sold = inr total_cost_brl' ->
    py_mul rate (net_proceeds t) = inr proceeds ->
    py_sub proceeds sold = inr profit' ->
    py_mul (price_eur t) rate = inr price_brl' ->
    py_mul profit' (PNum TAX_ON_PROFIT_PERCENTAGE) = inr tax' ->
    transition fuel st (mkFrame t r)
      (mkTotals total_qty' total_cost_brl' (current_avg_price st))
      (mkFrame
         (set_tax tax'
            (set_price_brl price_brl'
               (set_avg_price (current_avg_price st)
                  (set_profit profit'
                     (set_total_qty total_qty' (set_cur_conv_rate rate t)))))) r').

(** The pass over a list of distinct objects, as a chain of transitions. *)
Inductive pass (fuel : nat) :
  totals -> list StockTransactionEntry -> resolver_state ->
  totals -> list StockTransactionEntry -> resolver_state -> Prop :=
| pass_nil st r : pass fuel st [] r st [] r
| pass_cons st t r st1 t1 r1 l st2 l2 r2 :
    transition fuel st (mkFrame t r) st1 (mkFrame t1 r1) ->
    pass fuel st1 l r1 st2 l2 r2 ->
    pass fuel st (t :: l) r st2 (t1 :: l2) r2.

(** An outcome whose heap is preceded by the objects [pre]. *)
Definition with_prefix {A} (pre : list StockTransactionEntry) (o : outcome store A)
  : outcome store A :=
  match o with
  | Returned a s => Returned a (mkStore (pre ++ heap s) (resolver s))
  | Raised e s => Raised e (mkStore (pre ++ heap s) (resolver s))
  | Hung => Hung
  end.

(** The value an attribute carries into step [i]: what the previous
    processed entry holds, or the seed before the first entry. *)
Definition carried (init : pyval) (attr : StockTransactionEntry -> pyval)
    (processed : list StockTransactionEntry) (i : nat) : pyval :=
  match i with
  | O => init
  | S j => from_option attr PNone (processed !! j)
  end.

(** The [avg_price] of the last purchase of a processed prefix, the seed 0
    if it holds none. *)
Definition last_purchase_avg (processed : list StockTransactionEntry) : pyval :=
  foldl (fun acc t => match op_type t with POp BUY => avg_price t | _ => acc end)
        (PNum num_zero) processed.


(** The assembler: ISO dates and the order of the ledger.  [shape] writes
    [0] for every digit; a date in ISO form has the shape [0000-00-00].
    [iso_number] reads the digits of a date as one number (2023-01-05 is
    20230105), which grows with the calendar. *)
Fixpoint shape (s : string) : string :=
  match s with
  | EmptyString => EmptyString
  | String c s' =>
      String (match digit_of_ascii c with Some _ => "0"%char | None => c end) (shape s')
  end.

Definition iso_date (s : string) : Prop := shape s = "0000-00-00".

Fixpoint digits_value (s : string) (acc : Z) : Z :=
  match s with
  | EmptyString => acc
  | String c s' =>
      match digit_of_ascii c with
      | Some d => digits_value s' (10 * acc + d)
      | None => digits_value s' acc
      end
  end.

Definition iso_number (s : string) : Z := digits_value s 0.

Definition date_number (t : StockTransactionEntry) : Z :=
  match date t with PStr s => iso_number s | _ => 0 end.

Definition op_rank (t : StockTransactionEntry) : Z :=
  match op_type t with POp BUY => 0 | _ => 1 end.

(** Earlier date first; on one date, purchases before sales. *)
Definition ledger_le (a b : StockTransactionEntry) : Prop :=
  date_number a < date_number b
  \/ (date_number a = date_number b /\ op_rank a <= op_rank b).

(** The same order as one number. *)
Definition sort_rank (t : StockTransactionEntry) : Z := 2 * date_number t + op_rank t.

Definition iso_dated (t : StockTransactionEntry) : Prop :=
  exists s, date t = PStr s /\ iso_date s.


(** Stable insertion sort by a number. *)
Fixpoint insert_by {A} (rank : A -> Z) (x : A) (sorted : list A) : list A :=
  match sorted with
  | [] => [x]
  | y :: rest => if rank y <? rank x then y :: insert_by rank x rest else x :: y :: rest
  end.

Fixpoint sort_by {A} (rank : A -> Z) (l : list A) : list A :=
  match l with
  | [] => []
  | x :: l' => insert_by rank x (sort_by rank l')
  end.

(** Persistence: the entries a ledger file holds after a pass.  The date is
    an ISO date, the two tags are enum members (or [None], what
    [parse_enum] leaves of a text it does not know), every other declared
    attribute is a number, NaN where the sheet had no value. *)
Definition is_number (v : pyval) : Prop := exists x, v = PNum x.

Definition is_tag {E} `{PyEnum E} (v : pyval) : Prop :=
  v = PNone \/ exists e : E, v = enum_value e.

Definition persistable (t : StockTransactionEntry) : Prop :=
  iso_dated t
  /\ is_tag (E := OpType) (op_type t)
  /\ is_tag (E := CurrencyConversionType) (cur_conv_type t)
  /\ is_number (qty t) /\ is_number (total_qty t) /\ is_number (cur_conv_rate t)
  /\ is_number (avg_price t) /\ is_number (price_eur t) /\ is_number (price_brl t)
  /\ is_number (net_proceeds t) /\ is_number (profit t) /\ is_number (tax t).

(** What [load_stock_entries_from_excel] rebuilds of an entry: the twelve
    attributes of [__init__], and no [total_cost_brl]. *)
Definition reloaded (t : StockTransactionEntry) : StockTransactionEntry :=
  new_entry (date t) (op_type t) (qty t) (total_qty t) (cur_conv_rate t)
            (cur_conv_type t) (avg_price t) (price_eur t) (price_brl t)
            (net_proceeds t) (profit t) (tax t).

(** The row [to_excel] writes for an entry. *)
Definition row_of (t : StockTransactionEntry) : gmap string cell :=
  omap write_cell (list_to_map (entry_dict t) : gmap string pyval).

(** A text that spells no member of the enum class: neither
    [<class>.<member>] nor that followed by a newline. *)
Definition spells_member (E : Type) `{PyEnum E} (s : string) : Prop :=
  exists e : E, s = enum_str e \/ s = enum_str e +:+ newline.

(** The twelve columns [load_stock_entries_from_excel] reads. *)
Definition declared_columns : list string :=
  ["date"; "op_type"; "qty"; "total_qty"; "cur_conv_rate"; "cur_conv_type";
   "avg_price"; "price_eur"; "price_brl"; "net_proceeds"; "profit"; "tax"].

End Engine.

(** * Part I, continued: the flows around the engine *)

Section Flows.
Context {N : PyNumber}.
Variable bcb : string -> response.
Local Open Scope py_scope.

(** ** The merge flow

    The generator [(entry for in_file in input_files for entry in
    load_stock_entries_from_excel(in_file))] as [sorted] consumes it: the
    files are loaded in order, and a load that raises ends the call. *)
Fixpoint load_all (input_files : list string)
  : M (gmap string sheet) (list StockTransactionEntry) :=
  match input_files with
  | [] => ret []
  | in_file :: rest =>
      entries <- load_stock_entries_from_excel in_file ;;
      more <- load_all rest ;;
      ret (entries ++ more)
  end.

(** [sorted(iterable, key=...)] is [list.sort] on a new list. *)
Definition merge_data (input_files : list string) (output_path : string)
  : M (gmap string sheet) unit :=
  entries <- load_all input_files ;;
  merged <- lift (list_sort sort_by_date entries) ;;
  save_stock_entries_to_excel merged output_path.

(** ** The extract flow

    The two readers of the broker's documents (a PDF and a spreadsheet of
    another layout) are not modelled: they are functions of the path and
    the fiscal year that raise or hand back the records.  The documents
    lie outside [files] and no flow writes them. *)
Variable extract_buy_data_from_pdf :
  string -> Z -> exn + list (pyval * pyval * pyval).
Variable extract_sell_data_from_spreadsheet :
  string -> Z -> exn + list (pyval * pyval * pyval * pyval).

Definition extract_data (fiscal_year : Z) (buy_data_path sell_data_path output_path : string)
  : M (gmap string sheet) unit :=
  buy_data <- lift (extract_buy_data_from_pdf buy_data_path fiscal_year) ;;
  sell_data <- lift (extract_sell_data_from_spreadsheet sell_data_path fiscal_year) ;;
  unprocessed_transactional_data <- lift (merge_transactional_data buy_data sell_data true) ;;
  save_stock_entries_to_excel unprocessed_transactional_data output_path.

(** ** The process flow with its table

    [print_transaction_list_as_table] writes to the terminal only; what it
    prints is not modelled, that it may raise is. *)
Variable print_transaction_list_as_table :
  list StockTransactionEntry -> bool -> exn + unit.

Definition process_data_and_print (fuel : nat) (print_output reverse : bool)
    (input_path output_path : string) : M world unit :=
  fun w =>
    match load_stock_entries_from_excel input_path (files w) with
    | Returned unprocessed_transactional_data _ =>
        let registry := seq 0 (length unprocessed_transactional_data) in
        match process_transactions bcb fuel registry
                (mkStore unprocessed_transactional_data (bcb_state w)) with
        | Returned processed s =>
            let processed_transactional_data := omap (fun ref => heap s !! ref) processed in
            match save_stock_entries_to_excel processed_transactional_data
                    output_path (files w) with
            | Returned _ files' =>
                let w' := mkWorld files' (resolver s) in
                if print_output then
                  match print_transaction_list_as_table processed_transactional_data reverse with
                  | inl e => Raised e w'
                  | inr _ => Returned tt w'
                  end
                else Returned tt w'
            | Raised e files' => Raised e (mkWorld files' (resolver s))
            | Hung => Hung
            end
        | Raised e s => Raised e (mkWorld (files w) (resolver s))
        | Hung => Hung
        end
    | Raised e _ => Raised e w
    | Hung => Hung
    end.

(** ** The command line

    [args] is what [parse_arguments] returns for one of the three
    subcommands; the switch [--show-warnings] only sets the warning filters
    and is left out.  A run of [main] ends by returning, by an exception
    nobody catches, or by [sys.exit]. *)
Inductive Namespace :=
| cmd_extract (year : Z) (buy_data sell_data out : string)
| cmd_merge (input_files : list string) (out : string)
| cmd_process (p r : bool) (input_path output_path : string).

Inductive ended :=
| Finished (w : world)
| Uncaught (e : exn) (w : world)
| SystemExit (code : Z) (w : world)
| Running.

Definition ended_of (o : outcome world unit) : ended :=
  match o with
  | Returned _ w => Finished w
  | Raised e w => Uncaught e w
  | Hung => Running
  end.

(** A flow that works on the files only. *)
Definition on_files (m : M (gmap string sheet) unit) : M world unit :=
  fun w => match m (files w) with
           | Returned a files' => Returned a (mkWorld files' (bcb_state w))
           | Raised e files' => Raised e (mkWorld files' (bcb_state w))
           | Hung => Hung
           end.

(** [s.endswith(suffix)] *)
Fixpoint endswith (s suffix : string) : bool :=
  String.eqb s suffix
  || match s with
     | String _ s' => endswith s' suffix
     | EmptyString => false
     end.

(** [lambda path: path if path.endswith(".xlsx") else path + ".xlsx"] *)
Definition ensure_xlsx_extension (path : string) : string :=
  if endswith path ".xlsx" then path else path +:+ ".xlsx".

(** [os.path.exists]: the paths that exist are those of [files]. *)
Definition os_path_exists (path : string) (w : world) : bool :=
  bool_decide (is_Some (files w !! path)).

(** [prevent_overwrite]: the exit status when it ends the run. *)
Definition prevent_overwrite (out_path : string) (w : world) : option Z :=
  if os_path_exists out_path w then Some 1 else None.

Definition main (fuel : nat) (args : Namespace) (w : world) : ended :=
  match args with
  | cmd_extract year buy_data sell_data out =>
      let out_path := ensure_xlsx_extension out in
      match prevent_overwrite out_path w with
      | Some code => SystemExit code w
      | None => ended_of (on_files (extract_data year buy_data sell_data out_path) w)
      end
  | cmd_merge input_files out =>
      let out_path := ensure_xlsx_extension out in
      ended_of (on_files (merge_data input_files out_path) w)
  | cmd_process p r input_path output_path =>
      let out_path := ensure_xlsx_extension output_path in
      match prevent_overwrite out_path w with
      | Some code => SystemExit code w
      | None => ended_of (process_data_and_print fuel p r input_path out_path w)
      end
  end.

End Flows.

(** ** Notions for the statements of Part IV *)

(** The day number of a date, counted from 0001-01-01 as day 1 (the
    proleptic Gregorian ordinal of [datetime]). *)
Definition days_before_year (y : Z) : Z :=
  let p := y - 1 in p * 365 + p / 4 - p / 100 + p / 400.

Definition days_before_month (y m : Z) : Z :=
  nth (Z.to_nat (m - 1)) [0; 31; 59; 90; 120; 151; 181; 212; 243; 273; 304; 334] 0
  + (if (2 <? m) && is_leap y then 1 else 0).

Definition ordinal (dt : Z * Z * Z) : Z :=
  let '(y, m, d) := dt in days_before_year y + days_before_month y m + d.

(** The longest walk back from a date: its day number. *)
Definition walk_bound (t : ymd) : nat :=
  match parse_ymd t with
  | Some dt => Z.to_nat (ordinal dt)
  | None => 0
  end.

(** How a walk of the resolver can end. *)
Definition walk_end {N : PyNumber} (o : outcome resolver_state response) : Prop :=
  match o with
  | Returned data _ => value data <> []
  | Raised e _ => e = ValueError \/ e = OverflowError
  | Hung => False
  end.

(** ['-'.join(pieces)] *)
Fixpoint join_dash (pieces : list string) : string :=
  match pieces with
  | [] => ""
  | [piece] => piece
  | piece :: rest => piece +:+ "-" +:+ join_dash rest
  end.

Fixpoint has_dash (s : string) : bool :=
  match s with
  | EmptyString => false
  | String c s' => Ascii.eqb c dash || has_dash s'
  end.





Definition has_total_cost_brl {N : PyNumber} (t : StockTransactionEntry) : bool :=
  match total_cost_brl t with Some _ => true | None => false end.





(** The header of a sheet of entries. *)
Definition with_total_cost_brl (b : bool) : list string :=
  declared_columns ++ (if b then ["total_cost_brl"] else []).



Definition is_purchase {N : PyNumber} (t : StockTransactionEntry) : bool :=
  py_eq (op_type t) (POp BUY).

(** An arithmetic in which NaN is absorbing and is no zero, as it is for
    IEEE floats. *)
Definition nan_absorbing (N : PyNumber) : Prop :=
  (forall x, num_add num_nan x = num_nan) /\ (forall x, num_add x num_nan = num_nan)
  /\ (forall x, num_sub num_nan x = num_nan) /\ (forall x, num_sub x num_nan = num_nan).

(** ** Concrete ledgers, services and files for the runs of Part III *)

(** A decimal literal as an exact decimal, and a float as a number of
    [Binary64]. *)
Definition D (q : Q) : @num Decimal := Dec (Qred q).
Definition F (x : float) : @num Binary64 := x.


(** *** A concrete ledger

    The service publishes a rate on 2023-01-10 and on 2023-02-15.  The
    entries are as [load_stock_entries_from_excel] builds them from an
    unprocessed file: NaN where the sheet has no value. *)
Definition absent : @num Decimal := DecNaN.

Definition example_bcb (date : string) : @response Decimal :=
  if String.eqb date "01-10-2023" then mkResponse [mkQuotation (D 5) (D 5.1)]
  else if String.eqb date "02-15-2023" then mkResponse [mkQuotation (D 5.1) (D 5.2)]
  else mkResponse [].

Definition example_purchase : @StockTransactionEntry Decimal :=
  new_entry (PStr "2023-01-10") (POp BUY) (PNum (D 10)) (PNum absent) (PNum absent)
            (PConv EUR_TO_BRL) (PNum absent) (PNum (D 20)) (PNum absent)
            (PNum absent) (PNum absent) (PNum absent).

Definition example_sale : @StockTransactionEntry Decimal :=
  new_entry (PStr "2023-02-15") (POp SELL) (PNum (D 4)) (PNum absent) (PNum absent)
            (PConv BRL_TO_EUR) (PNum absent) (PNum (D 19.5)) (PNum absent)
            (PNum (D 76)) (PNum absent) (PNum absent).

(** An entry whose operation tag did not parse. *)
Definition example_untagged : @StockTransactionEntry Decimal :=
  new_entry (PStr "2023-02-01") PNone (PNum (D 1)) (PNum absent) (PNum absent)
            (PConv BRL_TO_EUR) (PNum absent) (PNum (D 19)) (PNum absent)
            (PNum absent) (PNum absent) (PNum absent).

Definition empty_resolver : @resolver_state Decimal := mkResolver ∅ [].

Definition example_r1 : @resolver_state Decimal :=
  mkResolver (<["01-10-2023" := example_bcb "01-10-2023"]> ∅) ["01-10-2023"].

Definition example_r2 : @resolver_state Decimal :=
  mkResolver (<["02-15-2023" := example_bcb "02-15-2023"]>
                (<["01-10-2023" := example_bcb "01-10-2023"]> ∅))
             ["01-10-2023"; "02-15-2023"].

(** A purchase and two sales, and the store the pass leaves. *)
Definition example_ledger : list (@StockTransactionEntry Decimal) :=
  [example_purchase; example_sale; example_sale].

Definition store_of {A} (o : outcome (@store Decimal) A) : @store Decimal :=
  match o with
  | Returned _ s | Raised _ s => s
  | Hung => mkStore [] empty_resolver
  end.

Definition example_after : @store Decimal :=
  store_of (process_transactions example_bcb 1 [0; 1; 2]%nat
              (mkStore example_ledger empty_resolver)).

Definition example_purchase_after : @StockTransactionEntry Decimal :=
  mkEntry (PStr "2023-01-10") (POp BUY) (PNum (D 10)) (PNum (D 10)) (PNum (D 5))
          (PConv EUR_TO_BRL) (PNum (D 100)) (PNum (D 20)) (PNum (D 1000))
          (PNum absent) (PNum absent) (PNum absent) (Some (PNum (D 1000))).

Definition example_sale_after : @StockTransactionEntry Decimal :=
  mkEntry (PStr "2023-02-15") (POp SELL) (PNum (D 4)) (PNum (D 6)) (PNum (D 5.2))
          (PConv BRL_TO_EUR) (PNum (D 100)) (PNum (D 19.5)) (PNum (D 101.4))
          (PNum (D 76)) (PNum (D (-4.8))) (PNum (D (-0.72))) None.

Definition example_second_sale_after : @StockTransactionEntry Decimal :=
  mkEntry (PStr "2023-02-15") (POp SELL) (PNum (D 4)) (PNum (D 2)) (PNum (D 5.2))
          (PConv BRL_TO_EUR) (PNum (D 100)) (PNum (D 19.5)) (PNum (D 101.4))
          (PNum (D 76)) (PNum (D (-4.8))) (PNum (D (-0.72))) None.



(** The pass over a purchase alone: what the purchase holds when the pass
    stops at an untagged entry right after it. *)
Definition purchase_only_after : @store Decimal :=
  store_of (process_transactions example_bcb 1 [0%nat]
              (mkStore [example_purchase] empty_resolver)).

(** *** The resolver over a weekend

    2023-01-08 is a Sunday: the service has nothing for it nor for the
    Saturday, and has the rates of Friday 2023-01-06. *)
Definition bcb_weekend (date : string) : @response Binary64 :=
  if String.eqb date "01-06-2023" then mkResponse [mkQuotation (F 5.625) (F 5.75)]
  else mkResponse [].

Definition no_requests : @resolver_state Binary64 := mkResolver ∅ [].

Definition sunday : ymd := ("2023", "01", "08").
Definition saturday : ymd := ("2023", "01", "07").
Definition friday : ymd := ("2023", "01", "06").

(** *** The assembler on two purchases and two sales *)
Definition example_purchases : list (@pyval Decimal * pyval * pyval) :=
  [(PStr "2023-01-10", PNum (D 20), PNum (D 10));
   (PStr "2023-01-05", PNum (D 21), PNum (D 3))].

Definition example_sales : list (@pyval Decimal * pyval * pyval * pyval) :=
  [(PStr "2023-01-10", PNum (D 19.5), PNum (D 4), PNum (D 76));
   (PStr "2023-01-05", PNum (D 22), PNum (D 1), PNum (D 21.5))].



(** *** Concrete inputs for the runs of Part IV *)

(** A service that has no quotation at all. *)
Definition bcb_silent (date : string) : @response Binary64 := mkResponse [].

(** A purchase whose date lacks the day, one of no shares, and one that
    covers an oversold position of four. *)
Definition undated_purchase : @StockTransactionEntry Decimal :=
  new_entry (PStr "2023-01") (POp BUY) (PNum (D 10)) (PNum absent) (PNum absent)
            (PConv EUR_TO_BRL) (PNum absent) (PNum (D 20)) (PNum absent)
            (PNum absent) (PNum absent) (PNum absent).

Definition empty_purchase : @StockTransactionEntry Decimal :=
  new_entry (PStr "2023-01-10") (POp BUY) (PNum (D 0)) (PNum absent) (PNum absent)
            (PConv EUR_TO_BRL) (PNum absent) (PNum (D 20)) (PNum absent)
            (PNum absent) (PNum absent) (PNum absent).

Definition covering_purchase : @StockTransactionEntry Decimal :=
  new_entry (PStr "2023-01-10") (POp BUY) (PNum (D 4)) (PNum absent) (PNum absent)
            (PConv EUR_TO_BRL) (PNum absent) (PNum (D 20)) (PNum absent)
            (PNum absent) (PNum absent) (PNum absent).

(** A sale loaded from a file without the column [price_eur]. *)
Definition unpriced_sale : @StockTransactionEntry Decimal :=
  new_entry (PStr "2023-02-15") (POp SELL) (PNum (D 4)) (PNum absent) (PNum absent)
            (PConv BRL_TO_EUR) (PNum absent) PNone (PNum absent)
            (PNum (D 76)) (PNum absent) (PNum absent).




(** The assembled ledger of the two purchases and the two sales. *)
Definition example_assembled : list (@StockTransactionEntry Decimal) :=
  [buy_entry (PStr "2023-01-05", PNum (D 21), PNum (D 3));
   sell_entry (PStr "2023-01-05", PNum (D 22), PNum (D 1), PNum (D 21.5));
   buy_entry (PStr "2023-01-10", PNum (D 20), PNum (D 10));
   sell_entry (PStr "2023-01-10", PNum (D 19.5), PNum (D 4), PNum (D 76))].






(** The example purchase and sale as an input file, and the store the pass
    over them leaves. *)
Definition example_input : gmap string (@sheet Decimal) :=
  <["output-unprocessed.xlsx" := to_excel (map entry_dict [example_purchase; example_sale])]> ∅.

Definition example_pair_after : @store Decimal :=
  store_of (process_transactions example_bcb 1 [0; 1]%nat
              (mkStore [example_purchase; example_sale] empty_resolver)).

(** A purchase whose quantity cell was empty, followed by the example
    sale, and the store the pass leaves. *)
Definition unquantified_purchase : @StockTransactionEntry Decimal :=
  new_entry (PStr "2023-01-10") (POp BUY) (PNum absent) (PNum absent) (PNum absent)
            (PConv EUR_TO_BRL) (PNum absent) (PNum (D 20)) (PNum absent)
            (PNum absent) (PNum absent) (PNum absent).

Definition poisoned_after : @store Decimal :=
  store_of (process_transactions example_bcb 1 [0; 1]%nat
              (mkStore [unquantified_purchase; example_sale] empty_resolver)).

Definition poisoned_sale_after : @StockTransactionEntry Decimal :=
  mkEntry (PStr "2023-02-15") (POp SELL) (PNum (D 4)) (PNum absent) (PNum (D 5.2))
          (PConv BRL_TO_EUR) (PNum absent) (PNum (D 19.5)) (PNum (D 101.4))
          (PNum (D 76)) (PNum absent) (PNum absent) None.

(** * Part II: facts about the program *)

(** ** Strings and dates *)

Section DateFacts.
Context {N : PyNumber}.

Lemma digit_of_ascii_of_digit (d : Z) :
  0 <= d <= 9 -> digit_of_ascii (ascii_of_digit d) = Some d.
Proof.
  intros H.
  assert (d = 0 \/ d = 1 \/ d = 2 \/ d = 3 \/ d = 4 \/ d = 5 \/ d = 6
          \/ d = 7 \/ d = 8 \/ d = 9) as Hd by lia.
  repeat (destruct Hd as [-> | Hd]; [reflexivity |]). subst d. reflexivity.
Qed.

Lemma py_int_fmt_02d (n : Z) : 0 <= n < 100 -> py_int (fmt_02d n) = inr n.
Proof.
  intros H. unfold py_int, fmt_02d. cbn [int_of_digits].
  pose proof (Z.div_mod n 10). pose proof (Z.mod_pos_bound n 10).
  rewrite !digit_of_ascii_of_digit by lia.
  f_equal. lia.
Qed.

Lemma py_int_fmt_04d (n : Z) : 0 <= n < 10000 -> py_int (fmt_04d n) = inr n.
Proof.
  intros H. unfold py_int, fmt_04d. cbn [int_of_digits].
  replace (n / 100) with (n / 10 / 10) by (rewrite Z.div_div by lia; reflexivity).
  replace (n / 1000) with (n / 10 / 10 / 10) by (rewrite !Z.div_div by lia; reflexivity).
  pose proof (Z.div_mod n 10). pose proof (Z.mod_pos_bound n 10).
  pose proof (Z.div_mod (n / 10) 10). pose proof (Z.mod_pos_bound (n / 10) 10).
  pose proof (Z.div_mod (n / 10 / 10) 10).
  pose proof (Z.mod_pos_bound (n / 10 / 10) 10).
  rewrite !digit_of_ascii_of_digit by lia.
  f_equal. lia.
Qed.

Lemma days_in_month_bounds (y m : Z) : 28 <= days_in_month y m <= 31.
Proof.
  unfold days_in_month.
  repeat match goal with |- context [if ?b then _ else _] => destruct b end; lia.
Qed.

Lemma datetime_inr (y m d : Z) (dt : Z * Z * Z) :
  datetime y m d = inr dt -> dt = (y, m, d) /\ valid_date dt.
Proof.
  unfold datetime.
  destruct (_ && _) eqn:E; [|discriminate]. intros [= <-].
  split; [reflexivity|]. unfold valid_date.
  repeat (apply andb_prop in E as [E ?]). lia.
Qed.

Lemma datetime_valid (y m d : Z) :
  valid_date (y, m, d) -> datetime y m d = inr (y, m, d).
Proof.
  unfold valid_date, datetime. intros (? & ? & ?).
  replace (_ && _) with true; [reflexivity|].
  symmetry. repeat (apply andb_true_intro; split); lia.
Qed.

Lemma minus_one_day_valid (dt dt' : Z * Z * Z) :
  valid_date dt -> minus_one_day dt = inr dt' ->
  valid_date dt' /\ day_rank dt' < day_rank dt.
Proof.
  destruct dt as [[y m] d]. unfold valid_date, minus_one_day, day_rank.
  intros (Hy & Hm & Hd).
  destruct (1 <? d) eqn:E1; [intros [= <-]; lia|].
  destruct (1 <? m) eqn:E2.
  { intros [= <-]. pose proof (days_in_month_bounds y (m - 1)). lia. }
  destruct (1 <? y) eqn:E3; [|discriminate].
  intros [= <-]. change (days_in_month (y - 1) 12) with 31. lia.
Qed.

End DateFacts.

Section ResolverFacts.
Context {N : PyNumber}.
Variable bcb : string -> response.

Lemma int_of_digits_is_digits (s : string) (acc n : Z) :
  int_of_digits s acc = Some n -> is_digits s = true.
Proof.
  revert acc. induction s as [|c s IH]; intros acc; simpl; [reflexivity|].
  destruct (digit_of_ascii c); [apply IH | discriminate].
Qed.

Lemma py_int_is_digits (s : string) (n : Z) : py_int s = inr n -> is_digits s = true.
Proof.
  unfold py_int. destruct s; [discriminate|].
  destruct (int_of_digits _ 0) eqn:E; [|discriminate].
  intros _. eapply int_of_digits_is_digits, E.
Qed.

Lemma append_nil (b : string) : "" +:+ b = b.
Proof. reflexivity. Qed.

Lemma append_cons (c : ascii) (a b : string) : String c a +:+ b = String c (a +:+ b).
Proof. reflexivity. Qed.

Lemma append_dash_inj (a a' b b' : string) :
  is_digits a = true -> is_digits a' = true ->
  a +:+ "-" +:+ b = a' +:+ "-" +:+ b' -> a = a' /\ b = b'.
Proof.
  revert a'. induction a as [|c a IH]; intros [|c' a']; simpl;
    rewrite ?append_cons, ?append_nil.
  - intros _ _ [= ->]. split; reflexivity.
  - intros _ H [= <- _]. discriminate H.
  - intros H _ [= -> _]. discriminate H.
  - intros Ha Ha' [= -> E].
    destruct (digit_of_ascii c'); [|discriminate].
    destruct (IH a' Ha Ha' E) as [-> ->]. split; reflexivity.
Qed.

Lemma parse_ymd_digits (y m d : string) (dt : Z * Z * Z) :
  parse_ymd (y, m, d) = Some dt ->
  is_digits y = true /\ is_digits m = true /\ is_digits d = true.
Proof.
  unfold parse_ymd.
  destruct (py_int y) eqn:Ey; [discriminate|].
  destruct (py_int m) eqn:Em; [discriminate|].
  destruct (py_int d) eqn:Ed; [discriminate|].
  intros _. repeat split; eapply py_int_is_digits; eassumption.
Qed.

Lemma key_inj (t u : ymd) (dt du : Z * Z * Z) :
  parse_ymd t = Some dt -> parse_ymd u = Some du -> key t = key u -> t = u.
Proof.
  destruct t as [[y m] d], u as [[y' m'] d']. intros Ht Hu.
  apply parse_ymd_digits in Ht as (_ & Hm & Hd).
  apply parse_ymd_digits in Hu as (_ & Hm' & Hd').
  unfold key, us_date. intros E.
  apply append_dash_inj in E as [-> E]; [|assumption..].
  apply append_dash_inj in E as [-> ->]; [|assumption..].
  reflexivity.
Qed.

Lemma before_key_ne (u t : ymd) : before u t -> key u <> key t.
Proof.
  intros (dt & du & Ht & Hu & Hlt) E.
  apply (key_inj _ _ _ _ Hu Ht) in E. subst u.
  rewrite Ht in Hu. injection Hu as ->. lia.
Qed.

Lemma before_trans (a b c : ymd) : before a b -> before b c -> before a c.
Proof.
  intros (db & da & Hb & Ha & H1) (dc & db' & Hc & Hb' & H2).
  rewrite Hb in Hb'. injection Hb' as <-.
  exists dc, da. repeat split; [assumption..|lia].
Qed.

Lemma yesterday_str_before (t t' : ymd) : yesterday_str t = inr t' -> before t' t.
Proof.
  destruct t as [[y m] d]. unfold yesterday_str, before, parse_ymd.
  destruct (py_int y) as [|yz]; [discriminate|].
  destruct (py_int m) as [|mz]; [discriminate|].
  destruct (py_int d) as [|dz]; [discriminate|].
  destruct (datetime yz mz dz) as [|dt] eqn:Edt; [discriminate|].
  apply datetime_inr in Edt as [-> Hv].
  destruct (minus_one_day (yz, mz, dz)) as [|[[py pm] pd]] eqn:Em; [discriminate|].
  intros [= <-].
  destruct (minus_one_day_valid _ _ Hv Em) as [Hv' Hlt].
  exists (yz, mz, dz), (py, pm, pd). split; [reflexivity|]. split; [|exact Hlt].
  pose proof (days_in_month_bounds py pm).
  destruct Hv' as (? & ? & ?).
  rewrite py_int_fmt_04d, !py_int_fmt_02d by lia.
  rewrite datetime_valid; [reflexivity|]. repeat split; lia.
Qed.

(** The dates of a walk: its head is where it starts, and every later date
    lies before the start. *)
Lemma falls_back_hd (t t' : ymd) (skipped : list ymd) :
  falls_back bcb t skipped t' -> hd t' skipped = t.
Proof. destruct 1; reflexivity. Qed.

Lemma falls_back_before (t t' : ymd) (skipped : list ymd) :
  falls_back bcb t skipped t' ->
  Forall (fun u => before u t) (followers skipped t').
Proof.
  induction 1 as [t H|t t1 skipped t' Hempty Hy Hfb IH]; simpl.
  - constructor.
  - pose proof (yesterday_str_before _ _ Hy) as Hb.
    destruct Hfb as [t1 Hdata|t1 t2 skipped t' He Hy2 Hfb]; simpl in *.
    + repeat constructor. exact Hb.
    + constructor; [exact Hb|].
      eapply Forall_impl; [exact IH|]. intros u Hu. simpl in Hu |- *.
      exact (before_trans _ _ _ Hu Hb).
Qed.

Lemma stale_lookup_ne (skipped : list ymd) (t' : ymd)
    (cache : gmap string response) (s : string) :
  Forall (fun u => key u <> s) (followers skipped t') ->
  stale bcb skipped t' cache !! s = cache !! s.
Proof.
  revert cache. induction skipped as [|t rest IH]; intros cache H; simpl; [reflexivity|].
  simpl in H. destruct rest as [|t1 rest].
  - simpl. apply Forall_inv in H. rewrite lookup_insert_ne by assumption. reflexivity.
  - rewrite IH.
    + simpl. apply Forall_inv in H. rewrite lookup_insert_ne by assumption. reflexivity.
    + simpl. apply Forall_inv_tail in H. exact H.
Qed.

Lemma fetch_loop_found (fuel : nat) (y m d date : string) (s : resolver_state) :
  value (bcb date) <> [] ->
  fetch_loop bcb (S fuel) y m d date s =
    Returned (bcb date)
      (mkResolver (<[date := bcb date]> (BCB_CACHE_FOR_EUR_REQUESTS s))
                  (requests s ++ [date])).
Proof.
  intros H. cbn [fetch_loop]. unfold bind at 1. unfold requests_get.
  destruct (value (bcb date)) eqn:E; [congruence|]. reflexivity.
Qed.

Lemma fetch_loop_empty (fuel : nat) (y m d date y1 m1 d1 : string) (s : resolver_state) :
  value (bcb date) = [] ->
  yesterday_str (y, m, d) = inr (y1, m1, d1) ->
  fetch_loop bcb (S fuel) y m d date s =
    fetch_loop bcb fuel y1 m1 d1 (us_date y1 m1 d1)
      (mkResolver (<[us_date y1 m1 d1 := bcb date]> (BCB_CACHE_FOR_EUR_REQUESTS s))
                  (requests s ++ [date])).
Proof.
  intros H Hy. cbn [fetch_loop]. unfold bind at 1. unfold requests_get.
  rewrite H. cbn [length Nat.eqb]. rewrite Hy. reflexivity.
Qed.

(** The loop walks back over the skipped dates, asks the service once for
    every date on the way, and files the answer of [t'] under [t']. *)
Lemma fetch_loop_falls_back (t t' : ymd) (skipped : list ymd) :
  falls_back bcb t skipped t' ->
  forall (fuel : nat) (s : resolver_state),
  (length skipped < fuel)%nat ->
  fetch_from bcb fuel t s =
    Returned (bcb (key t'))
      (mkResolver
         (<[key t' := bcb (key t')]> (stale bcb skipped t' (BCB_CACHE_FOR_EUR_REQUESTS s)))
         (requests s ++ map key skipped ++ [key t'])).
Proof.
  induction 1 as [t Hdata|t t1 skipped t' Hempty Hy Hfb IH]; intros fuel s Hfuel.
  - destruct fuel as [|fuel]; [simpl in Hfuel; lia|].
    destruct t as [[y m] d]. unfold fetch_from.
    rewrite fetch_loop_found by exact Hdata. reflexivity.
  - destruct fuel as [|fuel]; [simpl in Hfuel; lia|].
    destruct t as [[y m] d], t1 as [[y1 m1] d1]. unfold fetch_from.
    rewrite (fetch_loop_empty _ _ _ _ _ _ _ _ _ Hempty Hy).
    specialize (IH fuel
      (mkResolver (<[key (y1, m1, d1) := bcb (key (y, m, d))]> (BCB_CACHE_FOR_EUR_REQUESTS s))
                  (requests s ++ [key (y, m, d)]))).
    unfold fetch_from in IH. change (us_date y1 m1 d1) with (key (y1, m1, d1)).
    rewrite IH by (simpl in Hfuel; lia).
    cbn [stale map BCB_CACHE_FOR_EUR_REQUESTS requests].
    rewrite (falls_back_hd _ _ _ Hfb). rewrite <- app_assoc. reflexivity.
Qed.

End ResolverFacts.

Section ResolverClaims.
Context {N : PyNumber}.
Variable bcb : string -> response.

Lemma get_data_miss (fuel : nat) (y m d : string) (s : resolver_state) :
  BCB_CACHE_FOR_EUR_REQUESTS s !! key (y, m, d) = None ->
  _get_eur_quotation_data_for_date bcb fuel y m d s = fetch_from bcb fuel (y, m, d) s.
Proof.
  intros H. unfold _get_eur_quotation_data_for_date, bind, get, fetch_from.
  unfold key in H. rewrite H. reflexivity.
Qed.

Lemma get_data_hit (fuel : nat) (y m d : string) (s : resolver_state) (r : response) :
  BCB_CACHE_FOR_EUR_REQUESTS s !! key (y, m, d) = Some r ->
  _get_eur_quotation_data_for_date bcb fuel y m d s = Returned r s.
Proof.
  intros H. unfold _get_eur_quotation_data_for_date, bind, get.
  unfold key in H. rewrite H. reflexivity.
Qed.

Lemma falls_back_cons_inv (t t0 t' : ymd) (skipped : list ymd) :
  falls_back bcb t (t0 :: skipped) t' ->
  t0 = t /\ value (bcb (key t)) = [] /\ before t' t
  /\ Forall (fun u => key u <> key t) (followers (t0 :: skipped) t').
Proof.
  intros H. pose proof (falls_back_before _ _ _ _ H) as Hb.
  pose proof (falls_back_hd _ _ _ _ H) as Hhd. simpl in Hhd.
  inversion H; subst. repeat split; try assumption.
  - apply Forall_app in Hb as [_ Hb]. apply Forall_inv in Hb. exact Hb.
  - eapply Forall_impl; [exact Hb|]. intros u Hu. apply before_key_ne, Hu.
Qed.

Lemma after_walk_lookup_start (t t' : ymd) (skipped : list ymd) (s : resolver_state) :
  falls_back bcb t skipped t' -> skipped <> [] ->
  BCB_CACHE_FOR_EUR_REQUESTS (after_walk bcb skipped t' s) !! key t
  = BCB_CACHE_FOR_EUR_REQUESTS s !! key t.
Proof.
  intros H Hne. destruct skipped as [|t0 skipped]; [congruence|].
  destruct (falls_back_cons_inv _ _ _ _ H) as (-> & _ & Hb & Hall).
  unfold after_walk. cbn [BCB_CACHE_FOR_EUR_REQUESTS].
  rewrite lookup_insert_ne by (apply before_key_ne, Hb).
  apply stale_lookup_ne, Hall.
Qed.

(** C2, as the code has it.  When [d] has no published rate and [d'] is the
    most recent earlier date that has one, a resolve of [d] that misses the
    cache returns the data of [d'] (so both accessors return its quotes)
    and files it under the key of [d'], never under the key of [d].  A
    second resolve of [d'] is answered from the cache: same value, state and
    request log untouched.  A second resolve of [d] returns the same value
    too, but misses the cache again and sends every request of the walk a
    second time. *)
Theorem resolver_fallback (y m d y' m' d' : string) (skipped : list ymd)
    (s : resolver_state) (fuel : nat) :
  falls_back bcb (y, m, d) skipped (y', m', d') ->
  skipped <> [] ->
  BCB_CACHE_FOR_EUR_REQUESTS s !! key (y, m, d) = None ->
  (length skipped < fuel)%nat ->
  let data := bcb (key (y', m', d')) in
  let s1 := after_walk bcb skipped (y', m', d') s in
  _get_eur_quotation_data_for_date bcb fuel y m d s = Returned data s1
  /\ get_price_for_buying_eur_at_date bcb fuel y m d s = first_quotation cotacaoCompra data s1
  /\ get_price_for_selling_eur_at_date bcb fuel y m d s = first_quotation cotacaoVenda data s1
  /\ value data <> []
  /\ BCB_CACHE_FOR_EUR_REQUESTS s1 !! key (y', m', d') = Some data
  /\ BCB_CACHE_FOR_EUR_REQUESTS s1 !! key (y, m, d) = None
  /\ (forall fuel', _get_eur_quotation_data_for_date bcb fuel' y' m' d' s1 = Returned data s1)
  /\ exists s2,
       _get_eur_quotation_data_for_date bcb fuel y m d s1 = Returned data s2
       /\ requests s2 = requests s1 ++ map key skipped ++ [key (y', m', d')].
Proof.
  intros Hfb Hne Hmiss Hfuel data s1.
  assert (_get_eur_quotation_data_for_date bcb fuel y m d s = Returned data s1) as Hget.
  { rewrite get_data_miss by exact Hmiss.
    apply (fetch_loop_falls_back _ _ _ _ Hfb). exact Hfuel. }
  assert (BCB_CACHE_FOR_EUR_REQUESTS s1 !! key (y', m', d') = Some data) as Hhit.
  { unfold s1, after_walk. cbn [BCB_CACHE_FOR_EUR_REQUESTS]. apply lookup_insert_eq. }
  assert (BCB_CACHE_FOR_EUR_REQUESTS s1 !! key (y, m, d) = None) as Hmiss1.
  { unfold s1. rewrite (after_walk_lookup_start _ _ _ _ Hfb Hne). exact Hmiss. }
  split; [exact Hget|].
  split; [unfold get_price_for_buying_eur_at_date, bind; rewrite Hget; reflexivity|].
  split; [unfold get_price_for_selling_eur_at_date, bind; rewrite Hget; reflexivity|].
  split.
  { clear -Hfb. unfold data. remember (y, m, d) as t. remember (y', m', d') as t'.
    clear Heqt Heqt'. induction Hfb; assumption. }
  split; [exact Hhit|]. split; [exact Hmiss1|].
  split; [intros fuel'; apply get_data_hit, Hhit|].
  eexists. split.
  - rewrite get_data_miss by exact Hmiss1.
    apply (fetch_loop_falls_back _ _ _ _ Hfb). exact Hfuel.
  - reflexivity.
Qed.

(** C10.  When neither [d] nor the day before it, [d1], has data, a resolve
    of [d] that misses the cache leaves the empty answer of [d] filed under
    the key of [d1]; from then on both accessors, asked for [d1], read that
    cached answer and raise [IndexError] on its empty list, without a
    request. *)
Theorem stale_answer_breaks_accessors (y m d y1 m1 d1 : string) (t' : ymd)
    (skipped : list ymd) (s : resolver_state) (fuel : nat) :
  falls_back bcb (y, m, d) ((y, m, d) :: (y1, m1, d1) :: skipped) t' ->
  BCB_CACHE_FOR_EUR_REQUESTS s !! key (y, m, d) = None ->
  (length skipped + 2 < fuel)%nat ->
  let s1 := after_walk bcb ((y, m, d) :: (y1, m1, d1) :: skipped) t' s in
  _get_eur_quotation_data_for_date bcb fuel y m d s = Returned (bcb (key t')) s1
  /\ BCB_CACHE_FOR_EUR_REQUESTS s1 !! key (y1, m1, d1) = Some (bcb (key (y, m, d)))
  /\ value (bcb (key (y, m, d))) = []
  /\ forall fuel',
       get_price_for_buying_eur_at_date bcb fuel' y1 m1 d1 s1 = Raised IndexError s1
       /\ get_price_for_selling_eur_at_date bcb fuel' y1 m1 d1 s1 = Raised IndexError s1.
Proof.
  intros Hfb Hmiss Hfuel s1.
  assert (value (bcb (key (y, m, d))) = []
          /\ falls_back bcb (y1, m1, d1) ((y1, m1, d1) :: skipped) t') as [Hempty Hfb1].
  { inversion Hfb as [|? t1 ? ? He Hy Hfb1]; subst. split; [exact He|].
    pose proof (falls_back_hd _ _ _ _ Hfb1) as Hhd. simpl in Hhd. subst t1. exact Hfb1. }
  assert (BCB_CACHE_FOR_EUR_REQUESTS s1 !! key (y1, m1, d1) = Some (bcb (key (y, m, d))))
    as Hstale.
  { destruct (falls_back_cons_inv _ _ _ _ Hfb1) as (_ & _ & Hb & Hall).
    unfold s1, after_walk. cbn [BCB_CACHE_FOR_EUR_REQUESTS].
    rewrite lookup_insert_ne by (apply before_key_ne, Hb).
    change (stale bcb ((y, m, d) :: (y1, m1, d1) :: skipped) t' (BCB_CACHE_FOR_EUR_REQUESTS s))
      with (stale bcb ((y1, m1, d1) :: skipped) t'
              (<[key (y1, m1, d1) := bcb (key (y, m, d))]> (BCB_CACHE_FOR_EUR_REQUESTS s))).
    rewrite stale_lookup_ne by exact Hall. apply lookup_insert_eq. }
  split.
  { rewrite get_data_miss by exact Hmiss.
    apply (fetch_loop_falls_back _ _ _ _ Hfb). simpl. lia. }
  split; [exact Hstale|]. split; [exact Hempty|].
  intros fuel'.
  unfold get_price_for_buying_eur_at_date, get_price_for_selling_eur_at_date, bind.
  rewrite (get_data_hit _ _ _ _ _ _ Hstale). unfold first_quotation. rewrite Hempty.
  split; reflexivity.
Qed.

End ResolverClaims.

Section ProcessorFacts.
Context {N : PyNumber}.
Variable bcb : string -> response.

Lemma bind_getattr {A} (attr : StockTransactionEntry -> pyval)
    (k : pyval -> M frame A) (f : frame) :
  bind (getattr attr) k f = k (attr (transaction f)) f.
Proof. reflexivity. Qed.

Lemma bind_setattr {A} (attr : pyval -> StockTransactionEntry -> StockTransactionEntry)
    (v : pyval) (k : unit -> M frame A) (f : frame) :
  bind (setattr attr v) k f = k tt (mkFrame (attr v (transaction f)) (frame_resolver f)).
Proof. reflexivity. Qed.

Lemma bind_lift {S A B} (x : exn + A) (k : A -> M S B) (s : S) :
  bind (lift x) k s = match x with inl e => Raised e s | inr a => k a s end.
Proof. destruct x; reflexivity. Qed.

Lemma bind_with_resolver {A B} (m : M resolver_state A) (k : A -> M frame B) (f : frame) :
  bind (with_resolver m) k f =
    match m (frame_resolver f) with
    | Returned a r => k a (mkFrame (transaction f) r)
    | Raised e r => Raised e (mkFrame (transaction f) r)
    | Hung => Hung
    end.
Proof. unfold bind, with_resolver. destruct (m (frame_resolver f)); reflexivity. Qed.

Ltac step_in H :=
  repeat (first [rewrite bind_getattr in H | rewrite bind_setattr in H
                | rewrite bind_lift in H | rewrite bind_with_resolver in H];
          cbn [transaction frame_resolver] in H).

Ltac step :=
  repeat (first [rewrite bind_getattr | rewrite bind_setattr
                | rewrite bind_lift | rewrite bind_with_resolver];
          cbn [transaction frame_resolver]).

Ltac break_match_in H :=
  match type of H with
  | context [match ?x with _ => _ end] =>
      let E := fresh "E" in destruct x eqn:E; try discriminate H
  end.

Lemma process_one_returned (fuel : nat) (st st' : totals) (f f' : frame) :
  process_one bcb fuel st f = Returned st' f' -> transition bcb fuel st f st' f'.
Proof.
  destruct f as [t r]. unfold process_one. rewrite bind_getattr. cbn [transaction].
  destruct (op_type t) as [| | |[|]|] eqn:Eop; try discriminate.
  - unfold process_buy. intros H.
    repeat (step_in H; break_match_in H). step_in H. injection H as <- <-.
    eapply (transition_buy bcb); try eassumption. eexists. split; eassumption.
  - unfold process_sell. intros H.
    repeat (step_in H; break_match_in H). step_in H. injection H as <- <-.
    repeat match goal with E : inr _ = inr _ |- _ => injection E as E; subst end.
    eapply (transition_sell bcb); try eassumption. eexists. split; eassumption.
Qed.

Lemma process_one_transition (fuel : nat) (st st' : totals) (f f' : frame) :
  transition bcb fuel st f st' f' -> process_one bcb fuel st f = Returned st' f'.
Proof.
  intros H. unfold process_one. rewrite bind_getattr.
  destruct H as [st t r r' rate ? ? ? ? ? Hop (args & Hd & Hr) H1 H2 H3 H4 H5
                |st t r r' rate ? ? ? ? ? ? ? Hop (args & Hd & Hr) H1 H2 H3 H4 H5 H6 H7];
    cbn [transaction]; rewrite Hop.
  - unfold process_buy.
    repeat (step; first [rewrite Hd | rewrite Hr | rewrite H1 | rewrite H2
                        | rewrite H3 | rewrite H4 | rewrite H5]).
    reflexivity.
  - unfold process_sell.
    repeat (step; cbn [price_eur set_avg_price set_profit set_total_qty set_cur_conv_rate];
            first [rewrite Hd | rewrite Hr | rewrite H1 | rewrite H2 | rewrite H3
                  | rewrite H4 | rewrite H5 | rewrite H6 | rewrite H7]).
    reflexivity.
Qed.

(** An operation that is neither [OpType.BUY] nor [OpType.SELL] reaches the
    [else] branch: [ValueError], the object untouched. *)
Lemma process_one_unsupported (fuel : nat) (st : totals) (f : frame) :
  op_type (transaction f) <> POp BUY -> op_type (transaction f) <> POp SELL ->
  process_one bcb fuel st f = Raised ValueError f.
Proof.
  intros Hb Hs. unfold process_one. rewrite bind_getattr.
  destruct (op_type (transaction f)) as [| | |[|]|]; try reflexivity; congruence.
Qed.

(** What a transition leaves of the entry and writes onto it. *)
Lemma transition_fields (fuel : nat) (st st' : totals) (t t' : StockTransactionEntry)
    (r r' : resolver_state) :
  transition bcb fuel st (mkFrame t r) st' (mkFrame t' r') ->
  date t' = date t /\ op_type t' = op_type t /\ qty t' = qty t
  /\ price_eur t' = price_eur t /\ net_proceeds t' = net_proceeds t
  /\ cur_conv_type t' = cur_conv_type t
  /\ total_qty t' = cur_total_qty st' /\ avg_price t' = current_avg_price st'.
Proof. inversion 1; subst; repeat split. Qed.

Lemma run_list_pass (fuel : nat) (l : list StockTransactionEntry) (st st' : totals)
    (r : resolver_state) (s : store) :
  run_list bcb fuel l st r = Returned st' s <-> pass bcb fuel st l r st' (heap s) (resolver s).
Proof.
  split.
  - revert st r st' s. induction l as [|t l IH]; intros st r st' s; simpl.
    + intros [= <- <-]. constructor.
    + destruct (process_one bcb fuel st (mkFrame t r)) as [st1 [t1 r1]| |] eqn:E1;
        try discriminate.
      cbn [frame_resolver transaction].
      destruct (run_list bcb fuel l st1 r1) as [st2 s2| |] eqn:E2; try discriminate.
      intros [= <- <-]. simpl. econstructor.
      * apply process_one_returned, E1.
      * apply IH, E2.
  - destruct s as [h r']. simpl. intros H.
    induction H as [st r|st t r st1 t1 r1 l st2 l2 r2 Ht Hp IH]; simpl; [reflexivity|].
    rewrite (process_one_transition _ _ _ _ _ Ht). cbn [frame_resolver transaction].
    rewrite IH. reflexivity.
Qed.

Lemma insert_middle {A} (pre l : list A) (x y : A) :
  <[length pre := y]> (pre ++ x :: l) = pre ++ y :: l.
Proof. induction pre as [|a pre IH]; simpl; [reflexivity | f_equal; exact IH]. Qed.

(** The loop over the references [n, n+1, ...] of the objects [l] that
    follow [pre] in the heap is [run_list] on [l]. *)
Lemma process_loop_run_list (fuel : nat) (l : list StockTransactionEntry) :
  forall (pre : list StockTransactionEntry) (st : totals) (r : resolver_state),
  process_loop bcb fuel (seq (length pre) (length l)) st (mkStore (pre ++ l) r)
  = with_prefix pre (run_list bcb fuel l st r).
Proof.
  induction l as [|t l IH]; intros pre st r; simpl.
  - rewrite app_nil_r. reflexivity.
  - unfold bind at 1. unfold for_object. cbn [heap resolver].
    rewrite list_lookup_middle by reflexivity.
    destruct (process_one bcb fuel st (mkFrame t r)) as [st1 [t1 r1]|e [t1 r1]|] eqn:E1;
      cbn [transaction frame_resolver].
    + rewrite insert_middle.
      specialize (IH (pre ++ [t1]) st1 r1).
      rewrite length_app in IH. simpl in IH. rewrite Nat.add_1_r in IH.
      rewrite <- app_assoc in IH. simpl in IH. rewrite IH.
      destruct (run_list bcb fuel l st1 r1); simpl; rewrite <- ?app_assoc; reflexivity.
    + rewrite insert_middle. reflexivity.
    + reflexivity.
Qed.

Lemma process_transactions_fresh (fuel : nat) (l : list StockTransactionEntry)
    (r : resolver_state) :
  process_transactions bcb fuel (seq 0 (length l)) (mkStore l r)
  = match run_list bcb fuel l seed r with
    | Returned _ s => Returned (seq 0 (length l)) s
    | Raised e s => Raised e s
    | Hung => Hung
    end.
Proof.
  unfold process_transactions, bind.
  pose proof (process_loop_run_list fuel l [] seed r) as H. simpl in H. rewrite H.
  destruct (run_list bcb fuel l seed r) as [st [h r']|e [h r']|]; reflexivity.
Qed.

End ProcessorFacts.

Section ProcessorClaims.
Context {N : PyNumber}.
Variable bcb : string -> response.

(** Every processed entry comes out of a transition that started from the
    aggregates the entry before it recorded. *)
Lemma pass_lookup (fuel : nat) (st st' : totals) (l l' : list StockTransactionEntry)
    (r r' : resolver_state) :
  pass bcb fuel st l r st' l' r' ->
  forall (i : nat) (t' : StockTransactionEntry),
  l' !! i = Some t' ->
  exists t sa sb ra rb,
    l !! i = Some t
    /\ transition bcb fuel sa (mkFrame t ra) sb (mkFrame t' rb)
    /\ cur_total_qty sa = carried (cur_total_qty st) total_qty l' i
    /\ current_avg_price sa = carried (current_avg_price st) avg_price l' i.
Proof.
  induction 1 as [st r|st t r st1 t1 r1 l st2 l2 r2 Ht Hp IH]; intros i t' Hi.
  - discriminate.
  - destruct i as [|i]; simpl in Hi.
    + injection Hi as <-. exists t, st, st1, r, r1. repeat split. exact Ht.
    + destruct (IH i t' Hi) as (t0 & sa & sb & ra & rb & Hl & Htr & Hq & Ha).
      exists t0, sa, sb, ra, rb. split; [exact Hl|]. split; [exact Htr|].
      destruct (transition_fields _ _ _ _ _ _ _ _ Ht) as (_ & _ & _ & _ & _ & _ & Hq1 & Ha1).
      destruct i as [|i]; simpl in *; [split; congruence|split; assumption].
Qed.

Lemma pass_length (fuel : nat) (st st' : totals) (l l' : list StockTransactionEntry)
    (r r' : resolver_state) :
  pass bcb fuel st l r st' l' r' -> length l' = length l.
Proof. induction 1; simpl; congruence. Qed.

Lemma process_transactions_pass (fuel : nat) (ledger : list StockTransactionEntry)
    (r : resolver_state) (registry : list nat) (s' : store) :
  process_transactions bcb fuel (seq 0 (length ledger)) (mkStore ledger r)
    = Returned registry s' ->
  exists st', pass bcb fuel seed ledger r st' (heap s') (resolver s').
Proof.
  rewrite process_transactions_fresh.
  destruct (run_list bcb fuel ledger seed r) as [st' s| |] eqn:E; try discriminate.
  intros [= _ <-]. exists st'. apply run_list_pass, E.
Qed.

Lemma sell_carries_avg (fuel : nat) (sa sb : totals) (t t' : StockTransactionEntry)
    (ra rb : resolver_state) :
  transition bcb fuel sa (mkFrame t ra) sb (mkFrame t' rb) ->
  op_type t = POp SELL -> avg_price t' = current_avg_price sa.
Proof. inversion 1; subst; [congruence | reflexivity]. Qed.

Lemma processed_op (fuel : nat) (sa sb : totals) (t t' : StockTransactionEntry)
    (ra rb : resolver_state) :
  transition bcb fuel sa (mkFrame t ra) sb (mkFrame t' rb) ->
  op_type t' = POp BUY \/ op_type t' = POp SELL.
Proof. inversion 1; subst; simpl; [left | right]; assumption. Qed.

Lemma carried_last_purchase (fuel : nat) (st' : totals)
    (l l' : list StockTransactionEntry) (r r' : resolver_state) :
  pass bcb fuel seed l r st' l' r' ->
  forall i, (i <= length l')%nat ->
  carried (PNum num_zero) avg_price l' i = last_purchase_avg (take i l').
Proof.
  intros Hp. induction i as [|i IH]; intros Hi.
  - rewrite take_0. reflexivity.
  - destruct (lookup_lt_is_Some_2 l' i) as [t' Ht']; [lia|].
    rewrite (take_S_r _ _ _ Ht'). unfold last_purchase_avg. rewrite foldl_snoc.
    fold (last_purchase_avg (take i l')). rewrite <- IH by lia.
    unfold carried at 1. rewrite Ht'. cbn [from_option].
    destruct (pass_lookup _ _ _ _ _ _ _ Hp i t' Ht') as (t & sa & sb & ra & rb & _ & Htr & _ & Ha).
    change (current_avg_price seed) with (PNum num_zero) in Ha.
    destruct (transition_fields _ _ _ _ _ _ _ _ Htr) as (_ & Hop & _).
    destruct (processed_op _ _ _ _ _ _ _ Htr) as [E|E]; rewrite E; [reflexivity|].
    rewrite <- Ha. apply (sell_carries_avg _ _ _ _ _ _ _ Htr). congruence.
Qed.

(** C4.  After a pass over a ledger of distinct objects, the [avg_price]
    written on a SELL entry is the one carried into that step: the
    [avg_price] of the entry before it (the seed 0 for a first entry), which
    is the [avg_price] of the last BUY entry before it (0 if there is none).
    It therefore stays the same along every run of SELL entries. *)
Theorem average_price_carried_over_sales (fuel : nat)
    (ledger : list StockTransactionEntry) (r : resolver_state)
    (registry : list nat) (s' : store) :
  process_transactions bcb fuel (seq 0 (length ledger)) (mkStore ledger r)
    = Returned registry s' ->
  forall (i : nat) (t t' : StockTransactionEntry),
  ledger !! i = Some t -> heap s' !! i = Some t' -> op_type t = POp SELL ->
  avg_price t' = carried (PNum num_zero) avg_price (heap s') i
  /\ avg_price t' = last_purchase_avg (take i (heap s')).
Proof.
  intros Hrun i t t' Hl Hh Hop.
  destruct (process_transactions_pass _ _ _ _ _ Hrun) as [st' Hp].
  destruct (pass_lookup _ _ _ _ _ _ _ Hp i t' Hh) as (t0 & sa & sb & ra & rb & Hl0 & Htr & _ & Ha).
  rewrite Hl in Hl0. injection Hl0 as <-.
  assert (avg_price t' = carried (PNum num_zero) avg_price (heap s') i) as Hc.
  { rewrite (sell_carries_avg _ _ _ _ _ _ _ Htr Hop). exact Ha. }
  split; [exact Hc|]. rewrite Hc.
  apply (carried_last_purchase _ _ _ _ _ _ Hp).
  apply Nat.lt_le_incl. eapply lookup_lt_Some, Hh.
Qed.



(** In any arithmetic: on every processed SELL entry [tax] is
    [profit * TAX_ON_PROFIT_PERCENTAGE], one multiplication with no test of
    the sign of [profit]. *)
Lemma tax_is_rate_times_profit (fuel : nat)
    (ledger : list StockTransactionEntry) (r : resolver_state)
    (registry : list nat) (s' : store) :
  process_transactions bcb fuel (seq 0 (length ledger)) (mkStore ledger r)
    = Returned registry s' ->
  forall (i : nat) (t t' : StockTransactionEntry),
  ledger !! i = Some t -> heap s' !! i = Some t' -> op_type t = POp SELL ->
  exists p, profit t' = PNum p /\ tax t' = PNum (num_mul p TAX_ON_PROFIT_PERCENTAGE).
Proof.
  intros Hrun i t t' Hl Hh Hop.
  destruct (process_transactions_pass _ _ _ _ _ Hrun) as [st' Hp].
  destruct (pass_lookup _ _ _ _ _ _ _ Hp i t' Hh)
    as (t0 & sa & sb & ra & rb & Hl0 & Htr & _ & _).
  rewrite Hl in Hl0. injection Hl0 as <-.
  inversion Htr as [|? ? ? ? ? ? ? ? ? profit' ? tax' ? ? ? ? ? ? Hprofit ? Htax]; subst;
    [congruence|].
  simpl. unfold py_mul, py_arith in Htax.
  destruct profit' as [|p| | |]; try discriminate. injection Htax as <-.
  exists p. split; reflexivity.
Qed.

End ProcessorClaims.

Section AbortedPass.
Context {N : PyNumber}.
Variable bcb : string -> response.

Lemma run_list_app (fuel : nat) (pre l : list StockTransactionEntry) :
  forall (st : totals) (r : resolver_state),
  run_list bcb fuel (pre ++ l) st r =
    match run_list bcb fuel pre st r with
    | Returned st1 s1 => with_prefix (heap s1) (run_list bcb fuel l st1 (resolver s1))
    | Raised e s1 => Raised e (mkStore (heap s1 ++ l) (resolver s1))
    | Hung => Hung
    end.
Proof.
  induction pre as [|t pre IH]; intros st r; simpl.
  - destruct (run_list bcb fuel l st r) as [? [? ?]|? [? ?]|]; reflexivity.
  - destruct (process_one bcb fuel st (mkFrame t r)) as [st1 [t1 r1]|e [t1 r1]|];
      cbn [transaction frame_resolver]; [|reflexivity..].
    rewrite IH.
    destruct (run_list bcb fuel pre st1 r1) as [st2 [h2 r2]|e [h2 r2]|];
      cbn [heap resolver]; [|reflexivity..].
    destruct (run_list bcb fuel l st2 r2) as [? [? ?]|? [? ?]|]; reflexivity.
Qed.

(** C7, as the code has it.  The pass raises [ValueError] at the first entry
    whose operation is neither BUY nor SELL: that entry and the ones after
    it are untouched, nothing is returned, and [process_data] writes no
    file.  The entries before it were mutated in place and keep every field
    the pass wrote on them. *)
Theorem unsupported_operation_aborts (fuel : nat)
    (pre post : list StockTransactionEntry) (bad : StockTransactionEntry)
    (r : resolver_state) (registry : list nat) (s_pre : store) :
  op_type bad <> POp BUY -> op_type bad <> POp SELL ->
  process_transactions bcb fuel (seq 0 (length pre)) (mkStore pre r)
    = Returned registry s_pre ->
  process_transactions bcb fuel (seq 0 (length (pre ++ bad :: post)))
      (mkStore (pre ++ bad :: post) r)
    = Raised ValueError (mkStore (heap s_pre ++ bad :: post) (resolver s_pre))
  /\ forall (w : world) (input_path output_path : string) (df : sheet),
       files w !! input_path = Some df ->
       load_rows df (rows df) = inr (pre ++ bad :: post) ->
       bcb_state w = r ->
       process_data bcb fuel input_path output_path w
       = Raised ValueError (mkWorld (files w) (resolver s_pre)).
Proof.
  intros Hb Hs Hpre.
  assert (process_transactions bcb fuel (seq 0 (length (pre ++ bad :: post)))
            (mkStore (pre ++ bad :: post) r)
          = Raised ValueError (mkStore (heap s_pre ++ bad :: post) (resolver s_pre))) as Hrun.
  { rewrite process_transactions_fresh in Hpre |- *. rewrite run_list_app.
    destruct (run_list bcb fuel pre seed r) as [st1 s1| |]; try discriminate.
    injection Hpre as _ <-. simpl.
    rewrite process_one_unsupported by assumption. reflexivity. }
  split; [exact Hrun|].
  intros w input_path output_path df Hfile Hload Hr.
  unfold process_data, load_stock_entries_from_excel, bind, get.
  rewrite Hfile, Hload. cbn [lift ret]. rewrite Hr, Hrun. reflexivity.
Qed.


End AbortedPass.

(** ** Fuel

    The fuel bounds the [while] loop of the resolver and nothing else: a
    run that ended, by returning or by raising, ends the same way with any
    larger fuel. *)
Section Fuel.
Context {N : PyNumber}.
Variable bcb : string -> response.

Lemma finishes_as_refl {S A} (o : outcome S A) : finishes_as o o.
Proof. right. reflexivity. Qed.

Lemma bind_finishes_as {S A B} (m m' : M S A) (k k' : A -> M S B) (s : S) :
  finishes_as (m s) (m' s) ->
  (forall a s1, finishes_as (k a s1) (k' a s1)) ->
  finishes_as (bind m k s) (bind m' k' s).
Proof.
  intros [Hm|Hm] Hk; unfold bind.
  - rewrite Hm. left. reflexivity.
  - rewrite Hm. destruct (m s) as [a s1|e s1|]; [apply Hk | right; reflexivity..].
Qed.

Lemma fetch_loop_fuel (fuel fuel' : nat) :
  (fuel <= fuel')%nat ->
  forall (y m d date : string) (s : resolver_state),
  finishes_as (fetch_loop bcb fuel y m d date s) (fetch_loop bcb fuel' y m d date s).
Proof.
  revert fuel'. induction fuel as [|fuel IH]; intros fuel' Hle y m d date s.
  - left. reflexivity.
  - destruct fuel' as [|fuel']; [lia|]. cbn [fetch_loop].
    apply bind_finishes_as; [apply finishes_as_refl|]. intros result s1.
    destruct (length (value result) =? 0)%nat; [|apply finishes_as_refl].
    apply bind_finishes_as; [apply finishes_as_refl|]. intros [[y1 m1] d1] s2.
    apply bind_finishes_as; [apply finishes_as_refl|]. intros _ s3.
    apply IH. lia.
Qed.

Lemma get_data_fuel (fuel fuel' : nat) (y m d : string) (s : resolver_state) :
  (fuel <= fuel')%nat ->
  finishes_as (_get_eur_quotation_data_for_date bcb fuel y m d s)
              (_get_eur_quotation_data_for_date bcb fuel' y m d s).
Proof.
  intros Hle. unfold _get_eur_quotation_data_for_date.
  apply bind_finishes_as; [apply finishes_as_refl|]. intros s0 s1.
  destruct (BCB_CACHE_FOR_EUR_REQUESTS s0 !! us_date y m d);
    [apply finishes_as_refl | apply fetch_loop_fuel, Hle].
Qed.

Lemma rate_fuel (buying : bool) (fuel fuel' : nat) (args : list string)
    (s : resolver_state) :
  (fuel <= fuel')%nat ->
  finishes_as
    (call_with_date ((if buying then get_price_for_buying_eur_at_date bcb
                      else get_price_for_selling_eur_at_date bcb) fuel) args s)
    (call_with_date ((if buying then get_price_for_buying_eur_at_date bcb
                      else get_price_for_selling_eur_at_date bcb) fuel') args s).
Proof.
  intros Hle. unfold call_with_date.
  destruct args as [|y [|m [|d [|? ?]]]]; try apply finishes_as_refl.
  destruct buying;
    unfold get_price_for_buying_eur_at_date, get_price_for_selling_eur_at_date;
    (apply bind_finishes_as; [apply get_data_fuel, Hle | intros; apply finishes_as_refl]).
Qed.

Lemma with_resolver_finishes_as {A} (m m' : M resolver_state A) (f : frame) :
  finishes_as (m (frame_resolver f)) (m' (frame_resolver f)) ->
  finishes_as (with_resolver m f) (with_resolver m' f).
Proof.
  unfold with_resolver. intros [H|H]; rewrite H; [left | right]; reflexivity.
Qed.

Lemma process_one_fuel (fuel fuel' : nat) (st : totals) (f : frame) :
  (fuel <= fuel')%nat ->
  finishes_as (process_one bcb fuel st f) (process_one bcb fuel' st f).
Proof.
  intros Hle. unfold process_one.
  apply bind_finishes_as; [apply finishes_as_refl|]. intros o f1.
  destruct o as [| | |[|]|]; try apply finishes_as_refl.
  - unfold process_buy.
    apply bind_finishes_as; [apply finishes_as_refl|]. intros d f2.
    apply bind_finishes_as; [apply finishes_as_refl|]. intros args f3.
    apply bind_finishes_as; [|intros; apply finishes_as_refl].
    apply with_resolver_finishes_as, (rate_fuel true), Hle.
  - unfold process_sell.
    apply bind_finishes_as; [apply finishes_as_refl|]. intros d f2.
    apply bind_finishes_as; [apply finishes_as_refl|]. intros args f3.
    apply bind_finishes_as; [|intros; apply finishes_as_refl].
    apply with_resolver_finishes_as, (rate_fuel false), Hle.
Qed.

Lemma process_loop_fuel (fuel fuel' : nat) (registry : list nat) :
  (fuel <= fuel')%nat ->
  forall (st : totals) (s : store),
  finishes_as (process_loop bcb fuel registry st s) (process_loop bcb fuel' registry st s).
Proof.
  intros Hle. induction registry as [|ref rest IH]; intros st s; cbn [process_loop].
  - apply finishes_as_refl.
  - apply bind_finishes_as; [|intros; apply IH].
    unfold for_object. destruct (heap s !! ref) as [t|]; [|apply finishes_as_refl].
    destruct (process_one_fuel fuel fuel' st (mkFrame t (resolver s)) Hle) as [H|H];
      rewrite H; [left | right]; reflexivity.
Qed.

(** A pass that ended is the pass with any larger fuel. *)
Lemma process_transactions_fuel (fuel fuel' : nat) (registry : list nat) (s : store) :
  (fuel <= fuel')%nat ->
  process_transactions bcb fuel registry s <> Hung ->
  process_transactions bcb fuel' registry s = process_transactions bcb fuel registry s.
Proof.
  intros Hle Hend.
  assert (finishes_as (process_transactions bcb fuel registry s)
                      (process_transactions bcb fuel' registry s)) as [H|H].
  { unfold process_transactions.
    apply bind_finishes_as; [apply process_loop_fuel, Hle | intros; apply finishes_as_refl]. }
  - contradiction.
  - exact H.
Qed.

End Fuel.

(** ** The assembler *)

Section AssemblerFacts.
Context {N : PyNumber}.

Lemma shape_cons_eq (c1 c2 : ascii) (s1 s2 : string) :
  shape (String c1 s1) = shape (String c2 s2) ->
  shape s1 = shape s2
  /\ ((exists d1 d2, digit_of_ascii c1 = Some d1 /\ digit_of_ascii c2 = Some d2)
      \/ (digit_of_ascii c1 = None /\ c2 = c1)).
Proof.
  simpl. intros [= Hc Hs]. split; [exact Hs|].
  destruct (digit_of_ascii c1) as [d1|] eqn:E1, (digit_of_ascii c2) as [d2|] eqn:E2.
  - left. eauto.
  - subst c2. discriminate E2.
  - subst c1. discriminate E1.
  - right. split; [reflexivity | congruence].
Qed.

Lemma digit_of_ascii_range (c : ascii) (d : Z) :
  digit_of_ascii c = Some d -> 0 <= d <= 9 /\ Z.of_N (N_of_ascii c) = d + 48.
Proof.
  unfold digit_of_ascii. destruct (_ && _) eqn:E; [|discriminate].
  intros [= <-]. apply andb_prop in E as [? ?]. lia.
Qed.

Lemma digits_value_lt (s1 s2 : string) :
  shape s1 = shape s2 ->
  forall a1 a2, a1 < a2 -> digits_value s1 a1 < digits_value s2 a2.
Proof.
  revert s2. induction s1 as [|c1 s1 IH]; intros [|c2 s2] Hs a1 a2 Ha;
    try discriminate Hs; simpl; [exact Ha|].
  apply shape_cons_eq in Hs as [Hs [(d1 & d2 & E1 & E2)|[E1 ->]]].
  - rewrite E1, E2. apply IH; [exact Hs|].
    apply digit_of_ascii_range in E1, E2. lia.
  - rewrite E1. apply IH; assumption.
Qed.

Lemma string_compare_digits_value (s1 s2 : string) :
  shape s1 = shape s2 ->
  forall a, String.compare s1 s2 = (digits_value s1 a ?= digits_value s2 a).
Proof.
  revert s2. induction s1 as [|c1 s1 IH]; intros [|c2 s2] Hs a;
    try discriminate Hs; simpl.
  - symmetry. apply Z.compare_refl.
  - apply shape_cons_eq in Hs as [Hs [(d1 & d2 & E1 & E2)|[E1 ->]]].
    + rewrite E1, E2.
      destruct (digit_of_ascii_range _ _ E1) as [R1 V1].
      destruct (digit_of_ascii_range _ _ E2) as [R2 V2].
      unfold Ascii.compare. rewrite <- N2Z.inj_compare, V1, V2.
      destruct (Z.compare_spec (d1 + 48) (d2 + 48)) as [E|L|G].
      * assert (d1 = d2) as -> by lia. apply IH, Hs.
      * symmetry. apply Z.compare_lt_iff. apply digits_value_lt; [exact Hs | lia].
      * symmetry. apply Z.compare_gt_iff. apply digits_value_lt; [congruence | lia].
    + rewrite E1. unfold Ascii.compare. rewrite N.compare_refl. apply IH, Hs.
Qed.

Lemma iso_ltb (s1 s2 : string) :
  iso_date s1 -> iso_date s2 -> String.ltb s1 s2 = (iso_number s1 <? iso_number s2).
Proof.
  unfold iso_date, iso_number. intros H1 H2.
  unfold String.ltb, Z.ltb.
  rewrite (string_compare_digits_value s1 s2 (eq_trans H1 (eq_sym H2)) 0). reflexivity.
Qed.

Lemma iso_eqb (s1 s2 : string) :
  iso_date s1 -> iso_date s2 -> String.eqb s1 s2 = (iso_number s1 =? iso_number s2).
Proof.
  unfold iso_date, iso_number. intros H1 H2.
  pose proof (string_compare_digits_value s1 s2 (eq_trans H1 (eq_sym H2)) 0) as Hc.
  destruct (String.eqb_spec s1 s2) as [->|Hne].
  - symmetry. apply Z.eqb_refl.
  - symmetry. apply Z.eqb_neq. intros E.
    apply Z.compare_eq_iff in E. rewrite <- Hc in E.
    apply String.compare_eq_iff in E. contradiction.
Qed.

Lemma op_rank_range (t : StockTransactionEntry) : 0 <= op_rank t <= 1.
Proof. unfold op_rank. destruct (op_type t) as [| | |[|]|]; lia. Qed.

(** On entries with ISO dates the comparison of sort keys never raises and
    is the comparison of [sort_rank]. *)
Lemma key_lt_iso (a b : StockTransactionEntry) :
  iso_dated a -> iso_dated b ->
  key_lt (sort_by_date a) (sort_by_date b) = inr (sort_rank a <? sort_rank b).
Proof.
  intros (sa & Ha & Ia) (sb & Hb & Ib).
  unfold key_lt, sort_by_date, sort_rank, date_number. cbn [fst snd].
  rewrite Ha, Hb. cbn [py_eq py_lt].
  rewrite (iso_eqb _ _ Ia Ib), (iso_ltb _ _ Ia Ib).
  assert (forall t, (if py_eq (op_type t) (POp BUY) then 0 else 1) = op_rank t) as Hr.
  { intros t. unfold op_rank. destruct (op_type t) as [| | |[|]|]; reflexivity. }
  rewrite !Hr.
  pose proof (op_rank_range a). pose proof (op_rank_range b).
  destruct (Z.eqb_spec (iso_number sa) (iso_number sb)) as [E|E]; f_equal.
  - destruct (Z.ltb_spec (op_rank a) (op_rank b)),
      (Z.ltb_spec (2 * iso_number sa + op_rank a) (2 * iso_number sb + op_rank b));
      try reflexivity; lia.
  - destruct (Z.ltb_spec (iso_number sa) (iso_number sb)),
      (Z.ltb_spec (2 * iso_number sa + op_rank a) (2 * iso_number sb + op_rank b));
      try reflexivity; lia.
Qed.

Lemma sort_rank_le (a b : StockTransactionEntry) :
  sort_rank a <= sort_rank b <-> ledger_le a b.
Proof.
  unfold sort_rank, ledger_le.
  pose proof (op_rank_range a). pose proof (op_rank_range b). lia.
Qed.

Lemma sort_insert_iso (x : StockTransactionEntry) (sorted : list StockTransactionEntry) :
  iso_dated x -> Forall iso_dated sorted ->
  sort_insert sort_by_date x sorted = inr (insert_by sort_rank x sorted).
Proof.
  intros Hx. induction 1 as [|y rest Hy Hrest IH]; simpl; [reflexivity|].
  rewrite (key_lt_iso _ _ Hy Hx).
  destruct (sort_rank y <? sort_rank x); [rewrite IH|]; reflexivity.
Qed.

Lemma insert_by_Permutation {A} (rank : A -> Z) (x : A) (l : list A) :
  insert_by rank x l ≡ₚ x :: l.
Proof.
  induction l as [|y l IH]; simpl; [reflexivity|].
  destruct (rank y <? rank x); [|reflexivity].
  rewrite IH. apply Permutation_swap.
Qed.

Lemma sort_by_Permutation {A} (rank : A -> Z) (l : list A) : sort_by rank l ≡ₚ l.
Proof.
  induction l as [|x l IH]; simpl; [reflexivity|].
  rewrite insert_by_Permutation, IH. reflexivity.
Qed.

Lemma list_sort_iso (l : list StockTransactionEntry) :
  Forall iso_dated l -> list_sort sort_by_date l = inr (sort_by sort_rank l).
Proof.
  induction 1 as [|x l Hx Hl IH]; simpl; [reflexivity|].
  rewrite IH. apply sort_insert_iso; [exact Hx|].
  rewrite sort_by_Permutation. exact Hl.
Qed.

Lemma insert_by_sorted {A} (rank : A -> Z) (x : A) (l : list A) :
  Sorted (fun a b => rank a <= rank b) l ->
  Sorted (fun a b => rank a <= rank b) (insert_by rank x l).
Proof.
  induction 1 as [|y l Hs IH Hhd]; simpl; [repeat constructor|].
  destruct (Z.ltb_spec (rank y) (rank x)) as [Hlt|Hge].
  - constructor; [exact IH|].
    destruct Hhd as [|z l Hyz]; simpl; [constructor; lia|].
    destruct (rank z <? rank x); constructor; [exact Hyz | lia].
  - constructor; [constructor; assumption | constructor; exact Hge].
Qed.

Lemma sort_by_sorted {A} (rank : A -> Z) (l : list A) :
  Sorted (fun a b => rank a <= rank b) (sort_by rank l).
Proof.
  induction l as [|x l IH]; simpl; [constructor | apply insert_by_sorted, IH].
Qed.

(** Insertion passes only over entries of a smaller rank, so entries of
    one rank keep the order they came in. *)
Lemma insert_by_filter {A} (rank : A -> Z) (k : Z) (x : A) (l : list A) :
  filter (fun t => rank t = k) (insert_by rank x l)
  = filter (fun t => rank t = k) (x :: l).
Proof.
  induction l as [|y l IH]; simpl; [reflexivity|].
  destruct (Z.ltb_spec (rank y) (rank x)) as [Hlt|Hge]; [|reflexivity].
  rewrite filter_cons, IH, !filter_cons.
  destruct (decide (rank y = k)), (decide (rank x = k)); try reflexivity. lia.
Qed.

Lemma sort_by_filter {A} (rank : A -> Z) (k : Z) (l : list A) :
  filter (fun t => rank t = k) (sort_by rank l) = filter (fun t => rank t = k) l.
Proof.
  induction l as [|x l IH]; simpl; [reflexivity|].
  rewrite insert_by_filter, !filter_cons, IH. reflexivity.
Qed.



End AssemblerFacts.

(** ** Persistence *)

Section PersistenceFacts.
Context {N : PyNumber}.

Lemma iso_date_not_na (s : string) :
  iso_date s -> existsb (String.eqb s) na_values = false.
Proof.
  intros Hiso. apply not_true_iff_false. intros H.
  apply existsb_exists in H as (x & Hin & Heq).
  apply String.eqb_eq in Heq. subst x. unfold iso_date in Hiso.
  simpl in Hin.
  repeat (destruct Hin as [<-|Hin]; [discriminate Hiso|]). exact Hin.
Qed.

Lemma read_write_number (v : pyval) : is_number v -> read_cell (write_cell v) = v.
Proof.
  intros [x ->]. simpl. destruct (num_is_nan x) eqn:E; simpl; [|reflexivity].
  f_equal. symmetry. apply num_nan_unique, E.
Qed.

Lemma read_write_date (v : pyval) (s : string) :
  v = PStr s -> iso_date s -> read_cell (write_cell v) = v.
Proof.
  intros -> Hiso. cbn [write_cell read_cell].
  rewrite (iso_date_not_na _ Hiso). reflexivity.
Qed.

Lemma read_write_op (v : pyval) :
  is_tag (E := OpType) v -> parse_enum OpType (read_cell (write_cell v)) = v.
Proof. intros [->|[[|] ->]]; reflexivity. Qed.

Lemma read_write_conv (v : pyval) :
  is_tag (E := CurrencyConversionType) v ->
  parse_enum CurrencyConversionType (read_cell (write_cell v)) = v.
Proof. intros [->|[[|] ->]]; reflexivity. Qed.

Lemma add_column_keeps (cols : list string) (k k' : string) :
  existsb (String.eqb k) cols = true ->
  existsb (String.eqb k) (add_column cols k') = true.
Proof.
  intros H. unfold add_column. destruct (existsb (String.eqb k') cols); [exact H|].
  rewrite existsb_app, H. reflexivity.
Qed.

Lemma add_column_adds (cols : list string) (k : string) :
  existsb (String.eqb k) (add_column cols k) = true.
Proof.
  unfold add_column. destruct (existsb (String.eqb k) cols) eqn:E; [exact E|].
  rewrite existsb_app. simpl. rewrite String.eqb_refl, orb_true_r. reflexivity.
Qed.

Lemma foldl_add_column_keeps (ks cols : list string) (k : string) :
  existsb (String.eqb k) cols = true ->
  existsb (String.eqb k) (foldl add_column cols ks) = true.
Proof.
  revert cols. induction ks as [|k' ks IH]; intros cols H; simpl; [exact H|].
  apply IH, add_column_keeps, H.
Qed.

Lemma foldl_add_column_adds (ks cols : list string) (k : string) :
  In k ks -> existsb (String.eqb k) (foldl add_column cols ks) = true.
Proof.
  revert cols. induction ks as [|k' ks IH]; intros cols; simpl; [tauto|].
  intros [->|H]; [apply foldl_add_column_keeps, add_column_adds | apply IH, H].
Qed.

Lemma frame_columns_has (dicts : list (list (string * pyval)))
    (d : list (string * pyval)) (k : string) :
  In d dicts -> In k (map fst d) ->
  existsb (String.eqb k) (frame_columns dicts) = true.
Proof.
  unfold frame_columns. generalize (@nil string) as cols.
  induction dicts as [|d' dicts IH]; intros cols; simpl; [tauto|].
  intros [->|Hd] Hk.
  - clear IH. generalize (foldl_add_column_adds (map fst d) cols k Hk).
    generalize (foldl add_column cols (map fst d)) as cols'.
    induction dicts as [|d' dicts IH]; intros cols' H; simpl; [exact H|].
    apply IH, foldl_add_column_keeps, H.
  - apply IH; assumption.
Qed.

Lemma saved_has_column (all : list StockTransactionEntry) (t : StockTransactionEntry)
    (k : string) :
  In t all -> In k declared_columns ->
  existsb (String.eqb k) (columns (to_excel (map entry_dict all))) = true.
Proof.
  intros Ht Hk. cbn [to_excel columns].
  apply (frame_columns_has _ (entry_dict t)); [apply in_map, Ht|].
  unfold entry_dict. rewrite map_app. apply in_or_app. left. exact Hk.
Qed.

Ltac row_lookup :=
  unfold row_of; rewrite lookup_omap; unfold entry_dict;
  match goal with |- context [total_cost_brl ?t] => destruct (total_cost_brl t) end;
  reflexivity.

Lemma row_of_cells (t : StockTransactionEntry) :
  row_of t !! "date" = write_cell (date t)
  /\ row_of t !! "op_type" = write_cell (op_type t)
  /\ row_of t !! "qty" = write_cell (qty t)
  /\ row_of t !! "total_qty" = write_cell (total_qty t)
  /\ row_of t !! "cur_conv_rate" = write_cell (cur_conv_rate t)
  /\ row_of t !! "cur_conv_type" = write_cell (cur_conv_type t)
  /\ row_of t !! "avg_price" = write_cell (avg_price t)
  /\ row_of t !! "price_eur" = write_cell (price_eur t)
  /\ row_of t !! "price_brl" = write_cell (price_brl t)
  /\ row_of t !! "net_proceeds" = write_cell (net_proceeds t)
  /\ row_of t !! "profit" = write_cell (profit t)
  /\ row_of t !! "tax" = write_cell (tax t).
Proof. repeat split; row_lookup. Qed.

(** The thirteenth column is written for an entry that has the attribute. *)
Lemma row_of_total_cost_brl (t : StockTransactionEntry) (v : pyval) :
  total_cost_brl t = Some v -> row_of t !! "total_cost_brl" = write_cell v.
Proof.
  intros H. unfold row_of. rewrite lookup_omap. unfold entry_dict. rewrite H. reflexivity.
Qed.

Lemma load_row_saved (all : list StockTransactionEntry) (t : StockTransactionEntry) :
  In t all -> persistable t ->
  load_row (to_excel (map entry_dict all)) (row_of t) = inr (reloaded t).
Proof.
  intros Hin ((s & Hd & Hiso) & Hop & Hconv & Hq & Htq & Hr & Ha & Hpe & Hpb & Hnp & Hp & Htx).
  destruct (row_of_cells t)
    as (C1 & C2 & C3 & C4 & C5 & C6 & C7 & C8 & C9 & C10 & C11 & C12).
  unfold load_row, row_getitem, row_get.
  rewrite !(saved_has_column all t) by (try exact Hin; unfold declared_columns; simpl; tauto).
  rewrite C1, C2, C3, C4, C5, C6, C7, C8, C9, C10, C11, C12.
  cbn [ebind].
  rewrite (read_write_date _ _ Hd Hiso), (read_write_op _ Hop), (read_write_conv _ Hconv).
  rewrite !read_write_number by assumption.
  reflexivity.
Qed.

Lemma load_rows_saved (all part : list StockTransactionEntry) :
  (forall t, In t part -> In t all) -> Forall persistable part ->
  load_rows (to_excel (map entry_dict all)) (map row_of part) = inr (map reloaded part).
Proof.
  intros Hsub Hall. induction Hall as [|t part Ht Hpart IH]; simpl; [reflexivity|].
  rewrite load_row_saved by (try apply Hsub; try left; auto). cbn [ebind].
  rewrite IH by (intros u Hu; apply Hsub; right; exact Hu). reflexivity.
Qed.

(** Saving a ledger and loading the file again. *)
Lemma save_then_load (entries : list StockTransactionEntry) (path : string)
    (files : gmap string sheet) :
  Forall persistable entries ->
  let files' := <[path := to_excel (map entry_dict entries)]> files in
  save_stock_entries_to_excel entries path files = Returned tt files'
  /\ load_stock_entries_from_excel path files' = Returned (map reloaded entries) files'.
Proof.
  intros Hall files'. split; [reflexivity|].
  unfold load_stock_entries_from_excel, bind, get. unfold files'.
  rewrite lookup_insert_eq.
  replace (rows (to_excel (map entry_dict entries))) with (map row_of entries)
    by (cbn [to_excel rows]; rewrite map_map; reflexivity).
  rewrite load_rows_saved by auto. reflexivity.
Qed.



End PersistenceFacts.

Section TagFacts.
Context {N : PyNumber}.
Variable bcb : string -> response.

Lemma strip_prefix_Some (p s rest : string) :
  strip_prefix p s = Some rest -> s = p +:+ rest.
Proof.
  revert s. induction p as [|a p IH]; intros [|b s]; simpl; try discriminate.
  - intros [= <-]. reflexivity.
  - intros [= <-]. reflexivity.
  - destruct (Ascii.eqb_spec a b) as [->|]; [|discriminate].
    intros H. rewrite (IH _ H). reflexivity.
Qed.

Lemma take_word_app (s w tail : string) : take_word s = (w, tail) -> s = w +:+ tail.
Proof.
  revert w tail. induction s as [|c s IH]; intros w tail; simpl.
  - intros [= <- <-]. reflexivity.
  - destruct (is_word_char c); [|intros [= <- <-]; reflexivity].
    destruct (take_word s) as [w' rest]. intros [= <- <-].
    rewrite (IH w' rest eq_refl). reflexivity.
Qed.

Lemma enum_getitem_Some (E : Type) `{PyEnum E} (name : string) (e : E) :
  enum_getitem E name = Some e -> enum_member_name e = name.
Proof.
  unfold enum_getitem. intros Hf. apply find_some in Hf as [_ Hf].
  apply String.eqb_eq, Hf.
Qed.

Lemma string_app_assoc (a b c : string) : (a +:+ b) +:+ c = a +:+ b +:+ c.
Proof. induction a as [|x a IH]; [reflexivity|]. rewrite !append_cons, IH. reflexivity. Qed.

Lemma string_app_nil_r (a : string) : a +:+ "" = a.
Proof. induction a as [|x a IH]; [reflexivity|]. rewrite append_cons, IH. reflexivity. Qed.

(** [parse_enum] answers a member only for the text that spells it. *)
Lemma parse_enum_not_None (E : Type) `{PyEnum E} (v : pyval) :
  parse_enum E v <> PNone -> exists s, v = PStr s /\ spells_member E s.
Proof.
  unfold parse_enum. destruct v as [| |s| |]; try congruence.
  destruct (String.eqb s EmptyString); [congruence|].
  destruct (strip_prefix _ s) as [rest|] eqn:Ep; [|congruence].
  destruct (take_word rest) as [w tail] eqn:Ew.
  destruct (negb _ && _) eqn:Ec; [|congruence].
  destruct (enum_getitem E w) as [e|] eqn:Eg; [|congruence].
  intros _. exists s. split; [reflexivity|]. exists e.
  apply strip_prefix_Some in Ep. apply take_word_app in Ew.
  apply enum_getitem_Some in Eg. apply andb_prop in Ec as [_ Ec].
  apply orb_prop in Ec as [Ec|Ec]; apply String.eqb_eq in Ec; subst.
  - left. unfold enum_str. rewrite string_app_nil_r, string_app_assoc. reflexivity.
  - right. unfold enum_str. rewrite !string_app_assoc. reflexivity.
Qed.



End TagFacts.

Section ProcessedLedger.
Context {N : PyNumber}.
Variable bcb : string -> response.

Lemma py_arith_inr (f : num -> num -> num) (a b v : pyval) :
  py_arith f a b = inr v -> is_number a /\ is_number b /\ is_number v.
Proof.
  unfold py_arith. destruct a as [|x| | |]; try discriminate.
  destruct b as [|y| | |]; try discriminate.
  intros [= <-]. repeat split; eexists; reflexivity.
Qed.

Lemma py_truediv_inr (a b v : pyval) : py_truediv a b = inr v -> is_number v.
Proof.
  unfold py_truediv. destruct a as [|x| | |]; try discriminate.
  destruct b as [|y| | |]; try discriminate.
  destruct (num_is_zero y); [discriminate|]. intros [= <-]. eexists. reflexivity.
Qed.

(** A transition keeps an entry in the shape a ledger file holds. *)
Lemma transition_persistable (fuel : nat) (st st' : totals)
    (t t' : StockTransactionEntry) (r r' : resolver_state) :
  transition bcb fuel st (mkFrame t r) st' (mkFrame t' r') ->
  persistable t -> persistable t'.
Proof.
  intros Htr (Hd & Hop & Hconv & Hq & Htq & Hr & Ha & Hpe & Hpb & Hnp & Hp & Htx).
  inversion Htr; subst; unfold persistable; cbn;
    repeat match goal with
           | H : py_arith _ _ _ = inr _ |- _ => apply py_arith_inr in H as (? & ? & ?)
           | H : py_add _ _ = inr _ |- _ => apply py_arith_inr in H as (? & ? & ?)
           | H : py_sub _ _ = inr _ |- _ => apply py_arith_inr in H as (? & ? & ?)
           | H : py_mul _ _ = inr _ |- _ => apply py_arith_inr in H as (? & ? & ?)
           | H : py_truediv _ _ = inr _ |- _ => apply py_truediv_inr in H
           end;
    repeat split; assumption.
Qed.

Lemma pass_persistable (fuel : nat) (st st' : totals)
    (l l' : list StockTransactionEntry) (r r' : resolver_state) :
  pass bcb fuel st l r st' l' r' -> Forall persistable l -> Forall persistable l'.
Proof.
  induction 1 as [|st t r st1 t1 r1 l st2 l2 r2 Ht Hp IH]; intros Hl; [constructor|].
  apply Forall_cons in Hl as [Ht0 Hl]. constructor.
  - eapply transition_persistable; eassumption.
  - apply IH, Hl.
Qed.

(** The entries of a processed ledger are of the shape [persistable] asks
    for when the entries loaded were. *)
Lemma processed_persistable (fuel : nat) (ledger : list StockTransactionEntry)
    (r : resolver_state) (registry : list nat) (s' : store) :
  process_transactions bcb fuel (seq 0 (length ledger)) (mkStore ledger r)
    = Returned registry s' ->
  Forall persistable ledger -> Forall persistable (heap s').
Proof.
  intros Hrun Hl. destruct (process_transactions_pass _ _ _ _ _ _ Hrun) as [st' Hp].
  eapply pass_persistable; eassumption.
Qed.

End ProcessedLedger.


(** * Part III: the example scenario and concrete runs *)

(** Where nothing else is said, a concrete run below is in decimals. *)
#[local] Existing Instance Decimal.


(** ** The example ledger *)

Lemma returned_store_of {A} (o : outcome (@store Decimal) A) (a : A) :
  match o with Returned a' _ => a' = a | _ => False end ->
  o = Returned a (store_of o).
Proof. destruct o; intros H; [subst; reflexivity | contradiction..]. Qed.

Lemma example_run :
  process_transactions example_bcb 1 (seq 0 (length example_ledger))
    (mkStore example_ledger empty_resolver)
  = Returned [0; 1; 2]%nat example_after.
Proof.
  refine (returned_store_of
            (process_transactions example_bcb 1 (seq 0 (length example_ledger))
               (mkStore example_ledger empty_resolver)) _ _).
  vm_compute. reflexivity.
Qed.

Lemma example_after_heap :
  heap example_after
  = [example_purchase_after; example_sale_after; example_second_sale_after].
Proof. vm_compute. reflexivity. Qed.




Lemma average_price_witness :
  avg_price example_second_sale_after
  = carried (PNum num_zero) avg_price (heap example_after) 2
  /\ avg_price example_second_sale_after
     = last_purchase_avg (take 2 (heap example_after)).
Proof.
  apply (average_price_carried_over_sales example_bcb 1%nat example_ledger
           empty_resolver [0; 1; 2]%nat example_after example_run
           2%nat example_sale example_second_sale_after).
  - reflexivity.
  - rewrite example_after_heap. reflexivity.
  - reflexivity.
Defined.




Lemma purchase_only_run :
  process_transactions example_bcb 1 (seq 0 (length [example_purchase]))
    (mkStore [example_purchase] empty_resolver)
  = Returned [0%nat] purchase_only_after.
Proof.
  refine (returned_store_of
            (process_transactions example_bcb 1 (seq 0 (length [example_purchase]))
               (mkStore [example_purchase] empty_resolver)) _ _).
  vm_compute. reflexivity.
Qed.

Lemma unsupported_operation_witness :
  process_transactions example_bcb 1
    (seq 0 (length ([example_purchase] ++ example_untagged :: [example_sale])))
    (mkStore ([example_purchase] ++ example_untagged :: [example_sale]) empty_resolver)
  = Raised ValueError
      (mkStore (heap purchase_only_after ++ example_untagged :: [example_sale])
               (resolver purchase_only_after)).
Proof.
  apply (proj1 (unsupported_operation_aborts example_bcb 1%nat [example_purchase]
                  [example_sale] example_untagged empty_resolver [0%nat]
                  purchase_only_after ltac:(discriminate) ltac:(discriminate)
                  purchase_only_run)).
Defined.

(** C7 as stated fails: after the aborted pass the purchase that precedes
    the untagged entry holds its computed fields, which were empty (NaN)
    before the pass. *)
Lemma aborted_pass_leaves_fields_filled :
  match process_transactions example_bcb 1 [0; 1; 2]%nat
          (mkStore [example_purchase; example_untagged; example_sale] empty_resolver) with
  | Raised ValueError s' =>
      heap s' = [example_purchase_after; example_untagged; example_sale]
  | _ => False
  end
  /\ total_qty example_purchase = PNum absent
  /\ total_qty example_purchase_after = PNum (D 10)
  /\ example_purchase_after <> example_purchase.
Proof.
  split; [vm_compute; reflexivity|]. split; [reflexivity|]. split; [reflexivity|].
  discriminate.
Qed.

(** ** The resolver over a weekend *)

Lemma weekend_falls_back : falls_back bcb_weekend sunday [sunday; saturday] friday.
Proof.
  apply (fb_step bcb_weekend sunday saturday); [reflexivity..|].
  apply (fb_step bcb_weekend saturday friday); [reflexivity..|].
  apply fb_here. discriminate.
Qed.

Lemma resolver_fallback_witness :
  let data := bcb_weekend (key friday) in
  let s1 := after_walk bcb_weekend [sunday; saturday] friday no_requests in
  _get_eur_quotation_data_for_date bcb_weekend 3 "2023" "01" "08" no_requests
  = Returned data s1
  /\ get_price_for_buying_eur_at_date bcb_weekend 3 "2023" "01" "08" no_requests
     = first_quotation cotacaoCompra data s1
  /\ get_price_for_selling_eur_at_date bcb_weekend 3 "2023" "01" "08" no_requests
     = first_quotation cotacaoVenda data s1
  /\ value data <> []
  /\ BCB_CACHE_FOR_EUR_REQUESTS s1 !! key friday = Some data
  /\ BCB_CACHE_FOR_EUR_REQUESTS s1 !! key sunday = None
  /\ (forall fuel',
        _get_eur_quotation_data_for_date bcb_weekend fuel' "2023" "01" "06" s1
        = Returned data s1)
  /\ exists s2,
       _get_eur_quotation_data_for_date bcb_weekend 3 "2023" "01" "08" s1 = Returned data s2
       /\ requests s2 = requests s1 ++ map key [sunday; saturday] ++ [key friday].
Proof.
  apply (resolver_fallback bcb_weekend "2023" "01" "08" "2023" "01" "06"
           [sunday; saturday] no_requests 3%nat weekend_falls_back).
  - discriminate.
  - reflexivity.
  - simpl. lia.
Defined.

(** C2 as stated fails for the original date: the second resolve of the
    Sunday returns the same data, but it has sent three more requests. *)
Lemma resolver_requeries_original :
  match _get_eur_quotation_data_for_date bcb_weekend 3 "2023" "01" "08" no_requests with
  | Returned data s1 =>
      match _get_eur_quotation_data_for_date bcb_weekend 3 "2023" "01" "08" s1 with
      | Returned data' s2 =>
          data' = data
          /\ requests s1 = ["01-08-2023"; "01-07-2023"; "01-06-2023"]
          /\ requests s2 = requests s1 ++ ["01-08-2023"; "01-07-2023"; "01-06-2023"]
          /\ requests s2 <> requests s1
      | _ => False
      end
  | _ => False
  end.
Proof. vm_compute. repeat split; discriminate. Qed.

Lemma stale_answer_witness :
  let s1 := after_walk bcb_weekend [sunday; saturday] friday no_requests in
  _get_eur_quotation_data_for_date bcb_weekend 3 "2023" "01" "08" no_requests
  = Returned (bcb_weekend (key friday)) s1
  /\ BCB_CACHE_FOR_EUR_REQUESTS s1 !! key saturday = Some (bcb_weekend (key sunday))
  /\ value (bcb_weekend (key sunday)) = []
  /\ forall fuel',
       get_price_for_buying_eur_at_date bcb_weekend fuel' "2023" "01" "07" s1
       = Raised IndexError s1
       /\ get_price_for_selling_eur_at_date bcb_weekend fuel' "2023" "01" "07" s1
          = Raised IndexError s1.
Proof.
  apply (stale_answer_breaks_accessors bcb_weekend "2023" "01" "08" "2023" "01" "07"
           friday [] no_requests 3%nat weekend_falls_back).
  - reflexivity.
  - simpl. lia.
Defined.










(** ** The tax rate *)

(** C9.  On every processed SELL entry [tax] is the product of [profit] and
    [TAX_ON_PROFIT_PERCENTAGE], whatever the sign of [profit]; the constant
    is 0.15 (in binary64 the double nearest to it), and on a loss the
    product is a negative tax. *)
Theorem tax_is_fifteen_percent_of_profit :
  (forall (N : PyNumber) (bcb : string -> response) (fuel : nat)
          (ledger : list StockTransactionEntry) (r : resolver_state)
          (registry : list nat) (s' : store),
     process_transactions bcb fuel (seq 0 (length ledger)) (mkStore ledger r)
       = Returned registry s' ->
     forall (i : nat) (t t' : StockTransactionEntry),
     ledger !! i = Some t -> heap s' !! i = Some t' -> op_type t = POp SELL ->
     exists p, profit t' = PNum p
               /\ tax t' = PNum (num_mul p TAX_ON_PROFIT_PERCENTAGE))
  /\ TAX_ON_PROFIT_PERCENTAGE (PyNumber := Decimal) = D 0.15
  /\ TAX_ON_PROFIT_PERCENTAGE (PyNumber := Binary64) = F 0.15
  /\ (forall p : Q, (p < 0)%Q ->
        exists x, num_mul (PyNumber := Decimal) (Dec p) TAX_ON_PROFIT_PERCENTAGE = Dec x
                  /\ (x == p * 0.15)%Q /\ (x < 0)%Q).
Proof.
  split; [intros N bcb; apply tax_is_rate_times_profit|].
  split; [reflexivity|]. split; [reflexivity|].
  intros p Hp. eexists. split; [reflexivity|].
  assert (Qred (p * Qred 0.15) == p * 0.15)%Q as E.
  { rewrite Qred_correct. apply Qmult_comp; [reflexivity | apply Qred_correct]. }
  split; [exact E|]. rewrite E.
  destruct p as [n d]. unfold Qlt in *. simpl in *. lia.
Qed.

Lemma tax_witness :
  exists p, profit example_sale_after = PNum p
            /\ tax example_sale_after = PNum (num_mul p TAX_ON_PROFIT_PERCENTAGE).
Proof.
  apply (proj1 tax_is_fifteen_percent_of_profit Decimal example_bcb 1%nat example_ledger
           empty_resolver [0; 1; 2]%nat example_after example_run
           1%nat example_sale example_sale_after).
  - reflexivity.
  - rewrite example_after_heap. reflexivity.
  - reflexivity.
Defined.

(** * Part IV: more facts about the program *)

(** ** The calendar of [yesterday_str] *)

Section CalendarFacts.

Lemma days_before_year_step (y : Z) :
  1 < y ->
  days_before_year y = days_before_year (y - 1) + 365 + (if is_leap (y - 1) then 1 else 0).
Proof.
  intros Hy. unfold days_before_year, is_leap. cbv zeta.
  replace (y - 1 - 1) with (y - 2) by lia.
  destruct (Z.eqb_spec ((y - 1) mod 4) 0) as [H4|H4];
    destruct (Z.eqb_spec ((y - 1) mod 100) 0) as [H100|H100];
    destruct (Z.eqb_spec ((y - 1) mod 400) 0) as [H400|H400];
    cbn [negb andb orb]; Z.to_euclidean_division_equations; lia.
Qed.

Lemma days_before_month_step (y m : Z) :
  1 < m <= 12 ->
  days_before_month y m = days_before_month y (m - 1) + days_in_month y (m - 1).
Proof.
  intros Hm.
  assert (m = 2 \/ m = 3 \/ m = 4 \/ m = 5 \/ m = 6 \/ m = 7 \/ m = 8 \/ m = 9
          \/ m = 10 \/ m = 11 \/ m = 12) as Hc by lia.
  unfold days_before_month, days_in_month.
  repeat (destruct Hc as [-> | Hc]; [destruct (is_leap y); reflexivity |]).
  subst m. destruct (is_leap y); reflexivity.
Qed.

Lemma days_before_year_nonneg (y : Z) : 1 <= y -> 365 * (y - 1) <= days_before_year y.
Proof.
  intros Hy. unfold days_before_year. cbv zeta.
  Z.to_euclidean_division_equations. lia.
Qed.

Lemma days_before_month_nonneg (y m : Z) :
  1 <= m <= 12 -> 0 <= days_before_month y m /\ (1 < m -> 31 <= days_before_month y m).
Proof.
  intros Hm.
  assert (m = 1 \/ m = 2 \/ m = 3 \/ m = 4 \/ m = 5 \/ m = 6 \/ m = 7 \/ m = 8 \/ m = 9
          \/ m = 10 \/ m = 11 \/ m = 12) as Hc by lia.
  unfold days_before_month.
  repeat (destruct Hc as [-> | Hc]; [destruct (is_leap y); simpl; lia |]).
  subst m. destruct (is_leap y); simpl; lia.
Qed.

Lemma ordinal_pos (dt : Z * Z * Z) : valid_date dt -> 1 <= ordinal dt.
Proof.
  destruct dt as [[y m] d]. intros (Hy & Hm & Hd). unfold ordinal.
  pose proof (days_before_year_nonneg y ltac:(lia)).
  pose proof (days_before_month_nonneg y m Hm). lia.
Qed.

(** The day before, by the calendar, is the day whose number is one less. *)
Lemma minus_one_day_ordinal (dt du : Z * Z * Z) :
  valid_date dt -> minus_one_day dt = inr du -> ordinal du = ordinal dt - 1.
Proof.
  destruct dt as [[y m] d]. intros (Hy & Hm & Hd). unfold minus_one_day.
  destruct (Z.ltb_spec 1 d) as [H1|H1]; [intros [= <-]; unfold ordinal; lia|].
  destruct (Z.ltb_spec 1 m) as [H2|H2].
  { intros [= <-]. unfold ordinal. rewrite (days_before_month_step y m) by lia. lia. }
  destruct (Z.ltb_spec 1 y) as [H3|H3]; [|discriminate].
  intros [= <-]. unfold ordinal. rewrite (days_before_year_step y) by lia.
  assert (m = 1) as -> by lia.
  unfold days_before_month. destruct (is_leap (y - 1)); simpl; lia.
Qed.

Lemma minus_one_day_first (dt : Z * Z * Z) :
  valid_date dt ->
  match minus_one_day dt with
  | inr _ => dt <> (1, 1, 1)
  | inl e => e = OverflowError /\ dt = (1, 1, 1)
  end.
Proof.
  destruct dt as [[y m] d]. intros (Hy & Hm & Hd). unfold minus_one_day.
  destruct (Z.ltb_spec 1 d); [intros [= ? ? ?]; lia|].
  destruct (Z.ltb_spec 1 m); [intros [= ? ? ?]; lia|].
  destruct (Z.ltb_spec 1 y); [intros [= ? ? ?]; lia|].
  split; [reflexivity|]. repeat f_equal; lia.
Qed.

(** What [yesterday_str] returns, and on what. *)
Lemma yesterday_str_inr (t t1 : ymd) :
  yesterday_str t = inr t1 ->
  exists dt du,
    parse_ymd t = Some dt /\ valid_date dt /\ minus_one_day dt = inr du
    /\ valid_date du /\ parse_ymd t1 = Some du
    /\ t1 = (fmt_04d du.1.1, fmt_02d du.1.2, fmt_02d du.2).
Proof.
  destruct t as [[y m] d]. unfold yesterday_str, parse_ymd.
  destruct (py_int y) as [|yz]; [discriminate|].
  destruct (py_int m) as [|mz]; [discriminate|].
  destruct (py_int d) as [|dz]; [discriminate|].
  destruct (datetime yz mz dz) as [|dt] eqn:Edt; [discriminate|].
  apply datetime_inr in Edt as [-> Hv].
  destruct (minus_one_day (yz, mz, dz)) as [|[[py pm] pd]] eqn:Em; [discriminate|].
  intros [= <-].
  destruct (minus_one_day_valid _ _ Hv Em) as [Hv' _].
  exists (yz, mz, dz), (py, pm, pd).
  split; [reflexivity|]. split; [exact Hv|]. split; [exact Em|].
  split; [exact Hv'|]. split; [|reflexivity].
  pose proof (days_in_month_bounds py pm).
  destruct Hv' as (? & ? & ?).
  rewrite py_int_fmt_04d, !py_int_fmt_02d by lia.
  rewrite datetime_valid; [reflexivity|]. repeat split; lia.
Qed.

Lemma yesterday_str_inl (t : ymd) (e : exn) :
  yesterday_str t = inl e ->
  (e = ValueError /\ parse_ymd t = None)
  \/ (e = OverflowError /\ parse_ymd t = Some (1, 1, 1)).
Proof.
  destruct t as [[y m] d]. unfold yesterday_str, parse_ymd, py_int.
  destruct y as [|cy y]; [intros [= <-]; left; split; reflexivity|].
  destruct (int_of_digits (String cy y) 0) as [yz|];
    [|intros [= <-]; left; split; reflexivity].
  destruct m as [|cm m]; [intros [= <-]; left; split; reflexivity|].
  destruct (int_of_digits (String cm m) 0) as [mz|];
    [|intros [= <-]; left; split; reflexivity].
  destruct d as [|cd d]; [intros [= <-]; left; split; reflexivity|].
  destruct (int_of_digits (String cd d) 0) as [dz|];
    [|intros [= <-]; left; split; reflexivity].
  destruct (datetime yz mz dz) as [e'|dt] eqn:Edt.
  { intros [= <-]. left. unfold datetime in Edt.
    destruct (_ && _); [discriminate|]. injection Edt as <-. split; reflexivity. }
  apply datetime_inr in Edt as [-> Hv].
  pose proof (minus_one_day_first _ Hv) as Hf.
  destruct (minus_one_day (yz, mz, dz)) as [e'|[[py pm] pd]]; [|discriminate].
  intros [= <-]. destruct Hf as [-> ->]. right. split; reflexivity.
Qed.


End CalendarFacts.

(** ** The walk of the resolver *)

Section ResolverWalk.
Context {N : PyNumber}.
Variable bcb : string -> response.

Lemma parse_ymd_valid (t : ymd) (dt : Z * Z * Z) : parse_ymd t = Some dt -> valid_date dt.
Proof.
  destruct t as [[y m] d]. unfold parse_ymd.
  destruct (py_int y) as [|yz]; [discriminate|].
  destruct (py_int m) as [|mz]; [discriminate|].
  destruct (py_int d) as [|dz]; [discriminate|].
  destruct (datetime yz mz dz) as [|dt'] eqn:E; [discriminate|].
  intros [= <-]. apply datetime_inr in E as [_ E]. exact E.
Qed.

Lemma ordinal_bound (dt : Z * Z * Z) : valid_date dt -> ordinal dt < 4000000.
Proof.
  destruct dt as [[y m] d]. intros (Hy & Hm & Hd). unfold ordinal.
  pose proof (days_in_month_bounds y m).
  assert (days_before_month y m <= 335) as Hbm.
  { assert (m = 1 \/ m = 2 \/ m = 3 \/ m = 4 \/ m = 5 \/ m = 6 \/ m = 7 \/ m = 8 \/ m = 9
            \/ m = 10 \/ m = 11 \/ m = 12) as Hc by lia.
    unfold days_before_month.
    repeat (destruct Hc as [-> | Hc]; [destruct (is_leap y); simpl; lia |]).
    subst m. destruct (is_leap y); simpl; lia. }
  assert (days_before_year y <= 3700000) as Hby.
  { unfold days_before_year. cbv zeta. Z.to_euclidean_division_equations. lia. }
  lia.
Qed.

Lemma walk_bound_bound (t : ymd) : (walk_bound t < Z.to_nat 4000000)%nat.
Proof.
  unfold walk_bound. destruct (parse_ymd t) as [dt|] eqn:E; [|lia].
  pose proof (ordinal_bound dt (parse_ymd_valid _ _ E)). lia.
Qed.

Lemma yesterday_str_walk_bound (t t1 : ymd) :
  yesterday_str t = inr t1 -> (S (walk_bound t1) = walk_bound t)%nat.
Proof.
  intros H. apply yesterday_str_inr in H as (dt & du & Hp & Hv & Hm & Hv' & Hp1 & _).
  unfold walk_bound. rewrite Hp, Hp1.
  pose proof (minus_one_day_ordinal _ _ Hv Hm). pose proof (ordinal_pos _ Hv'). lia.
Qed.

Lemma fetch_loop_raise (fuel : nat) (y m d date : string) (e : exn) (s : resolver_state) :
  value (bcb date) = [] ->
  yesterday_str (y, m, d) = inl e ->
  fetch_loop bcb (S fuel) y m d date s =
    Raised e (mkResolver (BCB_CACHE_FOR_EUR_REQUESTS s) (requests s ++ [date])).
Proof.
  intros H Hy. cbn [fetch_loop]. unfold bind at 1. unfold requests_get.
  rewrite H. cbn [length Nat.eqb]. rewrite Hy. reflexivity.
Qed.

Lemma fetch_loop_ends (fuel : nat) :
  forall (y m d date : string) (s : resolver_state),
  (walk_bound (y, m, d) < fuel)%nat ->
  walk_end (fetch_loop bcb fuel y m d date s).
Proof.
  induction fuel as [|fuel IH]; intros y m d date s Hb; [lia|].
  destruct (value (bcb date)) as [|q qs] eqn:E.
  - destruct (yesterday_str (y, m, d)) as [e|[[y1 m1] d1]] eqn:Ey.
    + rewrite (fetch_loop_raise _ _ _ _ _ _ _ E Ey). simpl.
      apply yesterday_str_inl in Ey as [[-> _]|[-> _]]; [left | right]; reflexivity.
    + rewrite (fetch_loop_empty _ _ _ _ _ _ _ _ _ _ E Ey).
      apply IH. apply yesterday_str_walk_bound in Ey. lia.
  - rewrite fetch_loop_found by (rewrite E; discriminate). simpl. rewrite E. discriminate.
Qed.

(** X2.  The [while not done] loop of the resolver ends for every year,
    month and day string and every cache: four million iterations are
    always enough.  A resolve returns data from the cache as it is, or walks
    and then returns a response that holds a quotation, or raises
    [ValueError] (the strings are no date of the calendar) or
    [OverflowError] (the walk went past 0001-01-01). *)
Theorem resolver_walk_ends (y m d : string) (s : resolver_state) :
  (walk_bound (y, m, d) < Z.to_nat 4000000)%nat
  /\ forall fuel, (walk_bound (y, m, d) < fuel)%nat ->
     match _get_eur_quotation_data_for_date bcb fuel y m d s with
     | Returned data s' =>
         (BCB_CACHE_FOR_EUR_REQUESTS s !! key (y, m, d) = Some data /\ s' = s)
         \/ (BCB_CACHE_FOR_EUR_REQUESTS s !! key (y, m, d) = None /\ value data <> [])
     | Raised e _ =>
         BCB_CACHE_FOR_EUR_REQUESTS s !! key (y, m, d) = None
         /\ (e = ValueError \/ e = OverflowError)
     | Hung => False
     end.
Proof.
  split; [apply walk_bound_bound|]. intros fuel Hb.
  destruct (BCB_CACHE_FOR_EUR_REQUESTS s !! key (y, m, d)) as [data|] eqn:E.
  - rewrite (get_data_hit _ _ _ _ _ _ _ E). left. split; reflexivity.
  - rewrite (get_data_miss _ _ _ _ _ _ E). unfold fetch_from.
    pose proof (fetch_loop_ends fuel y m d (key (y, m, d)) s Hb) as H.
    destruct (fetch_loop bcb fuel y m d (key (y, m, d)) s); simpl in H.
    + right. split; [reflexivity | exact H].
    + split; [reflexivity | exact H].
    + exact H.
Qed.

(** X3.  When the date is not in the cache, the two accessors return a
    number or raise [ValueError] or [OverflowError]: the [IndexError] of an
    empty quotation list can only come out of the cache. *)
Theorem miss_yields_rate_or_date_error (y m d : string) (s : resolver_state) (fuel : nat) :
  BCB_CACHE_FOR_EUR_REQUESTS s !! key (y, m, d) = None ->
  (walk_bound (y, m, d) < fuel)%nat ->
  match get_price_for_buying_eur_at_date bcb fuel y m d s with
  | Returned v _ => is_number v
  | Raised e _ => e = ValueError \/ e = OverflowError
  | Hung => False
  end
  /\ match get_price_for_selling_eur_at_date bcb fuel y m d s with
     | Returned v _ => is_number v
     | Raised e _ => e = ValueError \/ e = OverflowError
     | Hung => False
     end.
Proof.
  intros Hmiss Hb.
  unfold get_price_for_buying_eur_at_date, get_price_for_selling_eur_at_date, bind.
  rewrite (get_data_miss _ _ _ _ _ _ Hmiss). unfold fetch_from.
  pose proof (fetch_loop_ends fuel y m d (key (y, m, d)) s Hb) as H.
  destruct (fetch_loop bcb fuel y m d (key (y, m, d)) s) as [data s'|e s'|];
    simpl in H; [|split; exact H|contradiction].
  unfold first_quotation. destruct (value data) as [|q qs]; [congruence|].
  split; eexists; reflexivity.
Qed.

Lemma no_data_walk (n : nat) :
  forall (t : ymd) (dt : Z * Z * Z) (date : string) (s : resolver_state) (fuel : nat),
  parse_ymd t = Some dt -> Z.to_nat (ordinal dt) = n ->
  value (bcb date) = [] ->
  (forall u du, parse_ymd u = Some du -> ordinal du < ordinal dt ->
                value (bcb (key u)) = []) ->
  (n <= fuel)%nat ->
  exists s',
    fetch_loop bcb fuel t.1.1 t.1.2 t.2 date s = Raised OverflowError s'
    /\ length (requests s') = (length (requests s) + n)%nat.
Proof.
  induction n as [|n IH]; intros t dt date s fuel Hp Hn Hdate Hempty Hfuel.
  { pose proof (ordinal_pos _ (parse_ymd_valid _ _ Hp)). lia. }
  destruct fuel as [|fuel]; [lia|].
  destruct t as [[y m] d]. cbn [fst snd].
  destruct (yesterday_str (y, m, d)) as [e|[[y1 m1] d1]] eqn:Ey.
  - rewrite (fetch_loop_raise _ _ _ _ _ _ _ Hdate Ey).
    apply yesterday_str_inl in Ey as [[_ Ey]|[-> Ey]]; [congruence|].
    rewrite Hp in Ey. injection Ey as ->.
    eexists. split; [reflexivity|]. cbn [requests].
    rewrite length_app. change (ordinal (1, 1, 1)) with 1 in Hn. simpl. lia.
  - rewrite (fetch_loop_empty _ _ _ _ _ _ _ _ _ _ Hdate Ey).
    apply yesterday_str_inr in Ey as (dt' & du & Hp' & Hv & Hm & Hv' & Hp1 & _).
    rewrite Hp in Hp'. injection Hp' as <-.
    pose proof (minus_one_day_ordinal _ _ Hv Hm) as Ho.
    pose proof (ordinal_pos _ Hv').
    destruct (IH (y1, m1, d1) du (us_date y1 m1 d1)
                (mkResolver (<[us_date y1 m1 d1 := bcb date]> (BCB_CACHE_FOR_EUR_REQUESTS s))
                            (requests s ++ [date])) fuel Hp1)
      as (s' & Hrun & Hlen).
    + lia.
    + apply (Hempty (y1, m1, d1) du Hp1). lia.
    + intros u du' Hu Hlt. apply (Hempty u du' Hu). lia.
    + lia.
    + exists s'. cbn [fst snd] in Hrun. split; [exact Hrun|].
      cbn [requests] in Hlen. rewrite length_app in Hlen. simpl in Hlen. lia.
Qed.

(** X4.  When the service has no quotation for the date asked nor for any
    date before it, a resolve that misses the cache does not stop at the
    first date of the service: it asks for every day back to 0001-01-01,
    one request a day, and ends in the [OverflowError] of the date
    arithmetic. *)
Theorem no_data_walks_to_year_one (y m d : string) (dt : Z * Z * Z)
    (s : resolver_state) (fuel : nat) :
  parse_ymd (y, m, d) = Some dt ->
  (forall u du, parse_ymd u = Some du -> ordinal du <= ordinal dt ->
                value (bcb (key u)) = []) ->
  BCB_CACHE_FOR_EUR_REQUESTS s !! key (y, m, d) = None ->
  (Z.to_nat (ordinal dt) <= fuel)%nat ->
  exists s',
    _get_eur_quotation_data_for_date bcb fuel y m d s = Raised OverflowError s'
    /\ length (requests s') = (length (requests s) + Z.to_nat (ordinal dt))%nat
    /\ get_price_for_buying_eur_at_date bcb fuel y m d s = Raised OverflowError s'
    /\ get_price_for_selling_eur_at_date bcb fuel y m d s = Raised OverflowError s'.
Proof.
  intros Hp Hempty Hmiss Hfuel.
  destruct (no_data_walk (Z.to_nat (ordinal dt)) (y, m, d) dt (key (y, m, d)) s fuel
              Hp eq_refl) as (s' & Hrun & Hlen).
  - apply (Hempty (y, m, d) dt Hp). lia.
  - intros u du Hu Hlt. apply (Hempty u du Hu). lia.
  - exact Hfuel.
  - cbn [fst snd] in Hrun.
    assert (_get_eur_quotation_data_for_date bcb fuel y m d s = Raised OverflowError s')
      as Hget.
    { rewrite (get_data_miss _ _ _ _ _ _ Hmiss). exact Hrun. }
    exists s'. split; [exact Hget|]. split; [exact Hlen|].
    unfold get_price_for_buying_eur_at_date, get_price_for_selling_eur_at_date, bind.
    rewrite Hget. split; reflexivity.
Qed.

(** X5.  For a date the service has a quotation for, a resolve that misses
    the cache sends one request and files the answer under the date; the
    purchase rate is [cotacaoCompra] of the first quotation; from then on
    both accessors answer for that date from the cache, with no request
    and whatever the fuel: the sale rate is [cotacaoVenda] of the same
    quotation. *)
Theorem published_date_is_cached (y m d : string) (q : quotation) (qs : list quotation)
    (s : resolver_state) (fuel : nat) :
  value (bcb (key (y, m, d))) = q :: qs ->
  BCB_CACHE_FOR_EUR_REQUESTS s !! key (y, m, d) = None ->
  (0 < fuel)%nat ->
  let s1 := mkResolver (<[key (y, m, d) := bcb (key (y, m, d))]>
                          (BCB_CACHE_FOR_EUR_REQUESTS s))
                       (requests s ++ [key (y, m, d)]) in
  get_price_for_buying_eur_at_date bcb fuel y m d s = Returned (PNum (cotacaoCompra q)) s1
  /\ get_price_for_selling_eur_at_date bcb fuel y m d s = Returned (PNum (cotacaoVenda q)) s1
  /\ forall fuel',
       get_price_for_buying_eur_at_date bcb fuel' y m d s1
       = Returned (PNum (cotacaoCompra q)) s1
       /\ get_price_for_selling_eur_at_date bcb fuel' y m d s1
          = Returned (PNum (cotacaoVenda q)) s1.
Proof.
  intros Hq Hmiss Hfuel s1.
  destruct fuel as [|fuel]; [lia|].
  assert (_get_eur_quotation_data_for_date bcb (S fuel) y m d s
          = Returned (bcb (key (y, m, d))) s1) as Hget.
  { rewrite (get_data_miss _ _ _ _ _ _ Hmiss). unfold fetch_from.
    apply fetch_loop_found. rewrite Hq. discriminate. }
  assert (forall fuel', _get_eur_quotation_data_for_date bcb fuel' y m d s1
                        = Returned (bcb (key (y, m, d))) s1) as Hhit.
  { intros fuel'. apply get_data_hit. unfold s1. cbn [BCB_CACHE_FOR_EUR_REQUESTS].
    apply lookup_insert_eq. }
  unfold get_price_for_buying_eur_at_date, get_price_for_selling_eur_at_date, bind.
  rewrite Hget. unfold first_quotation. rewrite Hq.
  split; [reflexivity|]. split; [reflexivity|].
  intros fuel'. rewrite Hhit, Hq. split; reflexivity.
Qed.

End ResolverWalk.

(** ** The date of an entry *)

Section DatePieces.
Context {N : PyNumber}.
Variable bcb : string -> response.

Lemma split_dash_aux_nonempty (s piece : string) : split_dash_aux s piece <> [].
Proof.
  revert piece. induction s as [|c s IH]; intros piece; simpl; [discriminate|].
  destruct (Ascii.eqb c dash); [discriminate | apply IH].
Qed.

Lemma rev_app_acc (s acc : string) : String.rev_app s acc = String.rev s +:+ acc.
Proof.
  unfold String.rev. revert acc. induction s as [|c s IH]; intros acc; [reflexivity|].
  simpl. rewrite (IH (String c acc)), (IH (String c "")), string_app_assoc. reflexivity.
Qed.

Lemma rev_cons (c : ascii) (s : string) : String.rev (String c s) = String.rev s +:+ String c "".
Proof. unfold String.rev at 1. simpl. apply rev_app_acc. Qed.

Lemma join_dash_cons (piece : string) (rest : list string) :
  rest <> [] -> join_dash (piece :: rest) = piece +:+ "-" +:+ join_dash rest.
Proof. destruct rest; [congruence | reflexivity]. Qed.

Lemma join_split_dash_aux (s piece : string) :
  join_dash (split_dash_aux s piece) = String.rev piece +:+ s.
Proof.
  revert piece. induction s as [|c s IH]; intros piece; cbn [split_dash_aux].
  - cbn [join_dash]. rewrite string_app_nil_r. reflexivity.
  - destruct (Ascii.eqb_spec c dash) as [->|Hc].
    + rewrite join_dash_cons by apply split_dash_aux_nonempty.
      rewrite IH. reflexivity.
    + rewrite IH, rev_cons, string_app_assoc. reflexivity.
Qed.

Lemma has_dash_app (a b : string) : has_dash (a +:+ b) = has_dash a || has_dash b.
Proof.
  induction a as [|c a IH]; [reflexivity|].
  rewrite append_cons. simpl. rewrite IH, orb_assoc. reflexivity.
Qed.

Lemma has_dash_rev (s : string) : has_dash (String.rev s) = has_dash s.
Proof.
  induction s as [|c s IH]; [reflexivity|].
  rewrite rev_cons, has_dash_app, IH. simpl. rewrite orb_false_r. apply orb_comm.
Qed.

Lemma split_dash_aux_no_dash (s piece : string) :
  has_dash piece = false ->
  Forall (fun p => has_dash p = false) (split_dash_aux s piece).
Proof.
  revert piece. induction s as [|c s IH]; intros piece Hp; simpl.
  - repeat constructor. rewrite has_dash_rev. exact Hp.
  - destruct (Ascii.eqb c dash) eqn:Ec.
    + constructor; [rewrite has_dash_rev; exact Hp | apply IH; reflexivity].
    + apply IH. simpl. rewrite Ec, Hp. reflexivity.
Qed.

Lemma shape_digit (c : ascii) :
  match digit_of_ascii c with Some _ => "0"%char | None => c end = "0"%char ->
  exists n, digit_of_ascii c = Some n.
Proof.
  destruct (digit_of_ascii c) as [n|] eqn:E; [eauto|].
  intros ->. discriminate E.
Qed.

Lemma shape_dash (c : ascii) :
  match digit_of_ascii c with Some _ => "0"%char | None => c end = "-"%char ->
  c = "-"%char.
Proof. destruct (digit_of_ascii c); [discriminate | auto]. Qed.

Lemma digit_not_dash (c : ascii) (n : Z) : digit_of_ascii c = Some n -> Ascii.eqb c dash = false.
Proof.
  intros H. destruct (Ascii.eqb_spec c dash) as [->|]; [discriminate H | reflexivity].
Qed.

(** An ISO date is ten characters: four digits, a dash, two digits, a
    dash, two digits. *)
Lemma iso_date_chars (s : string) :
  iso_date s ->
  exists c0 c1 c2 c3 c5 c6 c8 c9 : ascii,
    s = String c0 (String c1 (String c2 (String c3 (String "-"
          (String c5 (String c6 (String "-" (String c8 (String c9 "")))))))))
    /\ Forall (fun c => exists n, digit_of_ascii c = Some n) [c0; c1; c2; c3; c5; c6; c8; c9].
Proof.
  unfold iso_date. intros H.
  do 10 (destruct s as [|? s]; [discriminate H|]).
  destruct s; [|discriminate H].
  simpl in H.
  injection H as H0 H1 H2 H3 H4 H5 H6 H7 H8 H9.
  apply shape_dash in H4, H7. subst.
  apply shape_digit in H0, H1, H2, H3, H5, H6, H8, H9.
  eexists _, _, _, _, _, _, _, _. split; [reflexivity|].
  repeat constructor; assumption.
Qed.

(** X6.  [get_date_as_tuple] cuts the date at its dashes and loses nothing:
    the pieces hold no dash and joined by dashes give the date back.  For a
    date in ISO form it returns three pieces, the year of four digits and
    the month and the day of two, which is what the two rate accessors take
    and [int] reads; the first request of the resolver is then for
    month-day-year. *)
Theorem get_date_as_tuple_pieces (s : string) :
  (exists pieces,
     get_date_as_tuple (PStr s) = inr pieces
     /\ join_dash pieces = s
     /\ Forall (fun p => has_dash p = false) pieces)
  /\ (iso_date s ->
      exists year month day,
        get_date_as_tuple (PStr s) = inr [year; month; day]
        /\ s = year +:+ "-" +:+ month +:+ "-" +:+ day
        /\ shape year = "0000" /\ shape month = "00" /\ shape day = "00"
        /\ (exists y m d, py_int year = inr y /\ py_int month = inr m /\ py_int day = inr d)
        /\ key (year, month, day) = month +:+ "-" +:+ day +:+ "-" +:+ year).
Proof.
  split.
  - exists (split_dash s). split; [reflexivity|]. split.
    + unfold split_dash. rewrite join_split_dash_aux. reflexivity.
    + apply split_dash_aux_no_dash. reflexivity.
  - intros Hiso.
    destruct (iso_date_chars s Hiso)
      as (c0 & c1 & c2 & c3 & c5 & c6 & c8 & c9 & -> & Hd).
    repeat (apply Forall_cons in Hd as [[? ?] Hd]).
    exists (String c0 (String c1 (String c2 (String c3 "")))),
           (String c5 (String c6 "")), (String c8 (String c9 "")).
    split.
    { unfold get_date_as_tuple, split_dash. cbn [split_dash_aux].
      repeat match goal with
             | H : digit_of_ascii ?c = Some _ |- context [Ascii.eqb ?c dash] =>
                 rewrite (digit_not_dash c _ H)
             end.
      reflexivity. }
    split; [reflexivity|].
    unfold py_int. cbn [shape int_of_digits].
    repeat match goal with
           | H : digit_of_ascii ?c = Some _ |- context [digit_of_ascii ?c] => rewrite H
           end.
    repeat split; try reflexivity.
    eexists _, _, _. repeat split; reflexivity.
Qed.

End DatePieces.

(** ** Steps of the pass that fail, and what a pass keeps *)

Section ProcessorEdges.
Context {N : PyNumber}.
Variable bcb : string -> response.

Ltac step_in H :=
  repeat (first [rewrite bind_getattr in H | rewrite bind_setattr in H
                | rewrite bind_lift in H | rewrite bind_with_resolver in H];
          cbn [transaction frame_resolver] in H).

Ltac step :=
  repeat (first [rewrite bind_getattr | rewrite bind_setattr
                | rewrite bind_lift | rewrite bind_with_resolver];
          cbn [transaction frame_resolver]).

Lemma call_with_date_wrong_arity {A} (f : string -> string -> string -> M resolver_state A)
    (args : list string) (r : resolver_state) :
  length args <> 3%nat -> call_with_date f args r = Raised TypeError r.
Proof.
  destruct args as [|a [|b [|c [|? ?]]]]; simpl; intros H; try reflexivity. congruence.
Qed.

(** X7.  An entry whose date is no text (an empty cell reads as NaN) ends
    the pass with [AttributeError], and one whose date has not exactly two
    dashes with [TypeError]; either way before any request is sent and with
    the entry as it was. *)
Theorem malformed_date_is_refused (fuel : nat) (st : totals) (t : StockTransactionEntry)
    (r : resolver_state) :
  op_type t = POp BUY \/ op_type t = POp SELL ->
  match date t with
  | PStr s =>
      length (split_dash s) <> 3%nat ->
      process_one bcb fuel st (mkFrame t r) = Raised TypeError (mkFrame t r)
  | _ => process_one bcb fuel st (mkFrame t r) = Raised AttributeError (mkFrame t r)
  end.
Proof.
  intros Hop. unfold process_one. rewrite bind_getattr. cbn [transaction].
  destruct Hop as [-> | ->]; unfold process_buy, process_sell; step;
    destruct (date t) as [| |s| |]; try reflexivity;
    intros Hlen; cbn [get_date_as_tuple]; step;
    rewrite call_with_date_wrong_arity by exact Hlen; reflexivity.
Qed.

Lemma with_resolver_raised {A} (m : M resolver_state A) (f f' : frame) (e : exn) :
  with_resolver m f = Raised e f' -> transaction f' = transaction f.
Proof.
  unfold with_resolver. destruct (m (frame_resolver f)); intros [= <- <-] || discriminate.
  reflexivity.
Qed.

(** X8.  A purchase step computes everything before it writes anything:
    when it raises, whatever the exception, the entry is as it was. *)
Theorem failed_purchase_leaves_entry (fuel : nat) (st : totals)
    (t : StockTransactionEntry) (r : resolver_state) (e : exn) (f' : frame) :
  op_type t = POp BUY ->
  process_one bcb fuel st (mkFrame t r) = Raised e f' ->
  transaction f' = t.
Proof.
  intros Hop. unfold process_one. rewrite bind_getattr. cbn [transaction]. rewrite Hop.
  unfold process_buy. intros H. step_in H.
  destruct (get_date_as_tuple (date t)) as [|args]; [injection H as _ <-; reflexivity|].
  step_in H.
  destruct (call_with_date (get_price_for_buying_eur_at_date bcb fuel) args r)
    as [rate r1|e1 r1|]; [|injection H as _ <-; reflexivity|discriminate].
  repeat (step_in H;
          match type of H with
          | context [match ?x with _ => _ end] =>
              destruct x; [injection H as _ <-; reflexivity|]
          end).
  step_in H. discriminate H.
Qed.

(** X9.  A sale step writes as it goes.  When the execution price of the
    entry is no number (a file without the column [price_eur] loads it as
    [None]) and the rest is in order, the step raises [TypeError] after it
    has written the rate, the running quantity, the profit and the average
    price on the entry; [price_brl] and [tax] are as they were. *)
Theorem sale_without_price_is_half_written (fuel : nat) (t : StockTransactionEntry)
    (held cost avg q np rate : num) (r r' : resolver_state) :
  op_type t = POp SELL -> qty t = PNum q -> net_proceeds t = PNum np ->
  (forall x, price_eur t <> PNum x) ->
  rate_of (get_price_for_selling_eur_at_date bcb) fuel t r (PNum rate) r' ->
  let gain := num_sub (num_mul rate np) (num_mul q avg) in
  let t' := set_avg_price (PNum avg)
              (set_profit (PNum gain)
                 (set_total_qty (PNum (num_sub held q))
                    (set_cur_conv_rate (PNum rate) t))) in
  process_one bcb fuel (mkTotals (PNum held) (PNum cost) (PNum avg)) (mkFrame t r)
  = Raised TypeError (mkFrame t' r')
  /\ cur_conv_rate t' = PNum rate /\ total_qty t' = PNum (num_sub held q)
  /\ profit t' = PNum gain /\ avg_price t' = PNum avg
  /\ price_brl t' = price_brl t /\ tax t' = tax t.
Proof.
  intros Hop Hq Hnp Hpe (args & Hd & Hr) gain t'.
  split; [|repeat split].
  unfold process_one. rewrite bind_getattr. cbn [transaction]. rewrite Hop.
  unfold process_sell. step. rewrite Hd. step. rewrite Hr.
  repeat (step; rewrite ?Hq, ?Hnp;
          cbn [py_sub py_mul py_arith cur_total_qty cur_total_cost_brl current_avg_price
               qty net_proceeds price_eur set_avg_price set_profit set_total_qty
               set_cur_conv_rate]).
  destruct (price_eur t) as [|x| | |] eqn:E; try reflexivity.
  exfalso. exact (Hpe x eq_refl).
Qed.

(** X10.  A purchase that brings the running quantity to zero (of zero
    shares, or one that just covers an oversold position) divides by it:
    [ZeroDivisionError], the entry as it was. *)
Theorem purchase_to_zero_quantity (fuel : nat) (t : StockTransactionEntry)
    (held cost avg q pe rate : num) (r r' : resolver_state) :
  op_type t = POp BUY -> qty t = PNum q -> price_eur t = PNum pe ->
  rate_of (get_price_for_buying_eur_at_date bcb) fuel t r (PNum rate) r' ->
  num_is_zero (num_add held q) = true ->
  process_one bcb fuel (mkTotals (PNum held) (PNum cost) (PNum avg)) (mkFrame t r)
  = Raised ZeroDivisionError (mkFrame t r').
Proof.
  intros Hop Hq Hpe (args & Hd & Hr) Hz.
  unfold process_one. rewrite bind_getattr. cbn [transaction]. rewrite Hop.
  unfold process_buy. step. rewrite Hd. step. rewrite Hr.
  repeat (step; rewrite ?Hq, ?Hpe;
          cbn [py_add py_mul py_arith cur_total_qty cur_total_cost_brl]).
  unfold py_truediv. rewrite Hz. reflexivity.
Qed.

Lemma transition_keeps (fuel : nat) (st st' : totals) (t t' : StockTransactionEntry)
    (r r' : resolver_state) :
  transition bcb fuel st (mkFrame t r) st' (mkFrame t' r') ->
  (op_type t = POp BUY ->
   net_proceeds t' = net_proceeds t /\ profit t' = profit t /\ tax t' = tax t
   /\ is_Some (total_cost_brl t'))
  /\ (op_type t = POp SELL -> total_cost_brl t' = total_cost_brl t).
Proof.
  inversion 1; subst; simpl; split; intros; try congruence; eauto.
Qed.

Lemma returned_pass_shape (fuel : nat) (ledger : list StockTransactionEntry)
    (r : resolver_state) (registry : list nat) (s' : store) :
  process_transactions bcb fuel (seq 0 (length ledger)) (mkStore ledger r)
    = Returned registry s' ->
  registry = seq 0 (length ledger) /\ length (heap s') = length ledger.
Proof.
  intros Hrun.
  destruct (process_transactions_pass _ _ _ _ _ _ Hrun) as [st' Hp].
  split; [|exact (pass_length _ _ _ _ _ _ _ _ Hp)].
  rewrite process_transactions_fresh in Hrun.
  destruct (run_list bcb fuel ledger seed r); [|discriminate..].
  injection Hrun as <- _. reflexivity.
Qed.

(** X11.  A pass that returns hands back the registry it was given, with
    as many entries; on no entry has it changed the date, the operation,
    the quantity, the conversion direction, the unit price or the net
    proceeds; on a purchase it has left profit and tax alone and has
    added [total_cost_brl]; on a sale it never adds that attribute. *)
Theorem pass_keeps_inputs (fuel : nat) (ledger : list StockTransactionEntry)
    (r : resolver_state) (registry : list nat) (s' : store) :
  process_transactions bcb fuel (seq 0 (length ledger)) (mkStore ledger r)
    = Returned registry s' ->
  registry = seq 0 (length ledger)
  /\ length (heap s') = length ledger
  /\ forall (i : nat) (t t' : StockTransactionEntry),
       ledger !! i = Some t -> heap s' !! i = Some t' ->
       date t' = date t /\ op_type t' = op_type t /\ qty t' = qty t
       /\ cur_conv_type t' = cur_conv_type t /\ price_eur t' = price_eur t
       /\ net_proceeds t' = net_proceeds t
       /\ (op_type t = POp BUY ->
           profit t' = profit t /\ tax t' = tax t /\ is_Some (total_cost_brl t'))
       /\ (op_type t = POp SELL -> total_cost_brl t' = total_cost_brl t).
Proof.
  intros Hrun.
  destruct (process_transactions_pass _ _ _ _ _ _ Hrun) as [st' Hp].
  destruct (returned_pass_shape _ _ _ _ _ Hrun) as [Hreg Hlen].
  split; [exact Hreg|]. split; [exact Hlen|].
  intros i t t' Hl Hh.
  destruct (pass_lookup _ _ _ _ _ _ _ _ Hp i t' Hh)
    as (t0 & sa & sb & ra & rb & Hl0 & Htr & _ & _).
  rewrite Hl in Hl0. injection Hl0 as <-.
  destruct (transition_fields _ _ _ _ _ _ _ _ Htr) as (Hd & Ho & Hq & Hpe & Hnp & Hc & _ & _).
  destruct (transition_keeps _ _ _ _ _ _ _ Htr) as [Hb Hs].
  split; [exact Hd|]. split; [exact Ho|]. split; [exact Hq|]. split; [exact Hc|].
  split; [exact Hpe|]. split; [exact Hnp|].
  split; [intros Hop; destruct (Hb Hop) as (_ & ? & ? & ?); auto | exact Hs].
Qed.





End ProcessorEdges.

(** ** The cost basis, in exact decimals *)

Section CostBasis.
Variable bcb : string -> @response Decimal.




End CostBasis.

(** ** The order of the assembled ledger is the only one *)

Section AssemblerOrder.
Context {N : PyNumber}.

Lemma filter_rank_nil {A} (rank : A -> Z) (l : list A) :
  (forall k, filter (fun t => rank t = k) l = []) -> l = [].
Proof.
  destruct l as [|x l]; [reflexivity|]. intros H. specialize (H (rank x)).
  rewrite filter_cons_True in H by reflexivity. discriminate H.
Qed.

Lemma filter_rank_head {A} (rank : A -> Z) (x : A) (l : list A) (k : Z) :
  Forall (fun t => rank x <= rank t) l ->
  filter (fun t => rank t = k) (x :: l) <> [] -> rank x <= k.
Proof.
  intros Hall Hne.
  destruct (filter (fun t => rank t = k) (x :: l)) as [|z zs] eqn:E; [congruence|].
  assert (z ∈ filter (fun t => rank t = k) (x :: l)) as Hz by (rewrite E; left).
  apply list_elem_of_filter in Hz as [<- Hz].
  apply elem_of_cons in Hz as [->|Hz]; [lia|].
  rewrite Forall_forall in Hall. apply Hall, Hz.
Qed.

(** Two lists in the order of [rank] that hold, for every rank, the same
    entries in the same order are the same list. *)
Lemma sorted_unique {A} (rank : A -> Z) (l l' : list A) :
  StronglySorted (fun a b => rank a <= rank b) l ->
  StronglySorted (fun a b => rank a <= rank b) l' ->
  (forall k, filter (fun t => rank t = k) l = filter (fun t => rank t = k) l') ->
  l = l'.
Proof.
  intros Hs. revert l'. induction Hs as [|x l Hs IH Hx]; intros l' Hs' Hf.
  - symmetry. apply (filter_rank_nil rank). intros k. rewrite <- Hf. reflexivity.
  - destruct Hs' as [|y l' Hs' Hy].
    { specialize (Hf (rank x)). rewrite filter_cons_True in Hf by reflexivity.
      discriminate Hf. }
    assert (rank x = rank y) as Hxy.
    { apply Z.le_antisymm.
      - apply (filter_rank_head rank x l (rank y) Hx). rewrite Hf.
        rewrite filter_cons_True by reflexivity. discriminate.
      - apply (filter_rank_head rank y l' (rank x) Hy). rewrite <- Hf.
        rewrite filter_cons_True by reflexivity. discriminate. }
    pose proof (Hf (rank x)) as Hfx.
    rewrite filter_cons_True in Hfx by reflexivity.
    rewrite filter_cons_True in Hfx by (symmetry; exact Hxy).
    injection Hfx as -> Hfx. f_equal. apply IH; [exact Hs'|].
    intros k. destruct (decide (rank y = k)) as [<-|Hk]; [exact Hfx|].
    specialize (Hf k). rewrite !filter_cons_False in Hf by exact Hk. exact Hf.
Qed.

(** X14.  The assembled ledger is fixed by what it has to be: any list
    that holds the entries built from the records in the order of (date,
    purchase before sale), with entries of one date and operation in the
    order their records came in, is the list [merge_transactional_data]
    returns.  No other stable sort would order the ledger differently. *)
Theorem merge_result_is_unique
    (buy_transactional_data : list (pyval * pyval * pyval))
    (sell_transactional_data : list (pyval * pyval * pyval * pyval))
    (ledger : list StockTransactionEntry) :
  Forall (fun r => exists s, r.1.1 = PStr s /\ iso_date s) buy_transactional_data ->
  Forall (fun r => exists s, r.1.1.1 = PStr s /\ iso_date s) sell_transactional_data ->
  let built := map buy_entry buy_transactional_data
               ++ map sell_entry sell_transactional_data in
  StronglySorted ledger_le ledger ->
  (forall k, filter (fun t => sort_rank t = k) ledger
             = filter (fun t => sort_rank t = k) built) ->
  merge_transactional_data buy_transactional_data sell_transactional_data true
  = inr ledger.
Proof.
  intros Hbuy Hsell built Hsorted Hfilter.
  assert (Forall iso_dated built) as Hiso.
  { unfold built. apply Forall_app. split; apply Forall_map.
    - eapply Forall_impl; [exact Hbuy|]. intros [[d p] q] (s & Hd & Hs).
      exists s. split; assumption.
    - eapply Forall_impl; [exact Hsell|]. intros [[[d p] q] n] (s & Hd & Hs).
      exists s. split; assumption. }
  unfold merge_transactional_data. fold built. rewrite (list_sort_iso _ Hiso).
  f_equal. apply (sorted_unique sort_rank).
  - apply Sorted_StronglySorted; [intros a b c; lia | apply sort_by_sorted].
  - clear -Hsorted. induction Hsorted as [|x l Hs IH Hx]; constructor; [exact IH|].
    eapply Forall_impl; [exact Hx|]. intros b Hb. apply sort_rank_le, Hb.
  - intros k. rewrite sort_by_filter. symmetry. apply Hfilter.
Qed.

End AssemblerOrder.

(** ** More on persistence *)

Section PersistenceEdges.
Context {N : PyNumber}.

(** X15.  [parse_enum] returns a member of the class for exactly two
    texts, the member's [str] (class name, dot, member name) and that text
    followed by one newline, and [None] for anything else: a bare member
    name, another case, the other class or a number are all [None]. *)
Theorem parse_enum_reads_only_str_of_member (v : pyval) :
  (forall o, parse_enum OpType v = POp o
             <-> exists s, v = PStr s /\ (s = enum_str o \/ s = enum_str o +:+ newline))
  /\ (forall c, parse_enum CurrencyConversionType v = PConv c
                <-> exists s, v = PStr s /\ (s = enum_str c \/ s = enum_str c +:+ newline))
  /\ (parse_enum OpType v = PNone \/ exists o, parse_enum OpType v = POp o)
  /\ (parse_enum CurrencyConversionType v = PNone
      \/ exists c, parse_enum CurrencyConversionType v = PConv c).
Proof.
  split; [|split; [|split]].
  - intros o. split.
    + intros H.
      destruct (parse_enum_not_None OpType v) as (s & -> & e & Hs); [congruence|].
      exists s. split; [reflexivity|].
      destruct e, o, Hs as [-> | ->]; try (left; reflexivity); try (right; reflexivity);
        discriminate H.
    + intros (s & -> & [-> | ->]); destruct o; reflexivity.
  - intros c. split.
    + intros H.
      destruct (parse_enum_not_None CurrencyConversionType v) as (s & -> & e & Hs);
        [congruence|].
      exists s. split; [reflexivity|].
      destruct e, c, Hs as [-> | ->]; try (left; reflexivity); try (right; reflexivity);
        discriminate H.
    + intros (s & -> & [-> | ->]); destruct c; reflexivity.
  - destruct (parse_enum OpType v) as [|x|s0|o|c] eqn:E; eauto;
      destruct (parse_enum_not_None OpType v) as (s & -> & e & Hs); try congruence;
      destruct e, Hs as [-> | ->]; discriminate E.
  - destruct (parse_enum CurrencyConversionType v) as [|x|s0|o|c] eqn:E; eauto;
      destruct (parse_enum_not_None CurrencyConversionType v) as (s & -> & e & Hs);
      try congruence; destruct e, Hs as [-> | ->]; discriminate E.
Qed.




End PersistenceEdges.

(** ** What a saved file holds *)

Section SavedFile.
Context {N : PyNumber}.

Lemma add_entry_columns (b : bool) (t : StockTransactionEntry) :
  foldl add_column (with_total_cost_brl b) (map fst (entry_dict t))
  = with_total_cost_brl (b || has_total_cost_brl t).
Proof.
  unfold entry_dict, has_total_cost_brl.
  destruct b, (total_cost_brl t); reflexivity.
Qed.

Lemma first_entry_columns (t : StockTransactionEntry) :
  foldl add_column [] (map fst (entry_dict t)) = with_total_cost_brl (has_total_cost_brl t).
Proof.
  unfold entry_dict, has_total_cost_brl. destruct (total_cost_brl t); reflexivity.
Qed.

Lemma more_entries_columns (entries : list StockTransactionEntry) (b : bool) :
  foldl (fun cols d => foldl add_column cols (map fst d)) (with_total_cost_brl b)
        (map entry_dict entries)
  = with_total_cost_brl (b || existsb has_total_cost_brl entries).
Proof.
  revert b. induction entries as [|t entries IH]; intros b; cbn [map foldl existsb].
  - rewrite orb_false_r. reflexivity.
  - rewrite add_entry_columns, IH, orb_assoc. reflexivity.
Qed.











End SavedFile.

(** ** The flows *)

Section FlowFacts.
Context {N : PyNumber}.
Variable bcb : string -> response.
Variable extract_buy_data_from_pdf : string -> Z -> exn + list (pyval * pyval * pyval).
Variable extract_sell_data_from_spreadsheet :
  string -> Z -> exn + list (pyval * pyval * pyval * pyval).
Variable print_transaction_list_as_table : list StockTransactionEntry -> bool -> exn + unit.

Lemma load_keeps_files (input_path : string) (files : gmap string sheet) :
  match load_stock_entries_from_excel input_path files with
  | Returned _ files' | Raised _ files' => files' = files
  | Hung => False
  end.
Proof.
  unfold load_stock_entries_from_excel, bind, get.
  destruct (files !! input_path) as [sh|]; [|reflexivity].
  destruct (load_rows sh (rows sh)); reflexivity.
Qed.

Lemma load_all_keeps_files (input_files : list string) (files : gmap string sheet) :
  match load_all input_files files with
  | Returned _ files' | Raised _ files' => files' = files
  | Hung => False
  end.
Proof.
  induction input_files as [|p ps IH]; cbn [load_all]; [reflexivity|].
  unfold bind at 1. pose proof (load_keeps_files p files) as H.
  destruct (load_stock_entries_from_excel p files) as [entries f1|e f1|];
    [subst f1|exact H|exact H].
  unfold bind. destruct (load_all ps files) as [more f2|e f2|]; exact IH.
Qed.



(** X20.  [merge_data] writes all or nothing: it ends for every input, and
    when it raises (a file that is missing, a sheet without a required
    column, dates that do not compare) no file has been written or
    changed.  With an input path that names no file it raises. *)
Theorem merge_data_writes_all_or_nothing (input_files : list string)
    (output_path : string) (files : gmap string sheet) :
  match merge_data input_files output_path files with
  | Returned _ files' =>
      exists merged, files' = <[output_path := to_excel (map entry_dict merged)]> files
  | Raised e files' =>
      files' = files
  | Hung => False
  end
  /\ (forall path, In path input_files -> files !! path = None ->
      exists e, merge_data input_files output_path files = Raised e files).
Proof.
  assert (forall path, In path input_files -> files !! path = None ->
          exists e, load_all input_files files = Raised e files) as Hmissing.
  { intros path. induction input_files as [|p ps IH]; [intros []|].
    intros Hin Hnone. cbn [load_all]. unfold bind at 1.
    pose proof (load_keeps_files p files) as Hk.
    destruct (load_stock_entries_from_excel p files) as [entries f1|e f1|] eqn:E;
      [subst f1|subst f1; eauto|contradiction].
    destruct Hin as [->|Hin].
    { unfold load_stock_entries_from_excel, bind, get in E. rewrite Hnone in E.
      discriminate E. }
    destruct (IH Hin Hnone) as [e He]. unfold bind. rewrite He. eauto. }
  unfold merge_data. unfold bind at 1 3.
  pose proof (load_all_keeps_files input_files files) as Hk.
  destruct (load_all input_files files) as [entries f1|e f1|];
    [subst f1|subst f1|contradiction].
  - split.
    + unfold bind. destruct (list_sort sort_by_date entries) as [e|merged];
        cbn [lift raise ret]; [reflexivity|]. exists merged. reflexivity.
    + intros path Hin Hnone. destruct (Hmissing path Hin Hnone) as [e He]. discriminate He.
  - split; [reflexivity|]. intros path Hin Hnone. eauto.
Qed.

Lemma omap_lookup_seq {A} (pre l : list A) :
  omap (fun ref => (pre ++ l) !! ref) (seq (length pre) (length l)) = l.
Proof.
  revert pre. induction l as [|x l IH]; intros pre; [reflexivity|].
  cbn [length seq omap list_omap]. rewrite list_lookup_middle by reflexivity.
  f_equal. specialize (IH (pre ++ [x])).
  rewrite length_app, <- app_assoc in IH. simpl in IH. rewrite Nat.add_1_r in IH.
  exact IH.
Qed.

(** X21.  The process flow writes all or nothing.  [process_data] changes
    no file unless the load and the whole pass returned; then it has
    written, at the output path only, the sheet of the entries as the pass
    left them.  The table is printed after the file is written: when the
    printing raises, the file is there.  The rates cached during a pass
    that raised stay cached. *)
Theorem process_data_writes_all_or_nothing (fuel : nat) (print_output reverse : bool)
    (input_path output_path : string) (w : world) :
  match process_data_and_print bcb print_transaction_list_as_table fuel print_output reverse
          input_path output_path w with
  | Returned _ w' =>
      exists ledger s',
        load_stock_entries_from_excel input_path (files w) = Returned ledger (files w)
        /\ process_transactions bcb fuel (seq 0 (length ledger))
             (mkStore ledger (bcb_state w))
           = Returned (seq 0 (length ledger)) s'
        /\ w' = mkWorld (<[output_path := to_excel (map entry_dict (heap s'))]> (files w))
                        (resolver s')
        /\ (print_output = true ->
            print_transaction_list_as_table (heap s') reverse = inr tt)
  | Raised e w' =>
      files w' = files w
      \/ exists s',
           print_output = true
           /\ print_transaction_list_as_table (heap s') reverse = inl e
           /\ w' = mkWorld (<[output_path := to_excel (map entry_dict (heap s'))]> (files w))
                           (resolver s')
  | Hung =>
      exists ledger,
        process_transactions bcb fuel (seq 0 (length ledger))
          (mkStore ledger (bcb_state w)) = Hung
  end
  /\ process_data_and_print bcb print_transaction_list_as_table fuel false reverse
       input_path output_path w
     = process_data bcb fuel input_path output_path w.
Proof.
  split; [|reflexivity].
  unfold process_data_and_print.
  pose proof (load_keeps_files input_path (files w)) as Hk.
  destruct (load_stock_entries_from_excel input_path (files w)) as [ledger f1|e f1|];
    [subst f1|left; reflexivity|contradiction].
  destruct (process_transactions bcb fuel (seq 0 (length ledger))
              (mkStore ledger (bcb_state w))) as [registry s'|e s'|] eqn:Erun;
    [|left; reflexivity|exists ledger; exact Erun].
  destruct (returned_pass_shape bcb fuel ledger (bcb_state w) registry s' Erun)
    as [-> Hlen].
  replace (omap (fun ref => heap s' !! ref) (seq 0 (length ledger))) with (heap s')
    by (rewrite <- Hlen; symmetry; apply (omap_lookup_seq [] (heap s'))).
  cbn [save_stock_entries_to_excel modify].
  destruct print_output.
  - destruct (print_transaction_list_as_table (heap s') reverse) as [e|[]] eqn:Ep.
    + right. exists s'. split; [reflexivity|]. split; [exact Ep | reflexivity].
    + exists ledger, s'. split; [reflexivity|]. split; [exact Erun|].
      split; [reflexivity|]. intros _. exact Ep.
  - exists ledger, s'. split; [reflexivity|]. split; [exact Erun|].
    split; [reflexivity|]. discriminate.
Qed.

End FlowFacts.

(** ** The extract flow and the command line *)

Section CommandLine.
Context {N : PyNumber}.
Variable bcb : string -> response.
Variable extract_buy_data_from_pdf : string -> Z -> exn + list (pyval * pyval * pyval).
Variable extract_sell_data_from_spreadsheet :
  string -> Z -> exn + list (pyval * pyval * pyval * pyval).
Variable print_transaction_list_as_table : list StockTransactionEntry -> bool -> exn + unit.




Lemma endswith_refl (s : string) : endswith s s = true.
Proof. destruct s; simpl; rewrite ?Ascii.eqb_refl, ?String.eqb_refl; reflexivity. Qed.

Lemma endswith_app (a b : string) : endswith (a +:+ b) b = true.
Proof.
  induction a as [|c a IH]; [apply endswith_refl|].
  rewrite append_cons. cbn [endswith]. rewrite IH. apply orb_true_r.
Qed.

Lemma length_append (a b : string) :
  String.length (a +:+ b) = (String.length a + String.length b)%nat.
Proof.
  induction a as [|c a IH]; [reflexivity|]. rewrite append_cons. simpl. rewrite IH.
  reflexivity.
Qed.

(** X23.  [ensure_xlsx_extension] returns a path that ends in [.xlsx]; it
    returns the path it was given exactly when that one ends in [.xlsx]
    (in lower case), and appends the extension otherwise; applied twice it
    does what it does once. *)
Theorem ensure_xlsx_extension_once (path : string) :
  endswith (ensure_xlsx_extension path) ".xlsx" = true
  /\ ensure_xlsx_extension (ensure_xlsx_extension path) = ensure_xlsx_extension path
  /\ (ensure_xlsx_extension path = path <-> endswith path ".xlsx" = true)
  /\ (endswith path ".xlsx" = false -> ensure_xlsx_extension path = path +:+ ".xlsx").
Proof.
  assert (endswith (ensure_xlsx_extension path) ".xlsx" = true) as H.
  { unfold ensure_xlsx_extension. destruct (endswith path ".xlsx") eqn:E; [exact E|].
    apply endswith_app. }
  split; [exact H|]. split.
  { unfold ensure_xlsx_extension at 1. rewrite H. reflexivity. }
  unfold ensure_xlsx_extension. destruct (endswith path ".xlsx") eqn:E.
  - split; [split; reflexivity | discriminate].
  - split; [|reflexivity]. split; [|discriminate].
    intros Heq. apply (f_equal String.length) in Heq.
    rewrite length_append in Heq. simpl in Heq. lia.
Qed.

(** X24.  The extract and the process command never touch a file that
    exists: when the output path, with [.xlsx] appended if it lacks it,
    names a file, the run ends with exit status 1 before anything is read,
    asked or written.  The input path of the process command is taken as it
    is given, without the extension: when it names no file the run ends in
    [FileNotFoundError], whatever other files there are. *)
Theorem existing_output_ends_the_run (fuel : nat) (args : Namespace) (w : world) :
  match args with
  | cmd_extract _ _ _ out =>
      os_path_exists (ensure_xlsx_extension out) w = true ->
      main bcb extract_buy_data_from_pdf extract_sell_data_from_spreadsheet
        print_transaction_list_as_table fuel args w = SystemExit 1 w
  | cmd_process _ _ input_path out =>
      (os_path_exists (ensure_xlsx_extension out) w = true ->
       main bcb extract_buy_data_from_pdf extract_sell_data_from_spreadsheet
         print_transaction_list_as_table fuel args w = SystemExit 1 w)
      /\ (os_path_exists (ensure_xlsx_extension out) w = false ->
          files w !! input_path = None ->
          main bcb extract_buy_data_from_pdf extract_sell_data_from_spreadsheet
            print_transaction_list_as_table fuel args w = Uncaught FileNotFoundError w)
  | cmd_merge _ _ => True
  end.
Proof.
  destruct args as [year buy_data sell_data out|input_files out|p r input_path out];
    cbn [main]; unfold prevent_overwrite; [|exact I|].
  - intros ->. reflexivity.
  - split; [intros ->; reflexivity|]. intros -> Hnone.
    unfold process_data_and_print, load_stock_entries_from_excel, bind, get.
    rewrite Hnone. reflexivity.
Qed.


End CommandLine.

(** ** The processed file, and a quantity that is missing *)

Section ProcessedFile.
Context {N : PyNumber}.
Variable bcb : string -> response.

Lemma load_rows_no_total_cost_brl (sh : sheet) (rs : list (gmap string cell))
    (entries : list StockTransactionEntry) :
  load_rows sh rs = inr entries -> Forall (fun t => total_cost_brl t = None) entries.
Proof.
  revert entries. induction rs as [|row rs IH]; intros entries; cbn [load_rows].
  - intros [= <-]. constructor.
  - destruct (load_row sh row) as [e|t] eqn:Er; [discriminate|]. cbn [ebind].
    destruct (load_rows sh rs) as [e|ts]; [discriminate|]. cbn [ebind].
    intros [= <-]. constructor; [|apply IH; reflexivity].
    unfold load_row, ebind in Er.
    repeat match type of Er with
           | match ?x with _ => _ end = _ => destruct x; [discriminate Er|]
           end.
    injection Er as <-. reflexivity.
Qed.

Lemma transition_marks (fuel : nat) (st st' : totals) (t t' : StockTransactionEntry)
    (r r' : resolver_state) :
  transition bcb fuel st (mkFrame t r) st' (mkFrame t' r') ->
  total_cost_brl t = None -> has_total_cost_brl t' = is_purchase t.
Proof.
  unfold has_total_cost_brl, is_purchase.
  inversion 1 as [? ? ? ? ? ? ? ? ? ? Hop|? ? ? ? ? ? ? ? ? ? ? ? Hop]; subst;
    cbn; rewrite Hop; [reflexivity|]. intros ->. reflexivity.
Qed.

Lemma pass_marks (fuel : nat) (st st' : totals) (l l' : list StockTransactionEntry)
    (r r' : resolver_state) :
  pass bcb fuel st l r st' l' r' ->
  Forall (fun t => total_cost_brl t = None) l ->
  existsb has_total_cost_brl l' = existsb is_purchase l.
Proof.
  induction 1 as [|st t r st1 t1 r1 l st2 l2 r2 Ht Hp IH]; intros Hall; [reflexivity|].
  apply Forall_cons in Hall as [Htc Hall]. cbn [existsb].
  rewrite (transition_marks _ _ _ _ _ _ _ Ht Htc), (IH Hall). reflexivity.
Qed.

Lemma process_data_returned (fuel : nat) (input_path output_path : string) (w : world)
    (ledger : list StockTransactionEntry) (registry : list nat) (s' : store) :
  load_stock_entries_from_excel input_path (files w) = Returned ledger (files w) ->
  process_transactions bcb fuel (seq 0 (length ledger)) (mkStore ledger (bcb_state w))
    = Returned registry s' ->
  process_data bcb fuel input_path output_path w
  = Returned tt (mkWorld (<[output_path := to_excel (map entry_dict (heap s'))]> (files w))
                         (resolver s')).
Proof.
  intros Hload Hrun. unfold process_data. rewrite Hload, Hrun.
  destruct (returned_pass_shape bcb fuel ledger (bcb_state w) registry s' Hrun)
    as [-> Hlen].
  replace (omap (fun ref => heap s' !! ref) (seq 0 (length ledger))) with (heap s')
    by (rewrite <- Hlen; symmetry; apply (omap_lookup_seq [] (heap s'))).
  reflexivity.
Qed.

(** X26.  The file [process_data] writes has one row for every row of the
    input and, when the input has rows, the twelve columns of [__init__];
    it has the thirteenth column [total_cost_brl] exactly when the ledger
    holds a purchase. *)
Theorem processed_file_header (fuel : nat) (input_path output_path : string) (w w' : world) :
  process_data bcb fuel input_path output_path w = Returned tt w' ->
  exists ledger sh,
    load_stock_entries_from_excel input_path (files w) = Returned ledger (files w)
    /\ files w' !! output_path = Some sh
    /\ length (rows sh) = length ledger
    /\ columns sh
       = match ledger with
         | [] => []
         | _ :: _ =>
             declared_columns
             ++ (if existsb is_purchase ledger then ["total_cost_brl"] else [])
         end.
Proof.
  unfold process_data.
  destruct (load_stock_entries_from_excel input_path (files w)) as [ledger f1|e f1|] eqn:El;
    [|discriminate..].
  assert (f1 = files w /\ Forall (fun t => total_cost_brl t = None) ledger) as [-> Htc].
  { unfold load_stock_entries_from_excel, bind, get in El.
    destruct (files w !! input_path) as [sh|]; [|discriminate El].
    destruct (load_rows sh (rows sh)) as [e|entries] eqn:Er; [discriminate El|].
    injection El as <- <-. split; [reflexivity|].
    eapply load_rows_no_total_cost_brl, Er. }
  destruct (process_transactions bcb fuel (seq 0 (length ledger))
              (mkStore ledger (bcb_state w))) as [registry s'|e s'|] eqn:Erun;
    [|discriminate..].
  destruct (returned_pass_shape bcb fuel ledger (bcb_state w) registry s' Erun)
    as [-> Hlen].
  destruct (process_transactions_pass _ _ _ _ _ _ Erun) as [st' Hp].
  replace (omap (fun ref => heap s' !! ref) (seq 0 (length ledger))) with (heap s')
    by (rewrite <- Hlen; symmetry; apply (omap_lookup_seq [] (heap s'))).
  cbn [save_stock_entries_to_excel modify]. intros [= <-].
  exists ledger, (to_excel (map entry_dict (heap s'))). split; [reflexivity|].
  cbn [files]. split; [apply lookup_insert_eq|].
  cbn [to_excel rows columns]. split; [rewrite !length_map; exact Hlen|].
  destruct (heap s') as [|t' l'] eqn:Eh; destruct ledger as [|t l]; try discriminate Hlen;
    [reflexivity|].
  unfold frame_columns. cbn [map foldl].
  rewrite first_entry_columns, more_entries_columns.
  change (has_total_cost_brl t' || existsb has_total_cost_brl l')
    with (existsb has_total_cost_brl (t' :: l')).
  rewrite (pass_marks _ _ _ _ _ _ _ Hp Htc). reflexivity.
Qed.

Lemma transition_nan_quantity (fuel : nat) (st st' : totals) (t t' : StockTransactionEntry)
    (r r' : resolver_state) :
  nan_absorbing N ->
  transition bcb fuel st (mkFrame t r) st' (mkFrame t' r') ->
  cur_total_qty st = PNum num_nan \/ qty t = PNum num_nan ->
  cur_total_qty st' = PNum num_nan /\ total_qty t' = PNum num_nan.
Proof.
  intros (Ha1 & Ha2 & Hs1 & Hs2).
  inversion 1 as [? ? ? ? rate tq pq pb tc av Hop Hrate H1
                 |? ? ? ? rate tq sold tc proceeds gain pb tx Hop Hrate H1]; subst;
    cbn [cur_total_qty]; unfold py_add, py_sub, py_arith in H1;
    destruct (cur_total_qty st) as [|x| | |]; try discriminate H1;
    destruct (qty t) as [|q| | |]; try discriminate H1;
    injection H1 as <-; intros [[= ->]|[= ->]]; cbn;
    rewrite ?Ha1, ?Ha2, ?Hs1, ?Hs2; split; reflexivity.
Qed.

Lemma pass_nan_quantity (fuel : nat) (st st' : totals) (l l' : list StockTransactionEntry)
    (r r' : resolver_state) :
  nan_absorbing N ->
  pass bcb fuel st l r st' l' r' ->
  forall (i : nat) (t : StockTransactionEntry),
  (cur_total_qty st = PNum num_nan \/ (l !! i = Some t /\ qty t = PNum num_nan)) ->
  forall (j : nat) (t' : StockTransactionEntry),
  (i <= j)%nat -> l' !! j = Some t' ->
  (cur_total_qty st = PNum num_nan \/ l !! i = Some t) ->
  total_qty t' = PNum num_nan.
Proof.
  intros Hnan. induction 1 as [|st t0 r st1 t1 r1 l st2 l2 r2 Ht Hp IH];
    intros i t Hi j t' Hij Hj _; [discriminate Hj|].
  assert (cur_total_qty st = PNum num_nan \/ qty t0 = PNum num_nan
          \/ (exists i', i = S i' /\ l !! i' = Some t /\ qty t = PNum num_nan)) as Hc.
  { destruct Hi as [Hi|[Hi Hq]]; [left; exact Hi|].
    destruct i as [|i']; simpl in Hi.
    - injection Hi as ->. right. left. exact Hq.
    - right. right. exists i'. repeat split; assumption. }
  destruct Hc as [Hc|[Hc|(i' & -> & Hi' & Hq)]].
  - destruct (transition_nan_quantity _ _ _ _ _ _ _ Hnan Ht (or_introl Hc)) as [H1 H2].
    destruct j as [|j]; simpl in Hj; [injection Hj as <-; exact H2|].
    apply (IH 0%nat t (or_introl H1) j t'); [lia | exact Hj | left; exact H1].
  - destruct (transition_nan_quantity _ _ _ _ _ _ _ Hnan Ht (or_intror Hc)) as [H1 H2].
    destruct j as [|j]; simpl in Hj; [injection Hj as <-; exact H2|].
    apply (IH 0%nat t (or_introl H1) j t'); [lia | exact Hj | left; exact H1].
  - destruct j as [|j]; [lia|]. simpl in Hj.
    apply (IH i' t (or_intror (conj Hi' Hq)) j t'); [lia | exact Hj | right; exact Hi'].
Qed.

(** X27.  A quantity that is missing is not refused.  In an arithmetic
    where NaN is absorbing (IEEE floats are one, and an empty [qty] cell
    loads as NaN), a pass that returns over a ledger with such an entry has
    written NaN as the running quantity on that entry and on every entry
    after it. *)
Theorem missing_quantity_poisons_the_rest (fuel : nat)
    (ledger : list StockTransactionEntry) (r : resolver_state)
    (registry : list nat) (s' : store) (i : nat) (t : StockTransactionEntry) :
  nan_absorbing N ->
  process_transactions bcb fuel (seq 0 (length ledger)) (mkStore ledger r)
    = Returned registry s' ->
  ledger !! i = Some t -> qty t = PNum num_nan ->
  forall (j : nat) (t' : StockTransactionEntry),
  (i <= j)%nat -> heap s' !! j = Some t' -> total_qty t' = PNum num_nan.
Proof.
  intros Hnan Hrun Hi Hq j t' Hij Hj.
  destruct (process_transactions_pass _ _ _ _ _ _ Hrun) as [st' Hp].
  apply (pass_nan_quantity _ _ _ _ _ _ _ Hnan Hp i t (or_intror (conj Hi Hq)) j t' Hij Hj).
  right. exact Hi.
Qed.

End ProcessedFile.

Lemma float_nan_absorbing : nan_absorbing Binary64.
Proof.
  unfold nan_absorbing. cbn [num_add num_sub num_nan Binary64].
  repeat split; intros x; apply Prim2SF_inj;
    rewrite ?add_spec, ?sub_spec; change (Prim2SF nan) with S754_nan;
    destruct (Prim2SF x) as [[|]|[|]| |[|] m e]; reflexivity.
Qed.

Lemma decimal_nan_absorbing : nan_absorbing Decimal.
Proof. unfold nan_absorbing. repeat split; intros [x|]; reflexivity. Qed.

(** ** Runs of the facts of Part IV *)


Lemma walk_bound_sunday : (walk_bound sunday < Z.to_nat 800000)%nat.
Proof.
  unfold walk_bound. change (parse_ymd sunday) with (Some (2023, 1, 8)).
  cbv beta iota. change (ordinal (2023, 1, 8)) with 738528. lia.
Qed.

Lemma miss_witness :
  match get_price_for_buying_eur_at_date bcb_weekend (Z.to_nat 800000)
          "2023" "01" "08" no_requests with
  | Returned v _ => is_number v
  | Raised e _ => e = ValueError \/ e = OverflowError
  | Hung => False
  end
  /\ match get_price_for_selling_eur_at_date bcb_weekend (Z.to_nat 800000)
             "2023" "01" "08" no_requests with
     | Returned v _ => is_number v
     | Raised e _ => e = ValueError \/ e = OverflowError
     | Hung => False
     end.
Proof.
  apply (miss_yields_rate_or_date_error bcb_weekend "2023" "01" "08" no_requests
           (Z.to_nat 800000)); [reflexivity | exact walk_bound_sunday].
Defined.

Lemma no_data_witness :
  exists s',
    _get_eur_quotation_data_for_date bcb_silent 3 "0001" "01" "03" no_requests
    = Raised OverflowError s'
    /\ length (requests s') = (length (requests no_requests) + Z.to_nat (ordinal (1, 1, 3)%Z))%nat
    /\ get_price_for_buying_eur_at_date bcb_silent 3 "0001" "01" "03" no_requests
       = Raised OverflowError s'
    /\ get_price_for_selling_eur_at_date bcb_silent 3 "0001" "01" "03" no_requests
       = Raised OverflowError s'.
Proof.
  apply (no_data_walks_to_year_one bcb_silent "0001" "01" "03" (1, 1, 3) no_requests 3%nat).
  - reflexivity.
  - reflexivity.
  - reflexivity.
  - change (ordinal (1, 1, 3)) with 3. lia.
Defined.

Lemma published_date_witness :
  let s1 := mkResolver (<[key friday := bcb_weekend (key friday)]>
                          (BCB_CACHE_FOR_EUR_REQUESTS no_requests))
                       (requests no_requests ++ [key friday]) in
  get_price_for_buying_eur_at_date bcb_weekend 1 "2023" "01" "06" no_requests
  = Returned (PNum (cotacaoCompra (mkQuotation (F 5.625) (F 5.75)))) s1
  /\ get_price_for_selling_eur_at_date bcb_weekend 1 "2023" "01" "06" no_requests
     = Returned (PNum (cotacaoVenda (mkQuotation (F 5.625) (F 5.75)))) s1
  /\ forall fuel',
       get_price_for_buying_eur_at_date bcb_weekend fuel' "2023" "01" "06" s1
       = Returned (PNum (cotacaoCompra (mkQuotation (F 5.625) (F 5.75)))) s1
       /\ get_price_for_selling_eur_at_date bcb_weekend fuel' "2023" "01" "06" s1
          = Returned (PNum (cotacaoVenda (mkQuotation (F 5.625) (F 5.75)))) s1.
Proof.
  apply (published_date_is_cached bcb_weekend "2023" "01" "06"
           (mkQuotation (F 5.625) (F 5.75)) [] no_requests 1%nat);
    [reflexivity | reflexivity | lia].
Defined.

Lemma malformed_date_witness :
  process_one example_bcb 1 seed (mkFrame undated_purchase empty_resolver)
  = Raised TypeError (mkFrame undated_purchase empty_resolver).
Proof.
  apply (malformed_date_is_refused example_bcb 1%nat seed undated_purchase empty_resolver);
    [left; reflexivity | discriminate].
Defined.

Lemma empty_purchase_step :
  process_one example_bcb 1 seed (mkFrame empty_purchase empty_resolver)
  = Raised ZeroDivisionError (mkFrame empty_purchase example_r1).
Proof. vm_compute. reflexivity. Qed.

Lemma failed_purchase_witness :
  transaction (mkFrame empty_purchase example_r1) = empty_purchase.
Proof.
  apply (failed_purchase_leaves_entry example_bcb 1%nat seed empty_purchase empty_resolver
           ZeroDivisionError (mkFrame empty_purchase example_r1));
    [reflexivity | exact empty_purchase_step].
Defined.

Lemma unpriced_sale_rate :
  rate_of (get_price_for_selling_eur_at_date example_bcb) 1 unpriced_sale
          example_r1 (PNum (D 5.2)) example_r2.
Proof. exists ["2023"; "02"; "15"]. split; reflexivity. Qed.

Lemma half_written_witness :
  let gain := num_sub (num_mul (D 5.2) (D 76)) (num_mul (D 4) (D 100)) in
  let t' := set_avg_price (PNum (D 100))
              (set_profit (PNum gain)
                 (set_total_qty (PNum (num_sub (D 10) (D 4)))
                    (set_cur_conv_rate (PNum (D 5.2)) unpriced_sale))) in
  process_one example_bcb 1 (mkTotals (PNum (D 10)) (PNum (D 1000)) (PNum (D 100)))
    (mkFrame unpriced_sale example_r1)
  = Raised TypeError (mkFrame t' example_r2)
  /\ cur_conv_rate t' = PNum (D 5.2) /\ total_qty t' = PNum (num_sub (D 10) (D 4))
  /\ profit t' = PNum gain /\ avg_price t' = PNum (D 100)
  /\ price_brl t' = price_brl unpriced_sale /\ tax t' = tax unpriced_sale.
Proof.
  apply (sale_without_price_is_half_written example_bcb 1%nat unpriced_sale
           (D 10) (D 1000) (D 100) (D 4) (D 76) (D 5.2) example_r1 example_r2);
    [reflexivity | reflexivity | reflexivity | discriminate | exact unpriced_sale_rate].
Defined.

Lemma covering_purchase_rate :
  rate_of (get_price_for_buying_eur_at_date example_bcb) 1 covering_purchase
          empty_resolver (PNum (D 5)) example_r1.
Proof. exists ["2023"; "01"; "10"]. split; reflexivity. Qed.

Lemma zero_quantity_witness :
  process_one example_bcb 1 (mkTotals (PNum (D (-4))) (PNum (D 0)) (PNum (D 0)))
    (mkFrame covering_purchase empty_resolver)
  = Raised ZeroDivisionError (mkFrame covering_purchase example_r1).
Proof.
  apply (purchase_to_zero_quantity example_bcb 1%nat covering_purchase
           (D (-4)) (D 0) (D 0) (D 4) (D 20) (D 5) empty_resolver example_r1);
    [reflexivity | reflexivity | reflexivity | exact covering_purchase_rate | reflexivity].
Defined.

Lemma pass_keeps_inputs_witness :
  [0; 1; 2]%nat = seq 0 (length example_ledger)
  /\ length (heap example_after) = length example_ledger
  /\ forall (i : nat) (t t' : StockTransactionEntry),
       example_ledger !! i = Some t -> heap example_after !! i = Some t' ->
       date t' = date t /\ op_type t' = op_type t /\ qty t' = qty t
       /\ cur_conv_type t' = cur_conv_type t /\ price_eur t' = price_eur t
       /\ net_proceeds t' = net_proceeds t
       /\ (op_type t = POp BUY ->
           profit t' = profit t /\ tax t' = tax t /\ is_Some (total_cost_brl t'))
       /\ (op_type t = POp SELL -> total_cost_brl t' = total_cost_brl t).
Proof.
  exact (pass_keeps_inputs example_bcb 1%nat example_ledger empty_resolver
           [0; 1; 2]%nat example_after example_run).
Defined.





Lemma example_purchases_iso :
  Forall (fun r : @pyval Decimal * pyval * pyval => exists s, r.1.1 = PStr s /\ iso_date s)
         example_purchases.
Proof. repeat constructor; eexists; split; reflexivity. Qed.

Lemma example_sales_iso :
  Forall (fun r : @pyval Decimal * pyval * pyval * pyval =>
            exists s, r.1.1.1 = PStr s /\ iso_date s)
         example_sales.
Proof. repeat constructor; eexists; split; reflexivity. Qed.

Lemma example_assembled_sorted : StronglySorted ledger_le example_assembled.
Proof.
  unfold example_assembled, ledger_le.
  repeat (constructor; [|repeat constructor; vm_compute; intuition congruence]).
  constructor.
Qed.

Lemma unique_witness :
  merge_transactional_data example_purchases example_sales true = inr example_assembled.
Proof.
  apply (merge_result_is_unique example_purchases example_sales example_assembled
           example_purchases_iso example_sales_iso example_assembled_sorted).
  intros k.
  change example_assembled
    with (sort_by sort_rank (map buy_entry example_purchases ++ map sell_entry example_sales)).
  apply sort_by_filter.
Defined.




Lemma example_entry_persistable (d : string) (o : OpType) (c : CurrencyConversionType)
    (q tq r a pe pb np p x : @num Decimal) :
  iso_date d ->
  persistable (new_entry (PStr d) (POp o) (PNum q) (PNum tq) (PNum r) (PConv c)
                 (PNum a) (PNum pe) (PNum pb) (PNum np) (PNum p) (PNum x)).
Proof.
  intros Hd. split; [eexists; split; [reflexivity | exact Hd]|].
  split; [right; exists o; reflexivity|].
  split; [right; exists c; reflexivity|].
  repeat split; eexists; reflexivity.
Qed.









Lemma example_input_loads :
  load_stock_entries_from_excel "output-unprocessed.xlsx" example_input
  = Returned [example_purchase; example_sale] example_input.
Proof.
  destruct (save_then_load [example_purchase; example_sale] "output-unprocessed.xlsx" ∅)
    as [_ Hl]; [|exact Hl].
  constructor; [apply example_entry_persistable; reflexivity|].
  constructor; [apply example_entry_persistable; reflexivity|constructor].
Qed.

Lemma example_pair_run :
  process_transactions example_bcb 1 (seq 0 (length [example_purchase; example_sale]))
    (mkStore [example_purchase; example_sale] empty_resolver)
  = Returned [0; 1]%nat example_pair_after.
Proof.
  refine (returned_store_of
            (process_transactions example_bcb 1
               (seq 0 (length [example_purchase; example_sale]))
               (mkStore [example_purchase; example_sale] empty_resolver)) _ _).
  vm_compute. reflexivity.
Qed.

Lemma processed_file_witness :
  let w := mkWorld example_input empty_resolver in
  let w' := mkWorld (<["output-processed.xlsx"
                       := to_excel (map entry_dict (heap example_pair_after))]> example_input)
                    (resolver example_pair_after) in
  exists ledger sh,
    load_stock_entries_from_excel "output-unprocessed.xlsx" (files w)
    = Returned ledger (files w)
    /\ files w' !! "output-processed.xlsx" = Some sh
    /\ length (rows sh) = length ledger
    /\ columns sh
       = match ledger with
         | [] => []
         | _ :: _ =>
             declared_columns
             ++ (if existsb is_purchase ledger then ["total_cost_brl"] else [])
         end.
Proof.
  exact (processed_file_header example_bcb 1%nat "output-unprocessed.xlsx"
           "output-processed.xlsx" (mkWorld example_input empty_resolver)
           (mkWorld (<["output-processed.xlsx"
                       := to_excel (map entry_dict (heap example_pair_after))]> example_input)
                    (resolver example_pair_after))
           (process_data_returned example_bcb 1%nat "output-unprocessed.xlsx"
              "output-processed.xlsx" (mkWorld example_input empty_resolver)
              [example_purchase; example_sale] [0; 1]%nat example_pair_after
              example_input_loads example_pair_run)).
Defined.

Lemma poisoned_run :
  process_transactions example_bcb 1 (seq 0 (length [unquantified_purchase; example_sale]))
    (mkStore [unquantified_purchase; example_sale] empty_resolver)
  = Returned [0; 1]%nat poisoned_after.
Proof.
  refine (returned_store_of
            (process_transactions example_bcb 1
               (seq 0 (length [unquantified_purchase; example_sale]))
               (mkStore [unquantified_purchase; example_sale] empty_resolver)) _ _).
  vm_compute. reflexivity.
Qed.

Lemma poisoned_after_sale : heap poisoned_after !! 1%nat = Some poisoned_sale_after.
Proof. vm_compute. reflexivity. Qed.

Lemma missing_quantity_witness : total_qty poisoned_sale_after = PNum num_nan.
Proof.
  apply (missing_quantity_poisons_the_rest example_bcb 1%nat
           [unquantified_purchase; example_sale] empty_resolver [0; 1]%nat poisoned_after
           0%nat unquantified_purchase decimal_nan_absorbing poisoned_run eq_refl eq_refl
           1%nat poisoned_sale_after);
    [lia | exact poisoned_after_sale].
Defined.
